(** * Hertz-Fatture: the document engine of [app.py], embedded and verified

    The development follows [class HertzProcessor] of
    [src/hertz-completo/app.py]: the two field parsers
    ([parse_preventivo], [parse_purchase_order]), the ingestion gate
    ([process_pdf]), the matcher ([get_stats]) and the invoice generator
    ([generate_xml]).

    Conventions of the embedding.
    - A Python [str] is a list of Unicode code points ([str := list N]).
    - The regular expressions of the source are written with a small
      library of backtracking matchers (lists of successes, in the priority
      order of Python's [re]), one combinator per regex construct.
    - [self.data] is an explicit record threaded through a state-and-exception
      monad: a raised exception keeps the mutations made before it, as in
      Python.
    - What Python leaves to its runtime (float arithmetic, [float()],
      [repr], [str.upper]) is an interface, class [PyRuntime]; theorems hold
      for every instance. *)

From Stdlib Require Import List ZArith NArith Bool Lia String Ascii QArith.
From Stdlib Require Import DecimalString.
From Stdlib Require Import Sorted Permutation.
Import ListNotations.

Set Implicit Arguments.
Local Open Scope Z_scope.

(* ================================================================== *)
(** * Python strings *)
(* ================================================================== *)

Module PyStr.

(** A character is a code point, a string a list of them. *)
Definition char := N.
Definition str := list char.

(** [lit "abc"] is the Python literal ['abc'] (ASCII literals of the source). *)
Definition lit (s : string) : str := map N_of_ascii (list_ascii_of_string s).

Definition euro : char := 8364%N.      (* '€' *)
Definition newline : char := 10%N.     (* '\n' *)

Definition chr_eqb (a b : char) : bool := N.eqb a b.

Fixpoint str_eqb (a b : str) : bool :=
  match a, b with
  | [], [] => true
  | x :: a', y :: b' => chr_eqb x y && str_eqb a' b'
  | _, _ => false
  end.

(** Python's [==] on values that are a [str] or [None]. *)
Definition opt_eqb (a b : option str) : bool :=
  match a, b with
  | None, None => true
  | Some x, Some y => str_eqb x y
  | _, _ => false
  end.

(** [x in xs] for a list [xs] of such values. *)
Definition py_in (x : option str) (xs : list (option str)) : bool :=
  existsb (opt_eqb x) xs.

(** Truthiness of a [str] or [None]: [None] and [''] are falsy. *)
Definition truthy (o : option str) : bool :=
  match o with
  | Some (_ :: _) => true
  | _ => false
  end.

(** [a or b] on such values. *)
Definition py_or (a b : option str) : option str :=
  if truthy a then a else b.

(** [str(x)] as an f-string prints it: [None] prints as ['None']. *)
Definition fmt_opt (o : option str) : str :=
  match o with
  | Some s => s
  | None => lit "None"
  end.

(** Character classes. [\d] is taken on the ASCII digits: the other Unicode
    decimal digits that Python's [\d] accepts are outside the model. *)
Definition is_digit (c : char) : bool := ((48 <=? c) && (c <=? 57))%N.
Definition is_upper_AZ (c : char) : bool := ((65 <=? c) && (c <=? 90))%N.

(** [\s] on a [str] pattern, which is also [str.isspace] per character. *)
Definition is_space (c : char) : bool :=
  (((9 <=? c) && (c <=? 13)) || ((28 <=? c) && (c <=? 32))
   || (c =? 133) || (c =? 160) || (c =? 5760)
   || ((8192 <=? c) && (c <=? 8202))
   || (c =? 8232) || (c =? 8233) || (c =? 8239) || (c =? 8287)
   || (c =? 12288))%N.

Fixpoint starts_with (p s : str) : bool :=
  match p, s with
  | [], _ => true
  | x :: p', y :: s' => chr_eqb x y && starts_with p' s'
  | _ :: _, [] => false
  end.

(** [p in s] on strings. *)
Fixpoint contains (p s : str) : bool :=
  starts_with p s ||
  match s with
  | [] => false
  | _ :: s' => contains p s'
  end.

(** [s.replace(old, new)] for a one-character [old]. *)
Definition replace_chr (old : char) (new : str) (s : str) : str :=
  flat_map (fun c => if chr_eqb c old then new else [c]) s.

Fixpoint lstrip_by (f : char -> bool) (s : str) : str :=
  match s with
  | c :: s' => if f c then lstrip_by f s' else s
  | [] => []
  end.

(** [rstrip]: every trailing character satisfying [f] is dropped. *)
Fixpoint rstrip_by (f : char -> bool) (s : str) : str :=
  match s with
  | [] => []
  | c :: s' =>
      match rstrip_by f s' with
      | [] => if f c then [] else [c]
      | r => c :: r
      end
  end.

Definition comma : char := 44%N.        (* ',' *)
Definition dot : char := 46%N.          (* '.' *)

(** [s.strip()] *)
Definition strip (s : str) : str := rstrip_by is_space (lstrip_by is_space s).

(** [s.rstrip('T')] *)
Definition rstrip_T (s : str) : str := rstrip_by (chr_eqb 84%N) s.

(** [' '.join(parts)] *)
Fixpoint join (sep : str) (parts : list str) : str :=
  match parts with
  | [] => []
  | [p] => p
  | p :: ps => p ++ sep ++ join sep ps
  end.

(** [str(n)] for an [int]. *)
Definition str_of_Z (n : Z) : str := lit (NilZero.string_of_int (Z.to_int n)).

(** [s.zfill(width)]: zeros are inserted after a leading sign. *)
Definition zfill (width : nat) (s : str) : str :=
  let pad := repeat 48%N (width - List.length s) in
  match s with
  | c :: s' =>
      if chr_eqb c 43%N || chr_eqb c 45%N then c :: pad ++ s' else pad ++ s
  | [] => pad
  end.

(** [int(s)] for a string of ASCII digits. *)
Definition digit_val (c : char) : Z := Z.of_N c - 48.

Definition int_of_digits (s : str) : Z :=
  fold_left (fun acc c => 10 * acc + digit_val c) s 0.

(** A number printed on exactly [width] digits or more (['%02d']). *)
Definition pad_num (width : nat) (n : Z) : str := zfill width (str_of_Z n).

End PyStr.
Export PyStr.

(* ================================================================== *)
(** * Regular expressions as backtracking matchers *)
(* ================================================================== *)

Module Re.

(** A matcher lists every way to match at the start of the input, best
    first: the value matched and the rest of the input. *)
Definition P (A : Type) := str -> list (A * str).

Definition ret {A} (a : A) : P A := fun s => [(a, s)].

Definition bind {A B} (p : P A) (f : A -> P B) : P B :=
  fun s => flat_map (fun r => f (fst r) (snd r)) (p s).

Definition alt {A} (p q : P A) : P A := fun s => p s ++ q s.

(** One character of a class. *)
Definition cls (f : char -> bool) : P str :=
  fun s =>
    match s with
    | c :: s' => if f c then [([c], s')] else []
    | [] => []
    end.

(** A literal. *)
Definition word (w : str) : P str :=
  fun s => if starts_with w s then [(w, skipn (List.length w) s)] else [].

(** [x*] for a class [x], greedy: the longest run first. *)
Fixpoint many (f : char -> bool) (s : str) : list (str * str) :=
  match s with
  | c :: s' =>
      if f c
      then map (fun r => (c :: fst r, snd r)) (many f s') ++ [([], s)]
      else [([], s)]
  | [] => [([], [])]
  end.

(** [x*?] for a class [x], lazy: the shortest run first. *)
Fixpoint many_lazy (f : char -> bool) (s : str) : list (str * str) :=
  ([], s) ::
  match s with
  | c :: s' =>
      if f c then map (fun r => (c :: fst r, snd r)) (many_lazy f s') else []
  | [] => []
  end.

(** Concatenation of the texts matched by two matchers. *)
Definition cat (p q : P str) : P str :=
  bind p (fun a => bind q (fun b => ret (a ++ b))).

(** [x+], [x?], [x{1,2}] (greedy) and [x{4}]. *)
Definition many1 (f : char -> bool) : P str := cat (cls f) (many f).
Definition opt (p : P str) : P str := alt p (ret []).
Definition rep_1_2 (f : char -> bool) : P str :=
  alt (cat (cls f) (cls f)) (cls f).
Definition rep_4 (f : char -> bool) : P str :=
  cat (cls f) (cat (cls f) (cat (cls f) (cls f))).

Definition any_char (_ : char) : bool := true.
Definition is_chr (x : N) (c : char) : bool := chr_eqb c x.
Definition in_range (lo hi : N) (c : char) : bool := ((lo <=? c) && (c <=? hi))%N.
Definition one_of (l : list char) (c : char) : bool := existsb (chr_eqb c) l.
Definition orb_cls (f g : char -> bool) (c : char) : bool := f c || g c.
Definition not_cls (f : char -> bool) (c : char) : bool := negb (f c).

(** [re.match]: the first way to match at the start, with what is left. *)
Definition re_match {A} (p : P A) (s : str) : option (A * str) :=
  match p s with
  | r :: _ => Some r
  | [] => None
  end.

(** [re.search]: the first start position, from the left, with a match. *)
Fixpoint re_search {A} (p : P A) (s : str) : option A :=
  match p s with
  | r :: _ => Some (fst r)
  | [] =>
      match s with
      | [] => None
      | _ :: s' => re_search p s'
      end
  end.

End Re.

Declare Scope re_scope.
Delimit Scope re_scope with re.
Notation "x <- p ;; q" := (Re.bind p (fun x => q))
  (at level 61, p at next level, right associativity) : re_scope.
Notation "p ;; q" := (Re.bind p (fun _ => q))
  (at level 61, right associativity) : re_scope.

(* ================================================================== *)
(** * Dates: [datetime.strptime] and [strftime] on the layouts of the source *)
(* ================================================================== *)

Module PyDate.
Import Re.
Local Open Scope re_scope.

Record date := mkDate { year : Z; month : Z; day : Z }.

Inductive directive :=
| Dday            (* %d *)
| Dmonth          (* %m *)
| Dyear           (* %Y *)
| Dchar (c : char).

(** The directives of a format string such as ['%d/%m/%Y']. *)
Fixpoint directives (fmt : str) : list directive :=
  match fmt with
  | 37%N :: 100%N :: r => Dday :: directives r
  | 37%N :: 109%N :: r => Dmonth :: directives r
  | 37%N :: 89%N :: r => Dyear :: directives r
  | c :: r => Dchar c :: directives r
  | [] => []
  end.

(** [_strptime]'s regex of [%d]: [3[0-1]|[1-2]\d|0[1-9]|[1-9]| [1-9]]. *)
Definition re_day : P str :=
  alt (cat (cls (is_chr 51)) (cls (in_range 48 49)))
 (alt (cat (cls (in_range 49 50)) (cls is_digit))
 (alt (cat (cls (is_chr 48)) (cls (in_range 49 57)))
 (alt (cls (in_range 49 57))
      (cat (cls (is_chr 32)) (cls (in_range 49 57)))))).

(** [%m]: [1[0-2]|0[1-9]|[1-9]]. *)
Definition re_month : P str :=
  alt (cat (cls (is_chr 49)) (cls (in_range 48 50)))
 (alt (cat (cls (is_chr 48)) (cls (in_range 49 57)))
      (cls (in_range 49 57))).

(** [%Y]: [\d\d\d\d]. *)
Definition re_year : P str := rep_4 is_digit.

(** [int(s)] on what these groups can hold. *)
Definition py_int (s : str) : Z := int_of_digits (strip s).

(** The regex compiled from a format, with the fields it fills. *)
Fixpoint format_regex (ds : list directive) (acc : date) : P date :=
  match ds with
  | [] => ret acc
  | Dday :: r =>
      t <- re_day ;; format_regex r (mkDate (year acc) (month acc) (py_int t))
  | Dmonth :: r =>
      t <- re_month ;; format_regex r (mkDate (year acc) (py_int t) (day acc))
  | Dyear :: r =>
      t <- re_year ;; format_regex r (mkDate (py_int t) (month acc) (day acc))
  | Dchar c :: r =>
      cls (is_chr c) ;; format_regex r acc
  end.

Definition is_leap (y : Z) : bool :=
  (y mod 4 =? 0) && (negb (y mod 100 =? 0) || (y mod 400 =? 0)).

Definition days_in_month (y m : Z) : Z :=
  if m =? 2 then (if is_leap y then 29 else 28)
  else if (m =? 4) || (m =? 6) || (m =? 9) || (m =? 11) then 30
  else 31.

(** What the [datetime] constructor accepts (MINYEAR is 1). *)
Definition valid_date (d : date) : bool :=
  (1 <=? year d) && (year d <=? 9999)
  && (1 <=? month d) && (month d <=? 12)
  && (1 <=? day d) && (day d <=? days_in_month (year d) (month d)).

(** [datetime.strptime(s, fmt)]; [None] stands for [ValueError]: the text
    does not match, unconverted text remains, or the date does not exist. *)
Definition strptime (s fmt : str) : option date :=
  match re_match (format_regex (directives fmt) (mkDate 1900 1 1)) s with
  | Some (d, []) => if valid_date d then Some d else None
  | _ => None
  end.

(** [d.strftime('%Y-%m-%d')], the year on four digits as documented. *)
Definition strftime_ymd (d : date) : str :=
  pad_num 4 (year d) ++ lit "-" ++ pad_num 2 (month d) ++ lit "-"
  ++ pad_num 2 (day d).

(** The layouts of [parse_purchase_order], in the order of the source. *)
Definition date_formats : list str :=
  [lit "%d/%m/%Y"; lit "%d-%m-%Y"; lit "%m/%d/%Y"; lit "%m-%d-%Y"].

(** The loop [for fmt in [...]: try: ... break; except ValueError: continue]:
    the date it stores, [None] when it leaves [data['date']] as it was. *)
Fixpoint try_formats (fmts : list str) (date_str : str) : option str :=
  match fmts with
  | [] => None
  | fmt :: rest =>
      match strptime date_str fmt with
      | Some parsed_date => Some (strftime_ymd parsed_date)
      | None => try_formats rest date_str
      end
  end.

Definition normalize_date (date_str : str) : option str :=
  try_formats date_formats date_str.

(** [\d{1,2}[/-]\d{1,2}[/-]\d{4}] *)
Definition sep_cls : char -> bool := one_of [47%N; 45%N].

Definition re_date_token : P str :=
  cat (rep_1_2 is_digit)
 (cat (cls sep_cls)
 (cat (rep_1_2 is_digit)
 (cat (cls sep_cls) (rep_4 is_digit)))).

(** [r'Date:\s*(\d{1,2}[/-]\d{1,2}[/-]\d{4})'], group 1. *)
Definition re_date_labeled : P str :=
  word (lit "Date:") ;; many is_space ;; re_date_token.

(** The date part of [parse_purchase_order]: the labeled pattern first and,
    while [data['date']] is still falsy, the first bare date-shaped token. *)
Definition extract_date (text : str) : option str :=
  let date1 :=
    match re_search re_date_labeled text with
    | Some date_str => normalize_date date_str
    | None => None
    end in
  if truthy date1 then date1
  else
    match re_search re_date_token text with
    | Some date_str =>
        match normalize_date date_str with
        | Some d => Some d
        | None => date1
        end
    | None => date1
    end.

End PyDate.

Export PyDate.

(* ================================================================== *)
(** * Exceptions *)
(* ================================================================== *)

Inductive exn :=
| ValueError          (* [float()] on a malformed amount *)
| ExpatError          (* [minidom.parseString] refuses the serialised tree *)
| OSError.            (* a file cannot be written *)

Inductive result (A : Type) :=
| Ok (a : A)
| Failed (e : exn).
Arguments Failed {A} e.

(** How a method ends. *)
Inductive outcome (A : Type) :=
| Return (a : A)
| Raise (e : exn).
Arguments Raise {A} e.

(* ================================================================== *)
(** * The Python runtime left abstract *)
(* ================================================================== *)

(** Numbers of the source are Python [int]s and [float]s mixed ([sum] starts
    from the [int] 0, amounts come from [float()]). Their arithmetic, the
    parser [float()], the printers [str()] and [repr()] and [str.upper]
    belong to the runtime; the engine is verified for every runtime. *)
Class PyRuntime := {
  num : Type;
  num_int : Z -> num;                    (* the [int] n *)
  num_add : num -> num -> num;           (* x + y *)
  num_mul : num -> num -> num;           (* x * y *)
  num_eqb : num -> num -> bool;          (* x == y *)
  num_gtb : num -> num -> bool;          (* x > y *)
  int_of_num : num -> option num;        (* int(x); None: it raises (inf, nan) *)
  py_float : str -> option num;          (* float(s); None: ValueError *)
  num_repr : num -> str;                 (* str(x) *)
  vat_rate : num;                        (* the literal 0.22 *)
  str_upper : str -> str;                (* s.upper() *)
  str_repr : str -> str                  (* repr(s) *)
}.

Section Engine.
Context {R : PyRuntime}.

Definition num_zero : num := num_int 0.
Definition num_one : num := num_int 1.

(** Truthiness of a number: [x != 0]. *)
Definition num_truthy (x : num) : bool := negb (num_eqb x num_zero).

(** [sum(xs)]: from the [int] 0, left to right. (Recent CPython adds floats
    with a compensation term; no statement below depends on how [sum]
    rounds.) *)
Definition py_sum (xs : list num) : num := fold_left num_add xs num_zero.

(* ------------------------------------------------------------------ *)
(** ** Data model: the dictionaries of [self.data] *)
(* ------------------------------------------------------------------ *)

(** A line item. [codice_ricambio] is [None] both when the key is absent
    (synthetic items) and when it holds [None]: the source reads it with
    [.get] only. *)
Record Item := mkItem {
  description : str;
  qty : num;
  price : num;
  discount : num;
  total : num;
  codice_ricambio : option str
}.

Record Preventivo := mkPreventivo {
  prev_id : str;
  prev_filename : str;
  pratica_fornitore : option str;
  prev_pratica_hertz : option str;
  prev_targa : option str;
  telaio : option str;
  km : option str;
  veicolo : option str;
  items : list Item;
  totale : num;
  prev_data_caricamento : str;
  prev_gia_fatturato : bool              (* key set by [process_pdf] only *)
}.

Record PurchaseOrder := mkPurchaseOrder {
  po_id : str;
  po_filename : str;
  po_number : option str;
  po_pratica_hertz : option str;
  po_targa : option str;
  vin : option str;
  unit_number : option str;
  model : option str;
  mileage : option str;
  po_date : option str;
  po_total : option num;
  po_description : str;
  has_tyres : bool;
  po_data_caricamento : str;
  po_gia_fatturato : bool
}.

(** The category tag of an invoice: ['HG'] (tyres) or ['HM']. *)
Inductive Tipo := HG | HM.

Definition tipo_str (t : Tipo) : str :=
  match t with HG => lit "HG" | HM => lit "HM" end.

(** An entry of [fatture_generate]. *)
Record Fattura := mkFattura {
  f_po_number : option str;
  f_targa : str;
  f_pratica_hertz : option str;
  f_filename : str;
  numero_fattura : Z;
  tipo : Tipo;
  f_totale : num;
  data_po : option str;
  data_generazione : str
}.

Record Config := mkConfig {
  last_number_hg : Z;
  last_number_hm : Z;
  cfg_year : Z
}.

(** [self.data] (the mailbox bookkeeping is outside the engine). *)
Record Data := mkData {
  preventivi : list Preventivo;
  purchase_orders : list PurchaseOrder;
  fatture_generate : list Fattura;
  config : Config
}.

(** What one call reads from outside: the clock ([datetime.now()]) and
    whether the XML serialisation, the write of the invoice file and
    [save_data] go through or raise. *)
Record Env := mkEnv {
  now_year : Z;
  now_id : str;                          (* strftime('%Y%m%d%H%M%S%f') *)
  now_iso : str;                         (* isoformat() *)
  xml_ok : bool;
  write_ok : bool;
  save_ok : bool
}.

(* ------------------------------------------------------------------ *)
(** ** Estimate parser: [parse_preventivo], [_extract_items_from_table] *)
(* ------------------------------------------------------------------ *)

Import Re.
Local Open Scope re_scope.

(** [r'<label>\s*(<class>+)'], group 1. *)
Definition labeled (label : str) (f : char -> bool) : P str :=
  word label ;; many is_space ;; many1 f.

Definition alnum_upper : char -> bool := orb_cls is_upper_AZ is_digit.
Definition not_newline : char -> bool := not_cls (is_chr newline).
Definition digit_dot_comma : char -> bool :=
  orb_cls is_digit (one_of [dot; comma]).

Definition re_pratica_fornitore := labeled (lit "Pratica Fornitore:") is_digit.
Definition re_pratica_hertz := labeled (lit "Pratica Hertz:") is_digit.
Definition re_targa := labeled (lit "Targa:") alnum_upper.
Definition re_telaio := labeled (lit "Telaio:") alnum_upper.
Definition re_km := labeled (lit "Km:") is_digit.
Definition re_veicolo :=
  labeled (lit "Veicolo (Marca - Modello - Versione):") not_newline.

(** [r'Smaltimento Rifiuti[^\d]*(€?[\d.,]+)'], group 1. *)
Definition re_smaltimento : P str :=
  word (lit "Smaltimento Rifiuti") ;; many (not_cls is_digit) ;;
  cat (opt (cls (is_chr euro))) (many1 digit_dot_comma).

(** [r'ore\s+([\d.,]+)\s*x\s*([\d.,]+)'], groups 1 and 2. *)
Definition re_ore : P (str * str) :=
  word (lit "ore") ;; many1 is_space ;;
  g1 <- many1 digit_dot_comma ;;
  many is_space ;; cls (is_chr 120%N) ;; many is_space ;;
  g2 <- many1 digit_dot_comma ;;
  ret (g1, g2).

(** A table row as [pdfplumber] gives it: cells are a [str] or [None]. *)
Definition row := list (option str).
Definition table := list row.

(** [cell if cell else ''] *)
Definition cell_text (c : option str) : str :=
  match c with Some s => s | None => [] end.

(** [str(x).strip() if x else None] on a cell already made a [str]. *)
Definition strip_or_none (x : str) : option str :=
  match x with [] => None | _ => Some (strip x) end.

Definition header_tokens : list str :=
  [lit "C.R."; lit "Voci di Danno"; lit "IMPONIBILE"; lit "Totale tempi"].

(** [str(row)] for a list of [str]: ['[' repr(cell), ... ']']. *)
Definition str_of_row (r : list str) : str :=
  lit "[" ++ join (lit ", ") (map str_repr r) ++ lit "]".

(** [any(h in str(row) for h in [...])] *)
Definition is_header_row (r : list str) : bool :=
  existsb (fun h => contains h (str_of_row r)) header_tokens.

Definition skipped_keywords : list str :=
  [lit "Ricambi"; lit "Materiale"; lit "Smaltimento"; lit "Manodopera";
   lit "TOTALI"; lit "Note:"].

(** The local [parse_num]. *)
Definition parse_num (s : str) : num :=
  match s with
  | [] => num_zero
  | _ =>
      match py_float (strip (replace_chr euro [] (replace_chr comma [dot] s))) with
      | Some x => x
      | None => num_zero
      end
  end.

(** One iteration of the row loop of [_extract_items_from_table]: the item
    appended, [None] when the row is passed over ([continue], a total that is
    not positive, or an exception caught by the bare [except]). *)
Definition extract_item (raw : row) : option Item :=
  if (List.length raw <? 20)%nat then None else
  let r := map cell_text raw in
  if is_header_row r then None else
  let codice := strip_or_none (nth 0 r []) in
  let desc := strip_or_none (nth 1 r []) in
  if negb (truthy desc) then None else
  let d := cell_text desc in
  if existsb (fun kw => contains kw d) skipped_keywords then None else
  let tempo := parse_num (nth 18 r []) in
  let qty0 := parse_num (nth 19 r []) in
  let prezzo := parse_num (nth 20 r []) in
  let sconto := parse_num (nth 23 r (lit "0")) in
  let totale := parse_num (nth 24 r []) in
  let qty1 := if num_eqb qty0 num_zero && num_gtb tempo num_one then tempo else qty0 in
  let qty2 := if num_eqb qty1 num_zero then num_one else qty1 in
  if num_gtb totale num_zero then
    let full_desc :=
      if truthy codice then d ++ lit " - C.R: " ++ cell_text codice else d in
    match int_of_num qty2 with
    | None => None
    | Some iq =>
        let q := if num_eqb qty2 iq then iq else qty2 in
        if num_truthy sconto then
          match int_of_num sconto with
          | None => None
          | Some isc => Some (mkItem full_desc q prezzo isc totale codice)
          end
        else Some (mkItem full_desc q prezzo num_zero totale codice)
    end
  else None.

Definition list_of_option {A} (o : option A) : list A :=
  match o with Some a => [a] | None => [] end.

Definition _extract_items_from_table (tables : list table) : list Item :=
  flat_map (fun t => flat_map (fun raw => list_of_option (extract_item raw)) t)
           tables.

Definition has_description (kw : str) (its : list Item) : bool :=
  existsb (fun i => contains kw (description i)) its.

(** The disposal-fee block; an exception of [float()] is swallowed. *)
Definition add_smaltimento (text : str) (its : list Item) : list Item :=
  match re_search re_smaltimento text with
  | Some g =>
      match py_float (strip (replace_chr comma [dot] (replace_chr euro [] g))) with
      | Some val =>
          if num_gtb val num_zero && negb (has_description (lit "Smaltimento") its)
          then its ++ [mkItem (lit "Smaltimento Rifiuti") num_one val num_zero val None]
          else its
      | None => its
      end
  | None => its
  end.

Definition labor_kinds : list str :=
  [lit "meccanica"; lit "carrozzeria"; lit "verniciatura"].

(** The body of [for tipo in [...]] on one row text. *)
Definition add_manodopera (row_text : str) (its : list Item) (kind : str)
  : list Item :=
  let label := lit "Manodopera " ++ kind in
  if contains label row_text then
    match re_search re_ore row_text with
    | Some (g1, g2) =>
        match py_float (replace_chr comma [dot] g1),
              py_float (replace_chr comma [dot] g2) with
        | Some ore, Some tariffa =>
            let totale := num_mul ore tariffa in
            if num_gtb totale num_zero && negb (has_description label its)
            then its ++ [mkItem (label ++ lit " (" ++ num_repr ore ++ lit "h x "
                                   ++ num_repr tariffa ++ [euro] ++ lit "/h)")
                                num_one totale num_zero totale None]
            else its
        | _, _ => its
        end
    | None => its
    end
  else its.

(** [' '.join(str(c) for c in row if c)] *)
Definition row_text (raw : row) : str :=
  join (lit " ") (map cell_text (filter truthy raw)).

Definition manodopera_row (its : list Item) (raw : row) : list Item :=
  match raw with
  | [] => its
  | _ => fold_left (add_manodopera (row_text raw)) labor_kinds its
  end.

Definition add_manodopera_all (tables : list table) (its : list Item)
  : list Item :=
  fold_left (fun acc t => fold_left manodopera_row t acc) tables its.

Definition group_of (p : P str) (text : str) : option str := re_search p text.

Definition parse_preventivo (now : Env) (text filename : str)
  (tables : list table) : Preventivo :=
  let its0 := _extract_items_from_table tables in
  let its1 := add_smaltimento text its0 in
  let its2 := add_manodopera_all tables its1 in
  {| prev_id := now_id now;
     prev_filename := filename;
     pratica_fornitore := group_of re_pratica_fornitore text;
     prev_pratica_hertz := group_of re_pratica_hertz text;
     prev_targa := option_map rstrip_T (group_of re_targa text);
     telaio := group_of re_telaio text;
     km := group_of re_km text;
     veicolo := option_map strip (group_of re_veicolo text);
     items := its2;
     totale := py_sum (map total its2);
     prev_data_caricamento := now_iso now;
     prev_gia_fatturato := false |}.

(* ------------------------------------------------------------------ *)
(** ** Purchase-order parser: [parse_purchase_order] *)
(* ------------------------------------------------------------------ *)

(** [r'PURCHASE ORDER #.*?(\d+)'] with [re.DOTALL], group 1. *)
Definition re_po_number : P str :=
  word (lit "PURCHASE ORDER #") ;; many_lazy any_char ;; many1 is_digit.

Definition re_wd := labeled (lit "WD:") is_digit.
Definition re_plate := labeled (lit "Plate Number:") alnum_upper.
Definition re_vin := labeled (lit "Serial Number (VIN):") alnum_upper.
Definition re_unit := labeled (lit "Unit Number:") is_digit.
Definition re_model := labeled (lit "Model:") not_newline.
Definition re_mileage := labeled (lit "Mileage:") is_digit.

(** [r'TOTAL\s+€\s*([\d.]+)'], group 1. *)
Definition re_total : P str :=
  word (lit "TOTAL") ;; many1 is_space ;; cls (is_chr euro) ;; many is_space ;;
  many1 (orb_cls is_digit (is_chr dot)).

(** [parse_purchase_order]; the [float()] of the amount is not guarded in the
    source, so a malformed amount raises. *)
Definition parse_purchase_order (now : Env) (text filename : str)
  : result PurchaseOrder :=
  let mk (tot : option num) :=
    {| po_id := now_id now;
       po_filename := filename;
       po_number := group_of re_po_number text;
       po_pratica_hertz := group_of re_wd text;
       po_targa := group_of re_plate text;
       vin := group_of re_vin text;
       unit_number := group_of re_unit text;
       model := option_map strip (group_of re_model text);
       mileage := group_of re_mileage text;
       po_date := extract_date text;
       po_total := tot;
       po_description := firstn 500 text;
       has_tyres := contains (lit "TYRES") (str_upper text);
       po_data_caricamento := now_iso now;
       po_gia_fatturato := false |} in
  match re_search re_total text with
  | Some g =>
      match py_float g with
      | Some x => Ok (mk (Some x))
      | None => Failed ValueError
      end
  | None => Ok (mk None)
  end.

(* ------------------------------------------------------------------ *)
(** ** The processor: [self.data] and its durable mirror *)
(* ------------------------------------------------------------------ *)

(** [data] is [self.data]; [saved] is what [hertz_data.json] holds, rewritten
    by every [save_data]. *)
Record Processor := mkProcessor {
  data : Data;
  saved : Data
}.

(** A method of the processor: it ends by returning or by raising, and in
    both cases leaves the processor as its assignments made it. *)
Definition M (A : Type) := Processor -> outcome A * Processor.

Definition mret {A} (a : A) : M A := fun st => (Return a, st).

Definition mbind {A B} (m : M A) (k : A -> M B) : M B :=
  fun st =>
    match m st with
    | (Return a, st') => k a st'
    | (Raise e, st') => (Raise e, st')
    end.

Definition raise {A} (e : exn) : M A := fun st => (Raise e, st).
Definition get_data : M Data := fun st => (Return (data st), st).
Definition set_data (d : Data) : M unit :=
  fun st => (Return tt, mkProcessor d (saved st)).

(** An external step that goes through or raises. *)
Definition attempt (ok : bool) (e : exn) : M unit :=
  if ok then mret tt else raise e.

Definition save_data (env : Env) : M unit :=
  fun st =>
    if save_ok env then (Return tt, mkProcessor (data st) (data st))
    else (Raise OSError, st).

End Engine.

Declare Scope mon_scope.
Delimit Scope mon_scope with mon.
Notation "x <- p ;; q" := (mbind p (fun x => q))
  (at level 61, p at next level, right associativity) : mon_scope.
Notation "p ;; q" := (mbind p (fun _ => q))
  (at level 61, right associativity) : mon_scope.

Section Operations.
Context {R : PyRuntime}.
Local Open Scope mon_scope.

(* ------------------------------------------------------------------ *)
(** ** Ingestion gate: [detect_type] and [process_pdf] *)
(* ------------------------------------------------------------------ *)

Inductive DocType := TPreventivo | TPurchaseOrder.

Definition detect_type (text : str) : option DocType :=
  if contains (lit "PREVENTIVO") (str_upper text) then Some TPreventivo
  else if contains (lit "PURCHASE ORDER") (str_upper text) then Some TPurchaseOrder
  else None.

(** What [pdfplumber] extracts from the uploaded file. *)
Record Pdf := mkPdf {
  pdf_text : str;
  pdf_tables : list table
}.

Inductive Doc :=
| DocPreventivo (p : Preventivo)
| DocPurchaseOrder (po : PurchaseOrder).

(** The status strings returned next to the document. *)
Inductive Status :=
| St_preventivo
| St_preventivo_fatturato
| St_purchase_order
| St_purchase_order_fatturato.

Definition mark_prev (p : Preventivo) : Preventivo :=
  {| prev_id := prev_id p; prev_filename := prev_filename p;
     pratica_fornitore := pratica_fornitore p;
     prev_pratica_hertz := prev_pratica_hertz p;
     prev_targa := prev_targa p; telaio := telaio p; km := km p;
     veicolo := veicolo p; items := items p; totale := totale p;
     prev_data_caricamento := prev_data_caricamento p;
     prev_gia_fatturato := true |}.

Definition mark_po (p : PurchaseOrder) : PurchaseOrder :=
  {| po_id := po_id p; po_filename := po_filename p;
     po_number := po_number p; po_pratica_hertz := po_pratica_hertz p;
     po_targa := po_targa p; vin := vin p; unit_number := unit_number p;
     model := model p; mileage := mileage p; po_date := po_date p;
     po_total := po_total p; po_description := po_description p;
     has_tyres := has_tyres p; po_data_caricamento := po_data_caricamento p;
     po_gia_fatturato := true |}.

Definition with_preventivi (d : Data) (l : list Preventivo) : Data :=
  mkData l (purchase_orders d) (fatture_generate d) (config d).

Definition with_purchase_orders (d : Data) (l : list PurchaseOrder) : Data :=
  mkData (preventivi d) l (fatture_generate d) (config d).

Definition with_config (d : Data) (c : Config) : Data :=
  mkData (preventivi d) (purchase_orders d) (fatture_generate d) c.

(** [process_pdf]; [(None, None)] is [None]. *)
Definition process_pdf (env : Env) (pdf : Pdf) (filename : str)
  : M (option (Doc * Status)) :=
  let text := pdf_text pdf in
  match detect_type text with
  | Some TPreventivo =>
      let doc := parse_preventivo env text filename (pdf_tables pdf) in
      d <- get_data ;;
      let fatturati := map f_pratica_hertz (fatture_generate d) in
      if py_in (prev_pratica_hertz doc) fatturati
      then mret (Some (DocPreventivo (mark_prev doc), St_preventivo_fatturato))
      else
        let existing := map prev_pratica_hertz (preventivi d) in
        (if negb (py_in (prev_pratica_hertz doc) existing)
         then set_data (with_preventivi d (preventivi d ++ [doc])) ;;
              save_data env
         else mret tt) ;;
        mret (Some (DocPreventivo doc, St_preventivo))
  | Some TPurchaseOrder =>
      match parse_purchase_order env text filename with
      | Failed e => raise e
      | Ok doc =>
          d <- get_data ;;
          let fatturati := map f_po_number (fatture_generate d) in
          if py_in (po_number doc) fatturati
          then mret (Some (DocPurchaseOrder (mark_po doc),
                           St_purchase_order_fatturato))
          else
            let existing := map po_number (purchase_orders d) in
            (if negb (py_in (po_number doc) existing)
             then set_data (with_purchase_orders d (purchase_orders d ++ [doc])) ;;
                  save_data env
             else mret tt) ;;
            mret (Some (DocPurchaseOrder doc, St_purchase_order))
      end
  | None => mret None
  end.

(* ------------------------------------------------------------------ *)
(** ** Matcher: [is_po_invoiced] and [get_stats] *)
(* ------------------------------------------------------------------ *)

Definition is_po_invoiced (d : Data) (po_num : option str) : bool :=
  py_in po_num (map f_po_number (fatture_generate d)).

Record Match := mkMatch {
  m_preventivo : Preventivo;
  m_po : PurchaseOrder
}.

(** The inner loop [for po in pos] for one estimate: it stops ([break]) at
    the first purchase order with the estimate's case id, and appends the pair
    only if that purchase order is not invoiced. *)
Fixpoint match_for (d : Data) (prev : Preventivo) (pos : list PurchaseOrder)
  : list Match :=
  match pos with
  | [] => []
  | po :: rest =>
      if opt_eqb (prev_pratica_hertz prev) (po_pratica_hertz po)
      then (if negb (is_po_invoiced d (po_number po))
            then [mkMatch prev po] else [])
      else match_for d prev rest
  end.

Definition compute_matches (d : Data) : list Match :=
  flat_map (fun prev => match_for d prev (purchase_orders d)) (preventivi d).

Record Stats := mkStats {
  pdf_in_attesa : nat;
  lavori_pronti : nat;
  in_attesa_associazione : nat;
  ordini_inviati : nat;
  n_preventivi : nat;
  n_po : nat;
  prev_in_attesa : list Preventivo;
  po_in_attesa : list PurchaseOrder;
  matches : list Match
}.

Definition get_stats : M Stats :=
  d <- get_data ;;
  let ms := compute_matches d in
  let matched_pratiche_prev := map (fun m => prev_pratica_hertz (m_preventivo m)) ms in
  let matched_pratiche_po := map (fun m => po_pratica_hertz (m_po m)) ms in
  let prev_att :=
    filter (fun p => negb (py_in (prev_pratica_hertz p) matched_pratiche_prev))
           (preventivi d) in
  let po_att :=
    filter (fun p => negb (py_in (po_pratica_hertz p) matched_pratiche_po)
                     && negb (is_po_invoiced d (po_number p)))
           (purchase_orders d) in
  mret {| pdf_in_attesa := List.length prev_att + List.length po_att;
          lavori_pronti := List.length ms;
          in_attesa_associazione := List.length prev_att + List.length po_att;
          ordini_inviati := List.length (fatture_generate d);
          n_preventivi := List.length (preventivi d);
          n_po := List.length (purchase_orders d);
          prev_in_attesa := prev_att;
          po_in_attesa := po_att;
          matches := ms |}.

(* ------------------------------------------------------------------ *)
(** ** Invoice generator: [generate_xml] *)
(* ------------------------------------------------------------------ *)

(** The year check of lines 409-413. *)
Definition rollover (current_year : Z) (c : Config) : Config :=
  if negb (cfg_year c =? current_year)%Z
  then mkConfig 0 0 current_year
  else c.

(** The increment of lines 416-425: the configuration after it, the number
    issued and the category tag. *)
Definition next_number (is_tyres : bool) (c : Config) : Config * Z * Tipo :=
  if is_tyres
  then (mkConfig (last_number_hg c + 1) (last_number_hm c) (cfg_year c),
        last_number_hg c + 1, HG)
  else (mkConfig (last_number_hg c) (last_number_hm c + 1) (cfg_year c),
        last_number_hm c + 1, HM).

(** [x or 'NOTARGA'] *)
Definition or_default (o : option str) (dflt : str) : str :=
  if truthy o then cell_text o else dflt.

(** [prev.get('targa') or po.get('targa') or 'NOTARGA'] *)
Definition plate_of (prev : Preventivo) (po : PurchaseOrder) : str :=
  or_default (py_or (prev_targa prev) (po_targa po)) (lit "NOTARGA").

(** The local [date_prefix] of lines 480-486: ['YYYYMMDD_'] or ['']. *)
Definition date_prefix_of (po : PurchaseOrder) : str :=
  if truthy (po_date po)
  then replace_chr 45%N [] (cell_text (po_date po)) ++ lit "_"
  else [].

(** Line 491: the name of the file written. [date_prefix] does not occur
    in it. *)
Definition invoice_filename (invoice_number : Z) (prev : Preventivo)
  (po : PurchaseOrder) : str :=
  lit "Fatt_" ++ zfill 3 (str_of_Z invoice_number) ++ lit "_PO_"
  ++ fmt_opt (po_number po) ++ lit "_" ++ plate_of prev po ++ lit ".xml".

Definition invoice_total (prev : Preventivo) : num :=
  let total_without_tax := py_sum (map total (items prev)) in
  let vat_amount := num_mul total_without_tax vat_rate in
  num_add total_without_tax vat_amount.

(** [generate_xml]. The element tree is built from the two records and has
    no effect on [self.data]; of that part the model keeps the two points
    where it can raise, the serialisation round trip through [minidom] and
    the write of the file. *)
Definition generate_xml (env : Env) (m : Match) : M (str * num) :=
  let prev := m_preventivo m in
  let po := m_po m in
  d0 <- get_data ;;
  let c1 := rollover (now_year env) (config d0) in
  let '(c2, invoice_number, numbering_suffix) := next_number (has_tyres po) c1 in
  set_data (with_config d0 c2) ;;
  let total := invoice_total prev in
  attempt (xml_ok env) ExpatError ;;
  let targa := plate_of prev po in
  let date_prefix := date_prefix_of po in
  let filename := invoice_filename invoice_number prev po in
  attempt (write_ok env) OSError ;;
  d1 <- get_data ;;
  let fattura :=
    {| f_po_number := po_number po;
       f_targa := targa;
       f_pratica_hertz := prev_pratica_hertz prev;
       f_filename := filename;
       numero_fattura := invoice_number;
       tipo := numbering_suffix;
       f_totale := total;
       data_po := po_date po;
       data_generazione := now_iso env |} in
  set_data (mkData
    (filter (fun p => negb (opt_eqb (prev_pratica_hertz p) (prev_pratica_hertz prev)))
            (preventivi d1))
    (filter (fun p => negb (opt_eqb (po_number p) (po_number po)))
            (purchase_orders d1))
    (fatture_generate d1 ++ [fattura])
    (config d1)) ;;
  save_data env ;;
  mret (filename, total).

End Operations.

(* ================================================================== *)
(** * A runtime to run the engine on examples *)
(* ================================================================== *)

Module Exact.

(** Numbers are exact fractions kept in lowest terms, [float()] reads plain
    decimal numerals, [upper] maps the ASCII letters, [repr] puts quotes
    around the text. *)

Fixpoint take_digits (s : str) : str * str :=
  match s with
  | c :: s' =>
      if is_digit c
      then (c :: fst (take_digits s'), snd (take_digits s'))
      else ([], s)
  | [] => ([], [])
  end.

Definition read_decimal (s : str) : option Q :=
  let t := strip s in
  let sb := match t with
            | 45%N :: r => (true, r)
            | 43%N :: r => (false, r)
            | _ => (false, t)
            end in
  let ip := fst (take_digits (snd sb)) in
  let fp := match snd (take_digits (snd sb)) with
            | 46%N :: r => Some r
            | [] => Some []
            | _ => None
            end in
  match fp with
  | Some f =>
      if forallb is_digit f && negb (Nat.eqb (List.length ip + List.length f) 0)
      then
        let n := int_of_digits (ip ++ f) in
        Some (Qred (Qmake (if fst sb then - n else n)
                          (Z.to_pos (10 ^ Z.of_nat (List.length f)))))
      else None
  | None => None
  end.

Definition print_fraction (q : Q) : str :=
  str_of_Z (Qnum q) ++ lit "/" ++ str_of_Z (Zpos (Qden q)).

Definition upper_chr (c : char) : char :=
  if ((97 <=? c) && (c <=? 122))%N then (c - 32)%N else c.

Definition runtime : PyRuntime :=
  {| num := Q;
     num_int := fun z => inject_Z z;
     num_add := fun x y => Qred (Qplus x y);
     num_mul := fun x y => Qred (Qmult x y);
     num_eqb := Qeq_bool;
     num_gtb := fun x y => negb (Qle_bool x y);
     int_of_num := fun x => Some (inject_Z (Z.quot (Qnum x) (Zpos (Qden x))));
     py_float := read_decimal;
     num_repr := print_fraction;
     vat_rate := Qmake 11 50;
     str_upper := map upper_chr;
     str_repr := fun s => lit "'" ++ s ++ lit "'" |}.

End Exact.


(* ================================================================== *)
(** * Definitions used to state the properties *)
(* ================================================================== *)

(** The shape [YYYY-MM-DD]. *)
Definition is_canonical_date (s : str) : bool :=
  match s with
  | [y1; y2; y3; y4; h1; m1; m2; h2; d1; d2] =>
      forallb is_digit [y1; y2; y3; y4; m1; m2; d1; d2]
      && chr_eqb h1 45%N && chr_eqb h2 45%N
  | _ => false
  end.

Definition digits_exactly (n : nat) (s : str) : bool :=
  Nat.eqb (List.length s) n && forallb is_digit s.


(** Whether a string ends with the letter ['T']. *)
Definition ends_with_T (s : str) : bool :=
  match rev s with
  | c :: _ => chr_eqb 84%N c
  | [] => false
  end.

(** A synthetic line item: the disposal fee or one labor category. *)
Definition is_synthetic {R : PyRuntime} (i : Item) : Prop :=
  codice_ricambio i = None /\ qty i = num_one /\ discount i = num_zero
  /\ price i = total i
  /\ (description i = lit "Smaltimento Rifiuti"
      \/ exists kind, In kind labor_kinds
           /\ starts_with (lit "Manodopera " ++ kind) (description i) = true).

Definition positive_total {R : PyRuntime} (i : Item) : Prop :=
  num_gtb (total i) num_zero = true.


(** How many elements of a list carry the key [k]. *)
Definition count_key {A : Type} (key : A -> option str) (k : option str)
  (l : list A) : nat :=
  List.length (filter (fun p => opt_eqb (key p) k) l).

Section Outcomes.
Context {R : PyRuntime}.

(** The natural keys held by a state. *)
Definition prev_keys (d : Data) : list (option str) :=
  map prev_pratica_hertz (preventivi d).
Definition po_keys (d : Data) : list (option str) :=
  map po_number (purchase_orders d).
Definition invoiced_cases (d : Data) : list (option str) :=
  map f_pratica_hertz (fatture_generate d).
Definition invoiced_pos (d : Data) : list (option str) :=
  map f_po_number (fatture_generate d).

(** The numbering step of one call of [generate_xml]. *)
Definition numbering (env : Env) (m : Match) (d : Data) : Config * Z * Tipo :=
  next_number (has_tyres (m_po m)) (rollover (now_year env) (config d)).

Definition config_after (env : Env) (m : Match) (d : Data) : Config :=
  fst (fst (numbering env m d)).
Definition number_issued (env : Env) (m : Match) (d : Data) : Z :=
  snd (fst (numbering env m d)).
Definition tipo_issued (env : Env) (m : Match) (d : Data) : Tipo :=
  snd (numbering env m d).

(** The record [generate_xml] appends. *)
Definition fattura_of (env : Env) (m : Match) (d : Data) : Fattura :=
  {| f_po_number := po_number (m_po m);
     f_targa := plate_of (m_preventivo m) (m_po m);
     f_pratica_hertz := prev_pratica_hertz (m_preventivo m);
     f_filename := invoice_filename (number_issued env m d) (m_preventivo m) (m_po m);
     numero_fattura := number_issued env m d;
     tipo := tipo_issued env m d;
     f_totale := invoice_total (m_preventivo m);
     data_po := po_date (m_po m);
     data_generazione := now_iso env |}.

(** [self.data] once the numbering is done, and once the invoice is
    recorded and its sources retired. *)
Definition data_numbered (env : Env) (m : Match) (d : Data) : Data :=
  with_config d (config_after env m d).

Definition data_invoiced (env : Env) (m : Match) (d : Data) : Data :=
  mkData
    (filter (fun p => negb (opt_eqb (prev_pratica_hertz p)
                                    (prev_pratica_hertz (m_preventivo m))))
            (preventivi d))
    (filter (fun p => negb (opt_eqb (po_number p) (po_number (m_po m))))
            (purchase_orders d))
    (fatture_generate d ++ [fattura_of env m d])
    (config_after env m d).

(** The pairing as the specification words it: each estimate is paired with the first
    purchase order of its case id among those that are not invoiced. *)
Definition claimed_match_for (d : Data) (prev : Preventivo) : list Match :=
  match find (fun po => opt_eqb (prev_pratica_hertz prev) (po_pratica_hertz po)
                        && negb (is_po_invoiced d (po_number po)))
             (purchase_orders d) with
  | Some po => [mkMatch prev po]
  | None => []
  end.

Definition claimed_matches (d : Data) : list Match :=
  flat_map (claimed_match_for d) (preventivi d).

(** The number of active estimates, and purchase orders, with a given key. *)
Definition count_prev (k : option str) (d : Data) : nat :=
  count_key prev_pratica_hertz k (preventivi d).
Definition count_po (k : option str) (d : Data) : nat :=
  count_key po_number k (purchase_orders d).

Definition synthetic_positive (i : Item) : Prop :=
  is_synthetic i /\ positive_total i.

(** What a call of [process_pdf] does to the state, in one statement: it
    leaves it alone, or it appends one estimate whose case id is neither
    active nor invoiced, or one purchase order whose number is neither. *)
Inductive gate_step (env : Env) (pdf : Pdf) (filename : str)
  (st st' : Processor) : Prop :=
| gate_same : st' = st -> gate_step env pdf filename st st'
| gate_prev :
    detect_type (pdf_text pdf) = Some TPreventivo ->
    forall doc,
    doc = parse_preventivo env (pdf_text pdf) filename (pdf_tables pdf) ->
    ~ In (prev_pratica_hertz doc) (invoiced_cases (data st)) ->
    ~ In (prev_pratica_hertz doc) (prev_keys (data st)) ->
    data st' = with_preventivi (data st) (preventivi (data st) ++ [doc]) ->
    gate_step env pdf filename st st'
| gate_po :
    detect_type (pdf_text pdf) = Some TPurchaseOrder ->
    forall doc,
    parse_purchase_order env (pdf_text pdf) filename = Ok doc ->
    ~ In (po_number doc) (invoiced_pos (data st)) ->
    ~ In (po_number doc) (po_keys (data st)) ->
    data st' = with_purchase_orders (data st) (purchase_orders (data st) ++ [doc]) ->
    gate_step env pdf filename st st'.

End Outcomes.

(** Data for the runs below, on the runtime [Exact.runtime]. *)
Module Run.

Definition clock (y : Z) (xml write save : bool) : Env :=
  mkEnv y (lit "20250310120000000000") (lit "2025-03-10T12:00:00")
        xml write save.

Definition env_ok : Env := clock 2025 true true true.
Definition env_write_fails : Env := clock 2025 true false true.
Definition env_save_fails : Env := clock 2025 true true false.
Definition env_next_year : Env := clock 2026 true true true.

Definition estimate (case plate : option str) : @Preventivo Exact.runtime :=
  mkPreventivo (lit "20250301100000000000") (lit "preventivo.pdf") None case
    plate None None None [] (num_int 0) (lit "2025-03-01T10:00:00") false.

Definition order (number case plate date : option str) (tyres : bool)
  : @PurchaseOrder Exact.runtime :=
  mkPurchaseOrder (lit "20250302100000000000") (lit "po.pdf") number case plate
    None None None None date None (lit "PURCHASE ORDER") tyres
    (lit "2025-03-02T10:00:00") false.

Definition est_1001 := estimate (Some (lit "1001")) (Some (lit "AB123CD")).

Definition po_1001 :=
  order (Some (lit "4500012345")) (Some (lit "1001")) (Some (lit "AB123CD"))
        (Some (lit "2024-12-25")) false.

Definition the_match := mkMatch est_1001 po_1001.

(** One estimate and its purchase order, nothing invoiced yet. *)
Definition d0 : Data := mkData [est_1001] [po_1001] [] (mkConfig 0 0 2025).
Definition st0 : Processor := mkProcessor d0 d0.

(** The same with counters 7 (tyres) and 3 (other) reached in 2025. *)
Definition d_counters : Data :=
  mkData [est_1001] [po_1001] [] (mkConfig 7 3 2025).
Definition st_counters : Processor := mkProcessor d_counters d_counters.

(** An estimate of case 1001 and two active purchase orders of that case, the
    first of them already invoiced. *)
Definition po_old :=
  order (Some (lit "4500000001")) (Some (lit "1001")) None None false.
Definition po_new :=
  order (Some (lit "4500000002")) (Some (lit "1001")) None None false.

Definition fattura_old : @Fattura Exact.runtime :=
  mkFattura (Some (lit "4500000001")) (lit "AB123CD") (Some (lit "0999"))
    (lit "Fatt_001_PO_4500000001_AB123CD.xml") 1 HM (num_int 0) None
    (lit "2025-02-01T09:00:00").

Definition d_two_pos : Data :=
  mkData [est_1001] [po_old; po_new] [fattura_old] (mkConfig 0 1 2025).
Definition st_two_pos : Processor := mkProcessor d_two_pos d_two_pos.

(** Estimate texts without a case id, and an estimate already active whose
    case id is unset. *)
Definition text_no_case : str := lit "PREVENTIVO Targa: AB123CD Totale: 500".

Definition pdf_no_case : Pdf := mkPdf text_no_case [].

Definition d_unset : Data :=
  mkData [estimate None None] [order None None None None false] []
         (mkConfig 0 0 2025).
Definition st_unset : Processor := mkProcessor d_unset d_unset.

(** Two estimate texts with the same disposal fee and different totals in
    print. *)
Definition text_fee_500 : str :=
  lit "PREVENTIVO Smaltimento Rifiuti 12,50 TOTALE 500".

(** A second file for the case 1001. *)
Definition pdf_1001 : Pdf := mkPdf (lit "PREVENTIVO Pratica Hertz: 1001") [].

End Run.

(* ================================================================== *)
(** * The rest of the processor and the views that drive it *)
(* ================================================================== *)

(** [int(x)] on a value of a request body. *)
Inductive int_outcome :=
| IntValue (z : Z)
| IntValueError          (* ValueError *)
| IntOtherError.         (* TypeError, OverflowError *)

(** Comparison of two [str], as [sorted] compares keys: by code points. *)
Fixpoint str_leb (a b : str) : bool :=
  match a, b with
  | [], _ => true
  | _ :: _, [] => false
  | x :: a', y :: b' =>
      if (x <? y)%N then true
      else if (y <? x)%N then false
      else str_leb a' b'
  end.

(** [sorted(l, key=key)]. Python's sort is stable: its result is the one
    permutation of [l] that is ordered by key and keeps elements of equal key
    in their order in [l]. The insertion sort below computes that list
    ([sorted_by_spec] proves the three facts). *)
Fixpoint insert_by {A} (key : A -> str) (x : A) (l : list A) : list A :=
  match l with
  | [] => [x]
  | y :: l' =>
      if str_leb (key x) (key y) then x :: y :: l'
      else y :: insert_by key x l'
  end.

Fixpoint sorted_by {A} (key : A -> str) (l : list A) : list A :=
  match l with
  | [] => []
  | x :: l' => insert_by key x (sorted_by key l')
  end.

(** The order of [sorted] on the elements: by their keys. *)
Definition by_key {A} (key : A -> str) (a b : A) : Prop :=
  str_leb (key a) (key b) = true.

Section Views.
Context {R : PyRuntime}.
Local Open Scope mon_scope.

(** [load_data] when neither data file exists (lines 44-52). *)
Definition initial_data (current_year : Z) : Data :=
  mkData [] [] [] (mkConfig 0 0 current_year).

Definition with_fatture (d : Data) (l : list Fattura) : Data :=
  mkData (preventivi d) (purchase_orders d) l (config d).

(** [try: ... except Exception as e: ...]: the exception becomes a value, the
    assignments made before it stay. *)
Definition try_ {A} (m : M A) : M (result A) :=
  fun st =>
    match m st with
    | (Return a, st') => (Return (Ok a), st')
    | (Raise e, st') => (Return (Failed e), st')
    end.

(** [delete_document] *)
Definition delete_document (env : Env) (doc_type doc_id : str) : M unit :=
  d <- get_data ;;
  (if str_eqb doc_type (lit "preventivo")
   then set_data (with_preventivi d
          (filter (fun p => negb (str_eqb (prev_id p) doc_id)) (preventivi d)))
   else if str_eqb doc_type (lit "purchase_order")
   then set_data (with_purchase_orders d
          (filter (fun p => negb (str_eqb (po_id p) doc_id)) (purchase_orders d)))
   else mret tt) ;;
  save_data env.

(** [clear_all] *)
Definition clear_all (env : Env) : M unit :=
  d <- get_data ;;
  set_data (with_preventivi d []) ;;
  d' <- get_data ;;
  set_data (with_purchase_orders d' []) ;;
  save_data env.

(** The view [genera_fattura]: its JSON answers. *)
Inductive genera_response :=
| GeneraSuccess (filename : str) (totale : num)
| GeneraError (e : exn)              (* status 500 *)
| GeneraNotFound.                    (* status 404 *)

(** The loop [for match in stats['matches']] of [genera_fattura]. *)
Fixpoint genera_loop (env : Env) (pratica_hertz : str) (ms : list Match)
  : M genera_response :=
  match ms with
  | [] => mret GeneraNotFound
  | m :: rest =>
      if opt_eqb (prev_pratica_hertz (m_preventivo m)) (Some pratica_hertz)
      then
        r <- try_ (generate_xml env m) ;;
        mret (match r with
              | Ok (filename, totale) => GeneraSuccess filename totale
              | Failed e => GeneraError e
              end)
      else genera_loop env pratica_hertz rest
  end.

(** [genera_fattura(pratica_hertz)]; the argument is the text of the URL. *)
Definition genera_fattura (env : Env) (pratica_hertz : str)
  : M genera_response :=
  stats <- get_stats ;;
  genera_loop env pratica_hertz (matches stats).

(** [m['po'].get('date') or '9999-99-99'] *)
Definition date_key (m : Match) : str :=
  or_default (po_date (m_po m)) (lit "9999-99-99").

(** The loop of [genera_tutti]: each match in turn, a failure passed over.
    [env_at i] is what the [i]-th call of [generate_xml] meets. *)
Fixpoint generate_each (env_at : nat -> Env) (i : nat) (ms : list Match)
  : M (list (str * num)) :=
  match ms with
  | [] => mret []
  | m :: rest =>
      r <- try_ (generate_xml (env_at i) m) ;;
      generated <- generate_each env_at (S i) rest ;;
      mret (match r with
            | Ok ft => ft :: generated
            | Failed _ => generated
            end)
  end.

(** [genera_tutti()]: the list [generated] of its answer. *)
Definition genera_tutti (env_at : nat -> Env) : M (list (str * num)) :=
  stats <- get_stats ;;
  generate_each env_at 0 (sorted_by date_key (matches stats)).

(** The body of a request to [update_numerazione]: each key may be absent
    ([data.get(key, 0)]). *)
Record numerazione_request (json : Type) := mkNumerazioneRequest {
  req_last_number_hm : option json;
  req_last_number_hg : option json
}.

Inductive numerazione_response :=
| NumerazioneSuccess
| NumerazioneError (msg : str)       (* status 400 *)
| NumerazioneUncaught.               (* an exception other than ValueError *)

Definition int_of_field {json : Type} (py_int : json -> int_outcome)
  (o : option json) : int_outcome :=
  match o with
  | Some v => py_int v
  | None => IntValue 0
  end.

(** [update_numerazione()]; [py_int] is [int] on the values of the body. *)
Definition update_numerazione {json : Type} (py_int : json -> int_outcome)
  (env : Env) (req : numerazione_request json) : M numerazione_response :=
  match int_of_field py_int (req_last_number_hm req) with
  | IntValueError => mret (NumerazioneError (lit "Valori non validi"))
  | IntOtherError => mret NumerazioneUncaught
  | IntValue new_hm =>
      match int_of_field py_int (req_last_number_hg req) with
      | IntValueError => mret (NumerazioneError (lit "Valori non validi"))
      | IntOtherError => mret NumerazioneUncaught
      | IntValue new_hg =>
          if (new_hm <? 0) || (new_hg <? 0)
          then mret (NumerazioneError (lit "I numeri devono essere positivi"))
          else
            d <- get_data ;;
            set_data (with_config d
              (mkConfig (last_number_hg (config d)) new_hm (cfg_year (config d)))) ;;
            d' <- get_data ;;
            set_data (with_config d'
              (mkConfig new_hg (last_number_hm (config d')) (cfg_year (config d')))) ;;
            save_data env ;;
            mret NumerazioneSuccess
      end
  end.

Inductive delete_response :=
| DeleteSuccess
| DeleteError (e : exn).             (* status 500 *)

(** The view [delete_fattura(filename)]. [remove_ok] tells whether the
    removal of the XML file goes through (also when there is no file). *)
Definition delete_fattura (remove_ok : bool) (env : Env) (filename : str)
  : M delete_response :=
  r <- try_ (d <- get_data ;;
             set_data (with_fatture d
               (filter (fun f => negb (str_eqb (f_filename f) filename))
                       (fatture_generate d))) ;;
             attempt remove_ok OSError ;;
             save_data env) ;;
  mret (match r with
        | Ok _ => DeleteSuccess
        | Failed e => DeleteError e
        end).

Inductive delete_all_response :=
| DeleteAllSuccess (deleted : nat)
| DeleteAllError (e : exn).          (* status 500 *)

(** The view [delete_all_fatture()]; a file that cannot be removed is passed
    over. *)
Definition delete_all_fatture (env : Env) : M delete_all_response :=
  d0 <- get_data ;;
  let deleted_count := List.length (fatture_generate d0) in
  r <- try_ (d <- get_data ;;
             set_data (with_fatture d []) ;;
             save_data env) ;;
  mret (match r with
        | Ok _ => DeleteAllSuccess deleted_count
        | Failed e => DeleteAllError e
        end).

End Views.



(** How many items have a description that starts with [p]. *)
Definition count_starts {R : PyRuntime} (p : str) (its : list Item) : nat :=
  List.length (filter (fun i => starts_with p (description i)) its).

(** A step from [its] to [its'] that leaves at most one item starting with
    [p], or as many as there were. *)
Definition careful_step {R : PyRuntime} (p : str) (its its' : list Item) : Prop :=
  (count_starts p its' <= Nat.max 1 (count_starts p its))%nat.

(** What the descriptions of the synthetic items start with. *)
Definition synthetic_labels : list str :=
  lit "Smaltimento" :: map (fun kind => lit "Manodopera " ++ kind) labor_kinds.

Module Run2.

(** The text of a purchase order and the record parsed from it. *)
Definition po_text : str :=
  lit "PURCHASE ORDER # 4500012345 WD: 1001 Plate Number: AB123CD Date: 25/12/2024".

Definition po_parsed : @PurchaseOrder Exact.runtime :=
  mkPurchaseOrder (now_id Run.env_ok) (lit "po.pdf")
    (Some (lit "4500012345")) (Some (lit "1001")) (Some (lit "AB123CD"))
    None None None None (Some (lit "2024-12-25")) None po_text false
    (now_iso Run.env_ok) false.

End Run2.

Section Invariants.
Context {R : PyRuntime}.

Definition counter_of (t : Tipo) (c : Config) : Z :=
  match t with
  | HG => last_number_hg c
  | HM => last_number_hm c
  end.

(** What the operations keep of a state: no two active estimates with one
    case id, no two active purchase orders with one number, no active key
    among the invoices, counters that are not negative, invoice numbers from
    1 on. *)
Definition well_formed (d : Data) : Prop :=
  NoDup (prev_keys d)
  /\ NoDup (po_keys d)
  /\ (forall k, In k (prev_keys d) -> ~ In k (invoiced_cases d))
  /\ (forall k, In k (po_keys d) -> ~ In k (invoiced_pos d))
  /\ 0 <= last_number_hg (config d)
  /\ 0 <= last_number_hm (config d)
  /\ (forall f, In f (fatture_generate d) -> 1 <= numero_fattura f).

(** No invoice carries a number above the counter of its category. *)
Definition numbers_bounded (d : Data) : Prop :=
  forall f, In f (fatture_generate d) ->
            numero_fattura f <= counter_of (tipo f) (config d).

(** The sort key of an invoice record, as [date_key] of its match. *)
Definition fattura_key (f : Fattura) : str :=
  or_default (data_po f) (lit "9999-99-99").

(** One request to the application, with what it meets outside. *)
Inductive operation (json : Type) :=
| OpProcessPdf (env : Env) (pdf : Pdf) (filename : str)
| OpGeneraFattura (env : Env) (pratica_hertz : str)
| OpGeneraTutti (env_at : nat -> Env)
| OpDeleteDocument (env : Env) (doc_type doc_id : str)
| OpClearAll (env : Env)
| OpDeleteFattura (remove_ok : bool) (env : Env) (filename : str)
| OpDeleteAllFatture (env : Env)
| OpUpdateNumerazione (env : Env) (req : numerazione_request json).

(** The processor after a request. [OpProcessPdf] is one file of
    [upload_file] or [check_email], which catch what [process_pdf] raises. *)
Definition exec {json : Type} (py_int : json -> int_outcome)
  (op : operation json) (st : Processor) : Processor :=
  match op with
  | OpProcessPdf _ env pdf filename => snd (process_pdf env pdf filename st)
  | OpGeneraFattura _ env k => snd (genera_fattura env k st)
  | OpGeneraTutti _ env_at => snd (genera_tutti env_at st)
  | OpDeleteDocument _ env doc_type doc_id =>
      snd (delete_document env doc_type doc_id st)
  | OpClearAll _ env => snd (clear_all env st)
  | OpDeleteFattura _ remove_ok env filename =>
      snd (delete_fattura remove_ok env filename st)
  | OpDeleteAllFatture _ env => snd (delete_all_fatture env st)
  | OpUpdateNumerazione env req => snd (update_numerazione py_int env req st)
  end.

Definition run {json : Type} (py_int : json -> int_outcome)
  (ops : list (operation json)) (st : Processor) : Processor :=
  fold_left (fun s op => exec py_int op s) ops st.

End Invariants.

(** An invoice record made for a match: it carries its keys and date. *)
Definition invoice_for {R : PyRuntime} (f : Fattura) (m : Match) : Prop :=
  f_po_number f = po_number (m_po m)
  /\ f_pratica_hertz f = prev_pratica_hertz (m_preventivo m)
  /\ data_po f = po_date (m_po m).

(** How many matches are for tyres, and how many are not. *)
Definition count_tyres {R : PyRuntime} (ms : list Match) : Z :=
  Z.of_nat (List.length (filter (fun m => has_tyres (m_po m)) ms)).
Definition count_other {R : PyRuntime} (ms : list Match) : Z :=
  Z.of_nat (List.length (filter (fun m => negb (has_tyres (m_po m))) ms)).

(** More data for the runs. *)
Module Run3.

(** A second case, for tyres, with an earlier purchase order. *)
Definition est_1002 := Run.estimate (Some (lit "1002")) (Some (lit "EF456GH")).

Definition po_1002 :=
  Run.order (Some (lit "4500012346")) (Some (lit "1002")) (Some (lit "EF456GH"))
            (Some (lit "2024-11-30")) true.

(** Two estimates and their purchase orders, nothing invoiced yet. *)
Definition d_pair : Data :=
  mkData [Run.est_1001; est_1002] [Run.po_1001; po_1002] [] (mkConfig 0 0 2025).
Definition st_pair : Processor := mkProcessor d_pair d_pair.

(** Only the second case. *)
Definition d_1002 : Data := mkData [est_1002] [po_1002] [] (mkConfig 0 0 2025).
Definition st_1002 : Processor := mkProcessor d_1002 d_1002.

(** The state after the invoice of [Run.the_match] from [Run.st0], and the
    file written for it. *)
Definition st_invoiced : Processor :=
  snd (generate_xml Run.env_ok Run.the_match Run.st0).

Definition file_1001 : str := lit "Fatt_001_PO_4500012345_AB123CD.xml".

(** The purchase order of [Run2.po_text] as a file. *)
Definition pdf_po : Pdf := mkPdf Run2.po_text [].

End Run3.

(** Table rows for the runs. *)
Module Run4.

(** A table row of 24 cells with a description and amounts, and one of 25
    cells with a total in the last. *)
Definition row_24 : row :=
  [Some (lit "X1"); Some (lit "Filtro olio")] ++ repeat None 16
  ++ [Some (lit "1"); Some (lit "2"); Some (lit "10,00"); None; None;
      Some (lit "10")].

Definition row_25 : row := row_24 ++ [Some (lit "18,00")].

(** A table with that row and two rows that state labor of one category. *)
Definition labor_twice : list table :=
  [[row_25;
    [Some (lit "Manodopera meccanica ore 1,5 x 40,00")];
    [Some (lit "Manodopera meccanica ore 2 x 40,00")]]].

End Run4.

(* ================================================================== *)
(** * Properties of strings and matchers *)
(* ================================================================== *)

Lemma str_eqb_eq (a b : str) : str_eqb a b = true <-> a = b.
Proof.
  revert b; induction a as [|x a IH]; intros [|y b]; simpl;
    try (split; [discriminate | discriminate]); try tauto.
  unfold chr_eqb. rewrite andb_true_iff, N.eqb_eq, IH.
  split; [intros [-> ->]; reflexivity | intros H; inversion H; auto].
Qed.

Lemma str_eqb_refl (a : str) : str_eqb a a = true.
Proof. apply str_eqb_eq; reflexivity. Qed.

Lemma opt_eqb_eq (a b : option str) : opt_eqb a b = true <-> a = b.
Proof.
  destruct a as [a|], b as [b|]; simpl; try (split; [discriminate | discriminate]);
    try tauto.
  rewrite str_eqb_eq. split; [intros ->; reflexivity | intros H; inversion H; auto].
Qed.

Lemma opt_eqb_refl (a : option str) : opt_eqb a a = true.
Proof. apply opt_eqb_eq; reflexivity. Qed.

Lemma opt_eqb_neq (a b : option str) : opt_eqb a b = false <-> a <> b.
Proof.
  rewrite <- opt_eqb_eq. destruct (opt_eqb a b); split; congruence.
Qed.

Lemma py_in_In (x : option str) (xs : list (option str)) :
  py_in x xs = true <-> In x xs.
Proof.
  unfold py_in. rewrite existsb_exists. split.
  - intros (y & Hy & E). apply opt_eqb_eq in E. subst; assumption.
  - intros H. exists x. split; [assumption | apply opt_eqb_refl].
Qed.

Lemma py_in_not_In (x : option str) (xs : list (option str)) :
  py_in x xs = false <-> ~ In x xs.
Proof.
  rewrite <- py_in_In. destruct (py_in x xs); split; congruence.
Qed.

(* ------------------------------------------------------------------ *)
(** ** Dates *)
(* ------------------------------------------------------------------ *)

Lemma pad4_years :
  forallb (fun y => digits_exactly 4 (pad_num 4 (Z.of_nat y))) (seq 1 (Z.to_nat 9999)) = true.
Proof. vm_compute. reflexivity. Qed.

Lemma pad2_days :
  forallb (fun y => digits_exactly 2 (pad_num 2 (Z.of_nat y))) (seq 1 (Z.to_nat 31)) = true.
Proof. vm_compute. reflexivity. Qed.

Lemma pad4_ok (y : Z) : 1 <= y <= 9999 -> digits_exactly 4 (pad_num 4 y) = true.
Proof.
  intros H. pose proof pad4_years as A. rewrite forallb_forall in A.
  specialize (A (Z.to_nat y)). rewrite Z2Nat.id in A by lia.
  apply A. apply in_seq. lia.
Qed.

Lemma pad2_ok (y : Z) : 1 <= y <= 31 -> digits_exactly 2 (pad_num 2 y) = true.
Proof.
  intros H. pose proof pad2_days as A. rewrite forallb_forall in A.
  specialize (A (Z.to_nat y)). rewrite Z2Nat.id in A by lia.
  apply A. apply in_seq. lia.
Qed.

Lemma days_in_month_le (y m : Z) : days_in_month y m <= 31.
Proof.
  unfold days_in_month.
  destruct (m =? 2); [destruct (is_leap y); lia|].
  destruct ((m =? 4) || (m =? 6) || (m =? 9) || (m =? 11)); lia.
Qed.

Lemma strftime_canonical (d : date) :
  valid_date d = true -> is_canonical_date (strftime_ymd d) = true.
Proof.
  unfold valid_date. rewrite !andb_true_iff, !Z.leb_le.
  intros [[[[[Hy1 Hy2] Hm1] Hm2] Hd1] Hd2].
  pose proof (days_in_month_le (year d) (month d)) as Hle.
  assert (Y : digits_exactly 4 (pad_num 4 (year d)) = true) by (apply pad4_ok; lia).
  assert (Mo : digits_exactly 2 (pad_num 2 (month d)) = true) by (apply pad2_ok; lia).
  assert (Da : digits_exactly 2 (pad_num 2 (day d)) = true) by (apply pad2_ok; lia).
  unfold strftime_ymd.
  destruct (pad_num 4 (year d)) as [|y1 [|y2 [|y3 [|y4 [|? ?]]]]]; try discriminate Y.
  destruct (pad_num 2 (month d)) as [|m1 [|m2 [|? ?]]]; try discriminate Mo.
  destruct (pad_num 2 (day d)) as [|d1 [|d2 [|? ?]]]; try discriminate Da.
  unfold digits_exactly in *. simpl in *.
  rewrite !andb_true_iff in *. intuition auto.
Qed.

Lemma strptime_valid (s fmt : str) (d : date) :
  strptime s fmt = Some d -> valid_date d = true.
Proof.
  unfold strptime.
  destruct (Re.re_match _ s) as [[d' [|? ?]]|]; try discriminate.
  destruct (valid_date d') eqn:E; [|discriminate].
  intros H; inversion H; subst; assumption.
Qed.

Lemma try_formats_canonical (fmts : list str) (s r : str) :
  try_formats fmts s = Some r -> is_canonical_date r = true.
Proof.
  induction fmts as [|f fmts IH]; simpl; [discriminate|].
  destruct (strptime s f) as [d|] eqn:E; [|exact IH].
  intros H; inversion H; subst.
  apply strftime_canonical. eapply strptime_valid; eassumption.
Qed.

Lemma normalize_date_unfold (s : str) :
  normalize_date s = try_formats date_formats s.
Proof. reflexivity. Qed.

Lemma normalize_canonical (s r : str) :
  normalize_date s = Some r -> is_canonical_date r = true.
Proof.
  rewrite normalize_date_unfold. apply try_formats_canonical.
Qed.



Lemma canonical_truthy (r : str) :
  is_canonical_date r = true -> truthy (Some r) = true.
Proof. destruct r; [discriminate | reflexivity]. Qed.



(* ------------------------------------------------------------------ *)
(** ** Matchers *)
(* ------------------------------------------------------------------ *)

Lemma in_bind {A B} (p : Re.P A) (k : A -> Re.P B) (s : str) (x : B * str) :
  In x (Re.bind p k s) <->
  exists a s', In (a, s') (p s) /\ In x (k a s').
Proof.
  unfold Re.bind. rewrite in_flat_map. split.
  - intros ([a s'] & H1 & H2). exists a, s'. auto.
  - intros (a & s' & H1 & H2). exists (a, s'). auto.
Qed.

Lemma in_cls (f : char -> bool) (s : str) (x : str * str) :
  In x (Re.cls f s) ->
  exists c, fst x = [c] /\ f c = true /\ s = c :: snd x.
Proof.
  unfold Re.cls. destruct s as [|c s']; [intros []|].
  destruct (f c) eqn:E; [|intros []].
  intros [<-|[]]. exists c. auto.
Qed.

Lemma in_many (f : char -> bool) (s : str) (x : str * str) :
  In x (Re.many f s) -> forallb f (fst x) = true /\ s = fst x ++ snd x.
Proof.
  revert x; induction s as [|c s IH]; intros x; simpl.
  - intros [<-|[]]. auto.
  - destruct (f c) eqn:E.
    + rewrite in_app_iff, in_map_iff. intros [([m r] & <- & H)|[<-|[]]].
      * apply IH in H. simpl in *. destruct H as [H1 H2].
        rewrite E, H1. split; [reflexivity | congruence].
      * auto.
    + intros [<-|[]]. auto.
Qed.

Lemma in_many1 (f : char -> bool) (s : str) (x : str * str) :
  In x (Re.many1 f s) ->
  fst x <> [] /\ forallb f (fst x) = true /\ s = fst x ++ snd x.
Proof.
  unfold Re.many1, Re.cat. rewrite in_bind.
  intros (a & s1 & H1 & H2). apply in_cls in H1. destruct H1 as (c & Ha & Hc & Hs).
  simpl in Ha, Hs. subst a s.
  apply in_bind in H2. destruct H2 as (b & s2 & H2 & H3).
  apply in_many in H2. simpl in H2. destruct H2 as [Hb Hs1]. subst s1.
  destruct H3 as [<-|[]]. simpl. rewrite Hc, Hb. repeat split; congruence.
Qed.

Lemma in_labeled (label : str) (f : char -> bool) (s : str) (x : str * str) :
  In x (labeled label f s) -> fst x <> [] /\ forallb f (fst x) = true.
Proof.
  unfold labeled. rewrite in_bind. intros (a & s1 & _ & H).
  apply in_bind in H. destruct H as (b & s2 & _ & H).
  apply in_many1 in H. tauto.
Qed.

Lemma re_search_some {A} (p : Re.P A) (s : str) (a : A) :
  Re.re_search p s = Some a ->
  exists pre s' rest, s = pre ++ s' /\ In (a, rest) (p s').
Proof.
  induction s as [|c s IH]; simpl.
  - destruct (p []) as [|[a' r] l] eqn:E; [discriminate|].
    intros H; inversion H; subst. exists [], [], r. rewrite E. simpl. auto.
  - destruct (p (c :: s)) as [|[a' r] l] eqn:E.
    + intros H. destruct (IH H) as (pre & s' & rest & -> & Hin).
      exists (c :: pre), s', rest. auto.
    + intros H; inversion H; subst. exists [], (c :: s), r. rewrite E. simpl. auto.
Qed.

(* ------------------------------------------------------------------ *)
(** ** [rstrip] *)
(* ------------------------------------------------------------------ *)

Lemma rstrip_by_snoc (f : char -> bool) (s : str) (c : char) :
  rstrip_by f (s ++ [c]) = if f c then rstrip_by f s else s ++ [c].
Proof.
  induction s as [|x s IH]; simpl.
  - destruct (f c); reflexivity.
  - rewrite IH. destruct (f c); [reflexivity|].
    destruct (s ++ [c]) eqn:E; [|reflexivity].
    destruct s; discriminate.
Qed.

Lemma ends_with_T_snoc (s : str) (c : char) :
  ends_with_T (s ++ [c]) = chr_eqb 84%N c.
Proof. unfold ends_with_T. rewrite rev_unit. reflexivity. Qed.

Lemma rstrip_T_no_suffix (s : str) :
  ends_with_T s = false -> rstrip_T s = s.
Proof.
  destruct s as [|x s] using rev_ind; [reflexivity|].
  rewrite ends_with_T_snoc. intros E.
  unfold rstrip_T. rewrite rstrip_by_snoc, E. reflexivity.
Qed.

Lemma rstrip_T_one_suffix (s : str) :
  ends_with_T s = false -> rstrip_T (s ++ lit "T") = s.
Proof.
  intros E. change (lit "T") with [84%N].
  unfold rstrip_T. rewrite rstrip_by_snoc. simpl.
  apply rstrip_T_no_suffix. assumption.
Qed.

Section ParserProperties.
Context {R : PyRuntime}.

(** C8. When the labeled plate pattern matches, the token it captures is a
    non-empty run of capitals and digits, and the plate stored is that token
    with its trailing ['T'] removed: a token ending in exactly one ['T'] is
    stored without it, a token that does not end in ['T'] is stored as it
    is. *)
Theorem C8_plate_suffix (env : Env) (text filename : str)
  (tables : list table) (g : str) :
  Re.re_search re_targa text = Some g ->
  let r := parse_preventivo env text filename tables in
  prev_targa r = Some (rstrip_T g)
  /\ g <> [] /\ forallb alnum_upper g = true
  /\ (forall s, g = s ++ lit "T" -> ends_with_T s = false ->
        prev_targa r = Some s)
  /\ (ends_with_T g = false -> prev_targa r = Some g).
Proof.
  intros H r.
  assert (T : prev_targa r = Some (rstrip_T g)).
  { unfold r, parse_preventivo, group_of. cbn [prev_targa]. rewrite H. reflexivity. }
  destruct (re_search_some _ _ H) as (pre & s' & rest & _ & Hin).
  apply in_labeled in Hin. simpl in Hin. destruct Hin as [Hne Hall].
  repeat split; try assumption.
  - intros s -> E. rewrite T, rstrip_T_one_suffix by assumption. reflexivity.
  - intros E. rewrite T, rstrip_T_no_suffix by assumption. reflexivity.
Qed.

End ParserProperties.

(** A run of C8: the plate ["AB123CDT"] is stored as ["AB123CD"]. *)
Lemma C8_plate_suffix_witness :
  prev_targa (parse_preventivo (R := Exact.runtime) Run.env_ok
                (lit "Targa: AB123CDT") (lit "a.pdf") [])
  = Some (lit "AB123CD").
Proof.
  refine (proj1 (proj2 (proj2 (proj2
    (@C8_plate_suffix Exact.runtime Run.env_ok (lit "Targa: AB123CDT")
       (lit "a.pdf") [] (lit "AB123CDT") _)))) (lit "AB123CD") _ _);
    vm_compute; reflexivity.
Defined.

(* ------------------------------------------------------------------ *)
(** ** Line items of an estimate *)
(* ------------------------------------------------------------------ *)

Lemma starts_with_app (p s : str) : starts_with p (p ++ s) = true.
Proof.
  induction p as [|c p IH]; simpl; [reflexivity|].
  unfold chr_eqb. rewrite N.eqb_refl. exact IH.
Qed.

(** A loop that only appends items of some kind appends items of that kind. *)
Lemma fold_left_extends {A B} (P : A -> Prop) (Q : B -> Prop)
  (f : list A -> B -> list A) (l : list B) :
  (forall acc x, Q x -> exists syn, f acc x = acc ++ syn /\ Forall P syn) ->
  Forall Q l ->
  forall acc, exists syn, fold_left f l acc = acc ++ syn /\ Forall P syn.
Proof.
  intros Hf Hl. induction Hl as [|x l Hx Hl IH]; intros acc; simpl.
  - exists []. rewrite app_nil_r. auto.
  - destruct (Hf acc x Hx) as (s1 & -> & P1).
    destruct (IH (acc ++ s1)) as (s2 & -> & P2).
    exists (s1 ++ s2). rewrite app_assoc. split; [reflexivity|].
    apply Forall_app; auto.
Qed.

Lemma Forall_True {B} (l : list B) : Forall (fun _ => True) l.
Proof. induction l; constructor; auto. Qed.

Section ItemProperties.
Context {R : PyRuntime}.

Lemma extends_nil (its : list Item) :
  exists syn, its = its ++ syn /\ Forall synthetic_positive syn.
Proof. exists []. rewrite app_nil_r. auto. Qed.

Lemma add_smaltimento_extends (text : str) (its : list Item) :
  exists syn, add_smaltimento text its = its ++ syn
              /\ Forall synthetic_positive syn.
Proof.
  unfold add_smaltimento.
  destruct (Re.re_search re_smaltimento text) as [g|]; [|apply extends_nil].
  destruct (py_float _) as [val|]; [|apply extends_nil].
  destruct (num_gtb val num_zero) eqn:E; simpl; [|apply extends_nil].
  destruct (has_description _ its); simpl; [apply extends_nil|].
  eexists. split; [reflexivity|].
  constructor; [|constructor].
  split; [|exact E]. unfold is_synthetic; simpl. auto 6.
Qed.

Lemma add_manodopera_extends (row_text : str) (its : list Item) (kind : str) :
  In kind labor_kinds ->
  exists syn, add_manodopera row_text its kind = its ++ syn
              /\ Forall synthetic_positive syn.
Proof.
  intros Hk. unfold add_manodopera.
  destruct (contains _ row_text); [|apply extends_nil].
  destruct (Re.re_search re_ore row_text) as [[g1 g2]|]; [|apply extends_nil].
  destruct (py_float (replace_chr comma [dot] g1)) as [ore|]; [|apply extends_nil].
  destruct (py_float (replace_chr comma [dot] g2)) as [tariffa|]; [|apply extends_nil].
  destruct (num_gtb (num_mul ore tariffa) num_zero) eqn:E; simpl; [|apply extends_nil].
  destruct (has_description _ its); simpl; [apply extends_nil|].
  eexists. split; [reflexivity|].
  constructor; [|constructor].
  split; [|exact E]. unfold is_synthetic; simpl.
  repeat (split; [reflexivity|]). right. exists kind. split; [assumption|].
  apply starts_with_app.
Qed.

Lemma manodopera_row_extends (its : list Item) (raw : row) :
  exists syn, manodopera_row its raw = its ++ syn
              /\ Forall synthetic_positive syn.
Proof.
  unfold manodopera_row. destruct raw as [|c raw]; [apply extends_nil|].
  apply fold_left_extends with (Q := fun k => In k labor_kinds).
  - intros acc x Hx. apply add_manodopera_extends; assumption.
  - apply Forall_forall. auto.
Qed.

Lemma add_manodopera_all_extends (tables : list table) (its : list Item) :
  exists syn, add_manodopera_all tables its = its ++ syn
              /\ Forall synthetic_positive syn.
Proof.
  unfold add_manodopera_all.
  apply fold_left_extends with (Q := fun _ => True); [|apply Forall_True].
  intros acc t _.
  apply fold_left_extends with (Q := fun _ => True); [|apply Forall_True].
  intros acc' raw _. apply manodopera_row_extends.
Qed.




End ItemProperties.

(* ================================================================== *)
(** * Properties of the invoice generator *)
(* ================================================================== *)

Section GeneratorProperties.
Context {R : PyRuntime}.

(** The four ways a call of [generate_xml] ends. *)
Lemma generate_xml_cases (env : Env) (m : Match) (st : Processor) :
  generate_xml env m st =
  if xml_ok env then
    if write_ok env then
      if save_ok env then
        (Return (f_filename (fattura_of env m (data st)),
                 invoice_total (m_preventivo m)),
         mkProcessor (data_invoiced env m (data st))
                     (data_invoiced env m (data st)))
      else (Raise OSError,
            mkProcessor (data_invoiced env m (data st)) (saved st))
    else (Raise OSError, mkProcessor (data_numbered env m (data st)) (saved st))
  else (Raise ExpatError, mkProcessor (data_numbered env m (data st)) (saved st)).
Proof.
  unfold generate_xml, data_invoiced, data_numbered, fattura_of, config_after,
    number_issued, tipo_issued, numbering, next_number.
  destruct st as [d sv]. cbn [data saved].
  destruct (has_tyres (m_po m)), (xml_ok env) eqn:X, (write_ok env) eqn:W,
    (save_ok env) eqn:S;
    unfold mbind, get_data, set_data, attempt, save_data, mret, raise;
    cbn [data saved fst snd]; rewrite ?X, ?W, ?S; cbn [data saved fst snd];
    rewrite ?S; reflexivity.
Qed.

Lemma numbering_spec (env : Env) (m : Match) (d : Data) :
  let c := config d in
  let same_year := (cfg_year c =? now_year env)%Z in
  let prev_hg := if same_year then last_number_hg c else 0 in
  let prev_hm := if same_year then last_number_hm c else 0 in
  cfg_year (config_after env m d) = now_year env
  /\ (has_tyres (m_po m) = true ->
        number_issued env m d = prev_hg + 1 /\ tipo_issued env m d = HG
        /\ last_number_hg (config_after env m d) = prev_hg + 1
        /\ last_number_hm (config_after env m d) = prev_hm)
  /\ (has_tyres (m_po m) = false ->
        number_issued env m d = prev_hm + 1 /\ tipo_issued env m d = HM
        /\ last_number_hm (config_after env m d) = prev_hm + 1
        /\ last_number_hg (config_after env m d) = prev_hg).
Proof.
  unfold config_after, number_issued, tipo_issued, numbering, next_number, rollover.
  destruct (cfg_year (config d) =? now_year env)%Z eqn:E; cbn [negb].
  - apply Z.eqb_eq in E.
    destruct (has_tyres (m_po m)); cbn; repeat split; auto; discriminate.
  - destruct (has_tyres (m_po m)); cbn; repeat split; auto; discriminate.
Qed.

End GeneratorProperties.


Section GeneratorClaims.
Context {R : PyRuntime}.

Lemma generate_xml_return (env : Env) (m : Match) (st st' : Processor)
  (fn : str) (tot : num) :
  generate_xml env m st = (Return (fn, tot), st') ->
  xml_ok env = true /\ write_ok env = true /\ save_ok env = true
  /\ fn = f_filename (fattura_of env m (data st))
  /\ tot = invoice_total (m_preventivo m)
  /\ st' = mkProcessor (data_invoiced env m (data st))
                       (data_invoiced env m (data st)).
Proof.
  rewrite generate_xml_cases.
  destruct (xml_ok env), (write_ok env), (save_ok env); try discriminate.
  intros H; inversion H; subst. auto 6.
Qed.

(** C1. A call of [generate_xml] that meets no failure returns, and the
    invoice it records carries the counter of its category plus one: the
    tyres counter with tag HG when the purchase order has [has_tyres], the
    other counter with tag HM otherwise; that counter is stored, the counter
    of the other category is left as it was. The counters meant are those
    after the year check: when the stored year differs from the current one,
    both are zero and the stored year becomes the current one before the
    number is taken, so the first number after a change of year is 1. *)
Theorem C1_invoice_number (env : Env) (m : Match) (st : Processor) :
  let c := config (data st) in
  let same_year := (cfg_year c =? now_year env)%Z in
  let prev_hg := if same_year then last_number_hg c else 0 in
  let prev_hm := if same_year then last_number_hm c else 0 in
  (xml_ok env = true -> write_ok env = true -> save_ok env = true ->
   exists fn tot st', generate_xml env m st = (Return (fn, tot), st'))
  /\ (forall fn tot st',
        generate_xml env m st = (Return (fn, tot), st') ->
        exists f,
          fatture_generate (data st') = fatture_generate (data st) ++ [f]
          /\ cfg_year (config (data st')) = now_year env
          /\ (has_tyres (m_po m) = true ->
                numero_fattura f = prev_hg + 1 /\ tipo f = HG
                /\ last_number_hg (config (data st')) = prev_hg + 1
                /\ last_number_hm (config (data st')) = prev_hm)
          /\ (has_tyres (m_po m) = false ->
                numero_fattura f = prev_hm + 1 /\ tipo f = HM
                /\ last_number_hm (config (data st')) = prev_hm + 1
                /\ last_number_hg (config (data st')) = prev_hg)
          /\ (cfg_year c <> now_year env -> numero_fattura f = 1)).
Proof.
  intros c same_year prev_hg prev_hm. split.
  - intros X W S. rewrite generate_xml_cases, X, W, S. eauto.
  - intros fn tot st' H.
    apply generate_xml_return in H. destruct H as (_ & _ & _ & _ & _ & ->).
    exists (fattura_of env m (data st)). cbn [data data_invoiced fatture_generate config].
    destruct (numbering_spec env m (data st)) as (Y & T & F).
    cbn zeta in T, F. fold c in T, F. fold same_year in T, F.
    fold prev_hg in T, F. fold prev_hm in T, F.
    split; [reflexivity|]. split; [exact Y|].
    split; [exact T|]. split; [exact F|].
    intros Hy. cbn [numero_fattura fattura_of].
    assert (E : same_year = false) by (apply Z.eqb_neq; exact Hy).
    destruct (has_tyres (m_po m)) eqn:B.
    + destruct (T eq_refl) as [-> _]. unfold prev_hg. rewrite E. reflexivity.
    + destruct (F eq_refl) as [-> _]. unfold prev_hm. rewrite E. reflexivity.
Qed.

(** Two successful calls in a row, in the same year and the same category:
    the second number is the first plus one. *)
Lemma consecutive_numbers (env1 env2 : Env) (m1 m2 : Match)
  (st st1 st2 : Processor) (fn1 fn2 : str) (tot1 tot2 : num) :
  generate_xml env1 m1 st = (Return (fn1, tot1), st1) ->
  generate_xml env2 m2 st1 = (Return (fn2, tot2), st2) ->
  now_year env2 = now_year env1 ->
  has_tyres (m_po m2) = has_tyres (m_po m1) ->
  fatture_generate (data st2)
  = fatture_generate (data st)
    ++ [fattura_of env1 m1 (data st); fattura_of env2 m2 (data st1)]
  /\ numero_fattura (fattura_of env2 m2 (data st1))
     = numero_fattura (fattura_of env1 m1 (data st)) + 1.
Proof.
  intros H1 H2 Y B.
  apply generate_xml_return in H1. destruct H1 as (_ & _ & _ & _ & _ & E1).
  apply generate_xml_return in H2. destruct H2 as (_ & _ & _ & _ & _ & E2).
  split.
  { rewrite E2. cbn [data data_invoiced fatture_generate].
    rewrite E1 at 1. cbn [data data_invoiced fatture_generate].
    rewrite <- app_assoc. reflexivity. }
  cbn [numero_fattura fattura_of].
  destruct (numbering_spec env1 m1 (data st)) as (Y1 & T1 & F1).
  destruct (numbering_spec env2 m2 (data st1)) as (_ & T2 & F2).
  cbn zeta in T1, F1, T2, F2.
  assert (C : config (data st1) = config_after env1 m1 (data st))
    by (rewrite E1; reflexivity).
  rewrite C in T2, F2. rewrite Y1, <- Y, Z.eqb_refl in T2, F2.
  destruct (has_tyres (m_po m1)) eqn:B1.
  - destruct (T1 eq_refl) as (N1 & _ & G1 & _).
    destruct (T2 B) as (N2 & _). rewrite N2, G1, N1. reflexivity.
  - destruct (F1 eq_refl) as (N1 & _ & G1 & _).
    destruct (F2 B) as (N2 & _). rewrite N2, G1, N1. reflexivity.
Qed.

(** C2, amended. When [generate_xml] raises, the durable copy of the state is
    as before the call. If the failure is in the serialisation of the XML
    or in the write of the invoice file, no invoice record is added and the
    active estimates and purchase orders are unchanged, but the numbering
    kept in memory has already moved (year check applied, counter of the
    category advanced by one) and stays so. If the failure is in the final
    [save_data], memory holds every change of a successful call. *)
Theorem C2_failure_effects (env : Env) (m : Match) (st st' : Processor)
  (e : exn) :
  generate_xml env m st = (Raise e, st') ->
  saved st' = saved st
  /\ config (data st') = config_after env m (data st)
  /\ (has_tyres (m_po m) = true ->
        last_number_hg (config (data st'))
        = last_number_hg (rollover (now_year env) (config (data st))) + 1)
  /\ (has_tyres (m_po m) = false ->
        last_number_hm (config (data st'))
        = last_number_hm (rollover (now_year env) (config (data st))) + 1)
  /\ (xml_ok env = false \/ write_ok env = false ->
        preventivi (data st') = preventivi (data st)
        /\ purchase_orders (data st') = purchase_orders (data st)
        /\ fatture_generate (data st') = fatture_generate (data st))
  /\ (xml_ok env = true -> write_ok env = true ->
        save_ok env = false /\ data st' = data_invoiced env m (data st)).
Proof.
  rewrite generate_xml_cases. intros H.
  assert (C : config (data st') = config_after env m (data st)).
  { destruct (xml_ok env), (write_ok env), (save_ok env);
      inversion H; subst; reflexivity. }
  split.
  { destruct (xml_ok env), (write_ok env), (save_ok env);
      inversion H; subst; reflexivity. }
  split; [exact C|].
  split.
  { intros B. rewrite C. unfold config_after, numbering, next_number.
    rewrite B. reflexivity. }
  split.
  { intros B. rewrite C. unfold config_after, numbering, next_number.
    rewrite B. reflexivity. }
  split.
  - intros [X|W].
    + rewrite X in H. inversion H; subst. auto.
    + rewrite W in H. destruct (xml_ok env); inversion H; subst; auto.
  - intros X W. rewrite X, W in H.
    destruct (save_ok env); [discriminate|]. inversion H; subst. auto.
Qed.

Lemma canonical_head (c : char) (d : str) :
  is_canonical_date (c :: d) = true -> is_digit c = true.
Proof.
  unfold is_canonical_date.
  do 9 (destruct d as [|? d]; [discriminate|]). destruct d; [|discriminate].
  cbn [forallb]. rewrite !andb_true_iff. tauto.
Qed.

Lemma digit_is_not (c : char) (x : N) :
  is_digit c = true -> (x < 48 \/ 57 < x)%N -> chr_eqb c x = false.
Proof.
  unfold is_digit, chr_eqb. rewrite andb_true_iff, !N.leb_le.
  intros [A B] C. apply N.eqb_neq. lia.
Qed.

(** C5, as the code has it. The file name of an invoice is
    [Fatt_<number on 3 digits>_PO_<po_number>_<plate>.xml], the plate being
    that of the estimate, else that of the purchase order, else [NOTARGA];
    the date of the purchase order, from which lines 480-486 derive a prefix
    [YYYYMMDD_], is not part of it: the name never starts with that prefix. *)
Theorem C5_filename (env : Env) (m : Match) (st st' : Processor)
  (fn : str) (tot : num) :
  generate_xml env m st = (Return (fn, tot), st') ->
  fn = lit "Fatt_" ++ zfill 3 (str_of_Z (number_issued env m (data st)))
       ++ lit "_PO_" ++ fmt_opt (po_number (m_po m)) ++ lit "_"
       ++ plate_of (m_preventivo m) (m_po m) ++ lit ".xml"
  /\ (truthy (prev_targa (m_preventivo m)) = false ->
      truthy (po_targa (m_po m)) = false ->
      plate_of (m_preventivo m) (m_po m) = lit "NOTARGA")
  /\ (forall d, po_date (m_po m) = Some d -> is_canonical_date d = true ->
      date_prefix_of (m_po m) = replace_chr 45%N [] d ++ lit "_"
      /\ starts_with (date_prefix_of (m_po m)) fn = false).
Proof.
  intros H. apply generate_xml_return in H.
  destruct H as (_ & _ & _ & -> & _ & _).
  split; [reflexivity|].
  split.
  { intros A B. unfold plate_of, py_or, or_default. rewrite A, B. reflexivity. }
  intros d E Hd. unfold date_prefix_of. rewrite E.
  destruct d as [|c d]; [discriminate|]. cbn [truthy cell_text].
  split; [reflexivity|].
  apply canonical_head in Hd.
  cbn [fattura_of f_filename]. unfold invoice_filename.
  change (lit "Fatt_") with (70%N :: lit "att_").
  cbn [replace_chr flat_map].
  rewrite (@digit_is_not c 45%N Hd) by lia.
  cbn [app starts_with]. rewrite (@digit_is_not c 70%N Hd) by lia. reflexivity.
Qed.

End GeneratorClaims.


Section GeneratorFrame.
Context {R : PyRuntime}.

(** C9, amended. A successful [generate_xml] removes every active estimate
    with the case id of the matched estimate and every active purchase order
    with the PO number of the matched purchase order, keeps all the others in
    their order, and appends one record to the invoices, the earlier ones
    untouched. When the stored year is the current year, the year and the
    counter of the other category are unchanged and the counter of the
    category grows by one; when it is not, the year becomes the current
    year, the counter of the other category becomes zero and the counter of
    the category becomes 1. *)
Theorem C9_frame (env : Env) (m : Match) (st st' : Processor)
  (fn : str) (tot : num) :
  generate_xml env m st = (Return (fn, tot), st') ->
  let prev := m_preventivo m in
  let po := m_po m in
  let c := config (data st) in
  let c' := config (data st') in
  (forall p, In p (preventivi (data st')) <->
             In p (preventivi (data st))
             /\ prev_pratica_hertz p <> prev_pratica_hertz prev)
  /\ preventivi (data st') =
     filter (fun p => negb (opt_eqb (prev_pratica_hertz p) (prev_pratica_hertz prev)))
            (preventivi (data st))
  /\ (forall p, In p (purchase_orders (data st')) <->
                In p (purchase_orders (data st)) /\ po_number p <> po_number po)
  /\ purchase_orders (data st') =
     filter (fun p => negb (opt_eqb (po_number p) (po_number po)))
            (purchase_orders (data st))
  /\ (exists f, fatture_generate (data st') = fatture_generate (data st) ++ [f])
  /\ saved st' = data st'
  /\ (cfg_year c = now_year env ->
        cfg_year c' = cfg_year c
        /\ (has_tyres po = true ->
              last_number_hg c' = last_number_hg c + 1
              /\ last_number_hm c' = last_number_hm c)
        /\ (has_tyres po = false ->
              last_number_hm c' = last_number_hm c + 1
              /\ last_number_hg c' = last_number_hg c))
  /\ (cfg_year c <> now_year env ->
        cfg_year c' = now_year env
        /\ (has_tyres po = true -> last_number_hg c' = 1 /\ last_number_hm c' = 0)
        /\ (has_tyres po = false -> last_number_hm c' = 1 /\ last_number_hg c' = 0)).
Proof.
  intros H prev po c c'.
  apply generate_xml_return in H. destruct H as (_ & _ & _ & _ & _ & E).
  assert (Ec : c' = config_after env m (data st)) by (unfold c'; rewrite E; reflexivity).
  rewrite E. cbn [data saved data_invoiced preventivi purchase_orders fatture_generate].
  split.
  { intros p. rewrite filter_In, negb_true_iff, opt_eqb_neq. reflexivity. }
  split; [reflexivity|].
  split.
  { intros p. rewrite filter_In, negb_true_iff, opt_eqb_neq. reflexivity. }
  split; [reflexivity|].
  split; [eexists; reflexivity|].
  split; [reflexivity|].
  destruct (numbering_spec env m (data st)) as (Y & T & F).
  cbn zeta in T, F. fold c in T, F. rewrite <- Ec in Y, T, F.
  split.
  - intros Hy. assert (B : (cfg_year c =? now_year env)%Z = true)
      by (apply Z.eqb_eq; exact Hy).
    rewrite B in T, F. split; [congruence|]. split.
    + intros Ht. destruct (T Ht) as (_ & _ & ? & ?). auto.
    + intros Ht. destruct (F Ht) as (_ & _ & ? & ?). auto.
  - intros Hy. assert (B : (cfg_year c =? now_year env)%Z = false)
      by (apply Z.eqb_neq; exact Hy).
    rewrite B in T, F. split; [exact Y|]. split.
    + intros Ht. destruct (T Ht) as (_ & _ & ? & ?). auto.
    + intros Ht. destruct (F Ht) as (_ & _ & ? & ?). auto.
Qed.

End GeneratorFrame.

(* ------------------------------------------------------------------ *)
(** ** Runs of the generator *)
(* ------------------------------------------------------------------ *)

Lemma run_write_fails :
  generate_xml Run.env_write_fails Run.the_match Run.st0
  = (Raise OSError,
     mkProcessor (mkData [Run.est_1001] [Run.po_1001] [] (mkConfig 0 1 2025))
                 Run.d0).
Proof. rewrite generate_xml_cases. reflexivity. Qed.

Lemma run_next_year :
  generate_xml Run.env_next_year Run.the_match Run.st_counters
  = (Return (lit "Fatt_001_PO_4500012345_AB123CD.xml", num_int 0),
     mkProcessor (data_invoiced Run.env_next_year Run.the_match Run.d_counters)
                 (data_invoiced Run.env_next_year Run.the_match Run.d_counters)).
Proof. rewrite generate_xml_cases. reflexivity. Qed.

(** A run of C1: nothing fails, the purchase order has no tyres, the
    counters are at zero in the current year; the invoice recorded gets
    number 1 and tag HM. *)
Lemma C1_invoice_number_witness :
  exists fn tot st' f,
    generate_xml Run.env_ok Run.the_match Run.st0 = (Return (fn, tot), st')
    /\ fatture_generate (data st') = [] ++ [f]
    /\ numero_fattura f = 0 + 1 /\ tipo f = HM.
Proof.
  destruct (proj1 (@C1_invoice_number Exact.runtime Run.env_ok Run.the_match Run.st0)
              eq_refl eq_refl eq_refl) as (fn & tot & st' & H).
  destruct (proj2 (@C1_invoice_number Exact.runtime Run.env_ok Run.the_match Run.st0)
              fn tot st' H) as (f & E & _ & _ & F & _).
  exists fn, tot, st', f. split; [exact H|]. split; [exact E|].
  destruct (F eq_refl) as (N & T & _). split; [exact N | exact T].
Defined.

(** C2 as stated fails: the write of the invoice file fails, and the counter
    of the category has moved from 0 to 1 all the same. *)
Lemma C2_counterexample :
  exists e st',
    generate_xml Run.env_write_fails Run.the_match Run.st0 = (Raise e, st')
    /\ last_number_hm (config (data Run.st0)) = 0
    /\ last_number_hm (config (data st')) = 1
    /\ data st' <> data Run.st0.
Proof.
  do 2 eexists. split; [exact run_write_fails|].
  split; [reflexivity|]. split; [reflexivity|].
  cbn [data]. intros H. apply (f_equal (fun d => last_number_hm (@config Exact.runtime d))) in H.
  discriminate H.
Qed.

(** After that failure a second, successful attempt issues number 2: number 1
    is never issued. *)
Lemma failed_generation_skips_a_number :
  exists st1 fn tot st2 f,
    generate_xml Run.env_write_fails Run.the_match Run.st0 = (Raise OSError, st1)
    /\ generate_xml Run.env_ok Run.the_match st1 = (Return (fn, tot), st2)
    /\ fatture_generate (data st2) = [f]
    /\ numero_fattura f = 2.
Proof.
  do 5 eexists. split; [exact run_write_fails|].
  split; [rewrite generate_xml_cases; reflexivity|].
  split; reflexivity.
Qed.

(** When it is [save_data] that fails, memory holds the invoice and has lost
    its sources; the saved copy knows nothing of it. *)
Lemma save_failure_keeps_memory_changes :
  exists st' f,
    generate_xml Run.env_save_fails Run.the_match Run.st0 = (Raise OSError, st')
    /\ fatture_generate (data st') = [f] /\ numero_fattura f = 1
    /\ preventivi (data st') = [] /\ purchase_orders (data st') = []
    /\ saved st' = Run.d0.
Proof.
  do 2 eexists. split; [rewrite generate_xml_cases; reflexivity|].
  repeat split.
Qed.

(** A run of C2 (amended) on the failed write: records and durable copy as
    before, counter of the category advanced. *)
Lemma C2_failure_effects_witness :
  generate_xml Run.env_write_fails Run.the_match Run.st0
  = (Raise OSError,
     mkProcessor (mkData [Run.est_1001] [Run.po_1001] [] (mkConfig 0 1 2025))
                 Run.d0)
  /\ saved (mkProcessor (mkData [Run.est_1001] [Run.po_1001] [] (mkConfig 0 1 2025))
                        Run.d0) = saved Run.st0
  /\ last_number_hm (mkConfig 0 1 2025) = 0 + 1.
Proof.
  assert (H : generate_xml Run.env_write_fails Run.the_match Run.st0
              = (Raise OSError,
                 mkProcessor (mkData [Run.est_1001] [Run.po_1001] []
                                     (mkConfig 0 1 2025)) Run.d0))
    by reflexivity.
  split; [exact H|].
  destruct (@C2_failure_effects Exact.runtime _ _ _ _ _ H) as (S & _ & _ & F & _).
  split; [exact S | exact (F eq_refl)].
Defined.

(** A run of C5: the purchase order is dated 2024-12-25, the prefix computed
    is ["20241225_"], and the file is named without it. *)
Lemma C5_filename_witness :
  generate_xml Run.env_ok Run.the_match Run.st0
  = (Return (lit "Fatt_001_PO_4500012345_AB123CD.xml", num_int 0),
     mkProcessor (data_invoiced Run.env_ok Run.the_match Run.d0)
                 (data_invoiced Run.env_ok Run.the_match Run.d0))
  /\ po_date (m_po Run.the_match) = Some (lit "2024-12-25")
  /\ date_prefix_of (m_po Run.the_match) = lit "20241225_"
  /\ starts_with (lit "20241225_") (lit "Fatt_001_PO_4500012345_AB123CD.xml")
     = false.
Proof.
  assert (H : generate_xml Run.env_ok Run.the_match Run.st0
              = (Return (lit "Fatt_001_PO_4500012345_AB123CD.xml", num_int 0),
                 mkProcessor (data_invoiced Run.env_ok Run.the_match Run.d0)
                             (data_invoiced Run.env_ok Run.the_match Run.d0)))
    by reflexivity.
  split; [exact H|].
  destruct (@C5_filename Exact.runtime _ _ _ _ _ _ H) as (_ & _ & D).
  destruct (D (lit "2024-12-25") eq_refl eq_refl) as (P & S).
  split; [reflexivity|]. split; [exact P | exact S].
Defined.

(** C9 as stated fails: on the first call of 2026 the stored year changes
    and the counter of the category that is not used goes from 7 to 0. *)
Lemma C9_counterexample :
  exists fn tot st',
    generate_xml Run.env_next_year Run.the_match Run.st_counters
    = (Return (fn, tot), st')
    /\ has_tyres (m_po Run.the_match) = false
    /\ cfg_year (config (data Run.st_counters)) = 2025
    /\ cfg_year (config (data st')) = 2026
    /\ last_number_hg (config (data Run.st_counters)) = 7
    /\ last_number_hg (config (data st')) = 0.
Proof.
  do 3 eexists. split; [exact run_next_year|].
  repeat split.
Qed.

(** A run of C9 (amended) within the year: the year is kept, the matched
    estimate is gone. *)
Lemma C9_frame_witness :
  generate_xml Run.env_ok Run.the_match Run.st0
  = (Return (lit "Fatt_001_PO_4500012345_AB123CD.xml", num_int 0),
     mkProcessor (data_invoiced Run.env_ok Run.the_match Run.d0)
                 (data_invoiced Run.env_ok Run.the_match Run.d0))
  /\ cfg_year (config (data_invoiced Run.env_ok Run.the_match Run.d0))
     = cfg_year (config Run.d0)
  /\ ~ In Run.est_1001 (preventivi (data_invoiced Run.env_ok Run.the_match Run.d0)).
Proof.
  assert (H : generate_xml Run.env_ok Run.the_match Run.st0
              = (Return (lit "Fatt_001_PO_4500012345_AB123CD.xml", num_int 0),
                 mkProcessor (data_invoiced Run.env_ok Run.the_match Run.d0)
                             (data_invoiced Run.env_ok Run.the_match Run.d0)))
    by reflexivity.
  split; [exact H|].
  destruct (@C9_frame Exact.runtime _ _ _ _ _ _ H)
    as (P & _ & _ & _ & _ & _ & Y & _).
  split; [exact (proj1 (Y eq_refl))|].
  intros I. apply P in I. destruct I as [_ I]. apply I. reflexivity.
Defined.


(* ================================================================== *)
(** * Properties of the ingestion gate *)
(* ================================================================== *)

Section Counting.
Variables (A : Type) (key : A -> option str).

Lemma count_key_cons (k : option str) (p : A) (l : list A) :
  count_key key k (p :: l)
  = ((if opt_eqb (key p) k then 1 else 0) + count_key key k l)%nat.
Proof. unfold count_key. simpl. destruct (opt_eqb (key p) k); reflexivity. Qed.

Lemma count_key_app (k : option str) (l1 l2 : list A) :
  count_key key k (l1 ++ l2) = (count_key key k l1 + count_key key k l2)%nat.
Proof. unfold count_key. rewrite filter_app, length_app. reflexivity. Qed.

Lemma count_key_absent (k : option str) (l : list A) :
  ~ In k (map key l) -> count_key key k l = 0%nat.
Proof.
  induction l as [|p l IH]; [reflexivity|].
  rewrite count_key_cons. simpl. intros H.
  destruct (opt_eqb (key p) k) eqn:E.
  - apply opt_eqb_eq in E. tauto.
  - apply IH. tauto.
Qed.

Lemma count_key_NoDup (k : option str) (l : list A) :
  NoDup (map key l) -> In k (map key l) -> count_key key k l = 1%nat.
Proof.
  induction l as [|p l IH]; simpl; [tauto|].
  intros N H. inversion N as [|? ? Hn N']; subst.
  rewrite count_key_cons.
  destruct (opt_eqb (key p) k) eqn:E.
  - apply opt_eqb_eq in E. subst k. rewrite count_key_absent by assumption.
    reflexivity.
  - apply opt_eqb_neq in E. rewrite IH; [reflexivity | assumption | tauto].
Qed.

Lemma count_key_filter_le (k : option str) (f : A -> bool) (l : list A) :
  (count_key key k (filter f l) <= count_key key k l)%nat.
Proof.
  induction l as [|p l IH]; simpl; [lia|].
  destruct (f p); rewrite !count_key_cons; lia.
Qed.

Lemma NoDup_snoc (l : list (option str)) (x : option str) :
  NoDup l -> ~ In x l -> NoDup (l ++ [x]).
Proof.
  induction l as [|y l IH]; simpl; intros N H.
  - constructor; [tauto | constructor].
  - inversion N; subst. constructor.
    + rewrite in_app_iff. simpl. intros [?|[?|[]]]; [tauto | subst; tauto].
    + apply IH; tauto.
Qed.

End Counting.

Section GateProperties.
Context {R : PyRuntime}.

(** The case id of a parsed estimate and the number of a parsed purchase
    order depend on the text alone. *)
Lemma parse_preventivo_key (env : Env) (text filename : str) (tables : list table) :
  prev_pratica_hertz (parse_preventivo env text filename tables)
  = Re.re_search re_pratica_hertz text.
Proof. reflexivity. Qed.

Lemma parse_purchase_order_key (env : Env) (text filename : str)
  (doc : PurchaseOrder) :
  parse_purchase_order env text filename = Ok doc ->
  po_number doc = Re.re_search re_po_number text.
Proof.
  unfold parse_purchase_order.
  destruct (Re.re_search re_total text) as [g|].
  - destruct (py_float g); [|discriminate]. intros H; inversion H; reflexivity.
  - intros H; inversion H; reflexivity.
Qed.

Lemma parse_purchase_order_env (env env2 : Env) (text filename filename2 : str) :
  match parse_purchase_order env text filename,
        parse_purchase_order env2 text filename2 with
  | Ok a, Ok b => po_number a = po_number b
  | Failed e, Failed e2 => e = e2
  | _, _ => False
  end.
Proof.
  unfold parse_purchase_order.
  destruct (Re.re_search re_total text) as [g|]; [|reflexivity].
  destruct (py_float g); reflexivity.
Qed.

(** The ways a call of [process_pdf] ends on an estimate. *)
Lemma process_pdf_preventivo (env : Env) (pdf : Pdf) (filename : str)
  (st : Processor) :
  detect_type (pdf_text pdf) = Some TPreventivo ->
  let doc := parse_preventivo env (pdf_text pdf) filename (pdf_tables pdf) in
  let d' := with_preventivi (data st) (preventivi (data st) ++ [doc]) in
  process_pdf env pdf filename st =
  if py_in (prev_pratica_hertz doc) (invoiced_cases (data st))
  then (Return (Some (DocPreventivo (mark_prev doc), St_preventivo_fatturato)), st)
  else if py_in (prev_pratica_hertz doc) (prev_keys (data st))
  then (Return (Some (DocPreventivo doc, St_preventivo)), st)
  else if save_ok env
  then (Return (Some (DocPreventivo doc, St_preventivo)), mkProcessor d' d')
  else (Raise OSError, mkProcessor d' (saved st)).
Proof.
  intros D doc d'. unfold process_pdf. rewrite D. fold doc.
  unfold mbind, get_data, invoiced_cases, prev_keys.
  destruct (py_in (prev_pratica_hertz doc) (map f_pratica_hertz _)); [reflexivity|].
  destruct (py_in (prev_pratica_hertz doc) (map prev_pratica_hertz _));
    cbn [negb]; [reflexivity|].
  unfold set_data, save_data, mret. cbn [data saved].
  destruct (save_ok env); reflexivity.
Qed.

(** The ways it ends on a purchase order. *)
Lemma process_pdf_purchase_order (env : Env) (pdf : Pdf) (filename : str)
  (st : Processor) :
  detect_type (pdf_text pdf) = Some TPurchaseOrder ->
  process_pdf env pdf filename st =
  match parse_purchase_order env (pdf_text pdf) filename with
  | Failed e => (Raise e, st)
  | Ok doc =>
      let d' := with_purchase_orders (data st) (purchase_orders (data st) ++ [doc]) in
      if py_in (po_number doc) (invoiced_pos (data st))
      then (Return (Some (DocPurchaseOrder (mark_po doc),
                          St_purchase_order_fatturato)), st)
      else if py_in (po_number doc) (po_keys (data st))
      then (Return (Some (DocPurchaseOrder doc, St_purchase_order)), st)
      else if save_ok env
      then (Return (Some (DocPurchaseOrder doc, St_purchase_order)),
            mkProcessor d' d')
      else (Raise OSError, mkProcessor d' (saved st))
  end.
Proof.
  intros D. unfold process_pdf. rewrite D.
  destruct (parse_purchase_order env (pdf_text pdf) filename) as [doc|e];
    [|reflexivity].
  unfold mbind, get_data, invoiced_pos, po_keys.
  destruct (py_in (po_number doc) (map f_po_number _)); [reflexivity|].
  destruct (py_in (po_number doc) (map po_number _)); cbn [negb]; [reflexivity|].
  unfold set_data, save_data, mret. cbn [data saved].
  destruct (save_ok env); reflexivity.
Qed.

Lemma process_pdf_unknown (env : Env) (pdf : Pdf) (filename : str)
  (st : Processor) :
  detect_type (pdf_text pdf) = None ->
  process_pdf env pdf filename st = (Return None, st).
Proof. intros D. unfold process_pdf. rewrite D. reflexivity. Qed.

Lemma process_pdf_step (env : Env) (pdf : Pdf) (filename : str) (st : Processor) :
  gate_step env pdf filename st (snd (process_pdf env pdf filename st)).
Proof.
  destruct (detect_type (pdf_text pdf)) as [[|]|] eqn:D.
  - rewrite (process_pdf_preventivo env pdf filename st D). cbn zeta.
    destruct (py_in _ (invoiced_cases (data st))) eqn:I; [apply gate_same; reflexivity|].
    destruct (py_in _ (prev_keys (data st))) eqn:K; [apply gate_same; reflexivity|].
    apply py_in_not_In in I, K.
    eapply gate_prev; try eassumption; try reflexivity.
    destruct (save_ok env); reflexivity.
  - rewrite (process_pdf_purchase_order env pdf filename st D).
    destruct (parse_purchase_order env (pdf_text pdf) filename) as [doc|e] eqn:P;
      [|apply gate_same; reflexivity]. cbn zeta.
    destruct (py_in _ (invoiced_pos (data st))) eqn:I; [apply gate_same; reflexivity|].
    destruct (py_in _ (po_keys (data st))) eqn:K; [apply gate_same; reflexivity|].
    apply py_in_not_In in I, K.
    eapply gate_po; try eassumption; try reflexivity.
    destruct (save_ok env); reflexivity.
  - rewrite (process_pdf_unknown env pdf filename st D). apply gate_same; reflexivity.
Qed.

End GateProperties.


Section GateClaims.
Context {R : PyRuntime}.

Lemma prev_keys_append (d : Data) (doc : Preventivo) :
  prev_keys (with_preventivi d (preventivi d ++ [doc]))
  = prev_keys d ++ [prev_pratica_hertz doc].
Proof. unfold prev_keys. cbn [with_preventivi preventivi]. apply map_app. Qed.

Lemma po_keys_append (d : Data) (doc : PurchaseOrder) :
  po_keys (with_purchase_orders d (purchase_orders d ++ [doc]))
  = po_keys d ++ [po_number doc].
Proof. unfold po_keys. cbn [with_purchase_orders purchase_orders]. apply map_app. Qed.

Lemma count_prev_append (k : option str) (d : Data) (doc : Preventivo) :
  count_prev k (with_preventivi d (preventivi d ++ [doc]))
  = (count_prev k d + if opt_eqb (prev_pratica_hertz doc) k then 1 else 0)%nat.
Proof.
  unfold count_prev. cbn [with_preventivi preventivi].
  rewrite count_key_app, count_key_cons.
  change (count_key prev_pratica_hertz k []) with 0%nat.
  destruct (opt_eqb (prev_pratica_hertz doc) k); lia.
Qed.

Lemma count_po_append (k : option str) (d : Data) (doc : PurchaseOrder) :
  count_po k (with_purchase_orders d (purchase_orders d ++ [doc]))
  = (count_po k d + if opt_eqb (po_number doc) k then 1 else 0)%nat.
Proof.
  unfold count_po. cbn [with_purchase_orders purchase_orders].
  rewrite count_key_app, count_key_cons.
  change (count_key po_number k []) with 0%nat.
  destruct (opt_eqb (po_number doc) k); lia.
Qed.

(** What every step of the gate keeps. *)
Lemma gate_step_keeps (env : Env) (pdf : Pdf) (filename : str)
  (st st' : Processor) :
  gate_step env pdf filename st st' ->
  (NoDup (prev_keys (data st)) -> NoDup (prev_keys (data st')))
  /\ (NoDup (po_keys (data st)) -> NoDup (po_keys (data st')))
  /\ fatture_generate (data st') = fatture_generate (data st)
  /\ config (data st') = config (data st)
  /\ (forall k, In k (invoiced_cases (data st)) ->
                count_prev k (data st') = count_prev k (data st))
  /\ (forall k, In k (invoiced_pos (data st)) ->
                count_po k (data st') = count_po k (data st))
  /\ (forall k, (count_prev k (data st') <= Nat.max 1 (count_prev k (data st)))%nat)
  /\ (forall k, (count_po k (data st') <= Nat.max 1 (count_po k (data st)))%nat).
Proof.
  intros [->|D doc Hd I K E|D doc Hd I K E].
  - repeat split; auto; intros; lia.
  - rewrite E. repeat split; auto.
    + rewrite prev_keys_append. intros N. apply NoDup_snoc; assumption.
    + intros k Hk. rewrite count_prev_append.
      destruct (opt_eqb (prev_pratica_hertz doc) k) eqn:Q; [|lia].
      apply opt_eqb_eq in Q. subst k. contradiction.
    + intros k. rewrite count_prev_append.
      destruct (opt_eqb (prev_pratica_hertz doc) k) eqn:Q; [|lia].
      apply opt_eqb_eq in Q. subst k.
      unfold count_prev. rewrite count_key_absent by exact K. lia.
    + intros k. unfold count_po, with_preventivi. cbn [purchase_orders]. lia.
  - rewrite E. repeat split; auto.
    + rewrite po_keys_append. intros N. apply NoDup_snoc; assumption.
    + intros k Hk. rewrite count_po_append.
      destruct (opt_eqb (po_number doc) k) eqn:Q; [|lia].
      apply opt_eqb_eq in Q. subst k. contradiction.
    + intros k. unfold count_prev, with_purchase_orders. cbn [preventivi]. lia.
    + intros k. rewrite count_po_append.
      destruct (opt_eqb (po_number doc) k) eqn:Q; [|lia].
      apply opt_eqb_eq in Q. subst k.
      unfold count_po. rewrite count_key_absent by exact K. lia.
Qed.

(** A second ingestion of the same file changes nothing. *)
Lemma process_pdf_twice (env env2 : Env) (pdf : Pdf) (filename filename2 : str)
  (st : Processor) :
  snd (process_pdf env2 pdf filename2 (snd (process_pdf env pdf filename st)))
  = snd (process_pdf env pdf filename st).
Proof.
  destruct (detect_type (pdf_text pdf)) as [[|]|] eqn:D.
  - rewrite (process_pdf_preventivo env pdf filename st D). cbn zeta.
    rewrite !parse_preventivo_key.
    set (k := Re.re_search re_pratica_hertz (pdf_text pdf)).
    set (doc := parse_preventivo env (pdf_text pdf) filename (pdf_tables pdf)).
    assert (Kd : prev_pratica_hertz doc = k) by reflexivity.
    destruct (py_in k (invoiced_cases (data st))) eqn:I.
    { cbn [snd]. rewrite (process_pdf_preventivo env2 pdf filename2 st D).
      cbn zeta. rewrite !parse_preventivo_key. fold k. rewrite I. reflexivity. }
    destruct (py_in k (prev_keys (data st))) eqn:K.
    { cbn [snd]. rewrite (process_pdf_preventivo env2 pdf filename2 st D).
      cbn zeta. rewrite !parse_preventivo_key. fold k. rewrite I, K. reflexivity. }
    assert (second : forall sv,
      snd (process_pdf env2 pdf filename2
             (mkProcessor (with_preventivi (data st) (preventivi (data st) ++ [doc])) sv))
      = mkProcessor (with_preventivi (data st) (preventivi (data st) ++ [doc])) sv).
    { intros sv. rewrite (process_pdf_preventivo env2 pdf filename2 _ D).
      cbn zeta. cbn [data]. rewrite !parse_preventivo_key. fold k.
      rewrite prev_keys_append, Kd.
      unfold invoiced_cases at 1. cbn [with_preventivi fatture_generate].
      fold (invoiced_cases (data st)). rewrite I.
      assert (A : py_in k (prev_keys (data st) ++ [k]) = true).
      { apply py_in_In. rewrite in_app_iff. right. left. reflexivity. }
      rewrite A. reflexivity. }
    destruct (save_ok env); cbn [snd]; apply second.
  - rewrite (process_pdf_purchase_order env pdf filename st D).
    pose proof (parse_purchase_order_env env env2 (pdf_text pdf) filename filename2) as Q.
    destruct (parse_purchase_order env (pdf_text pdf) filename) as [doc|e] eqn:P1;
      destruct (parse_purchase_order env2 (pdf_text pdf) filename2) as [doc2|e2] eqn:P2;
      try contradiction.
    + cbn zeta.
      destruct (py_in (po_number doc) (invoiced_pos (data st))) eqn:I.
      { cbn [snd]. rewrite (process_pdf_purchase_order env2 pdf filename2 st D), P2.
        cbn zeta. rewrite <- Q, I. reflexivity. }
      destruct (py_in (po_number doc) (po_keys (data st))) eqn:K.
      { cbn [snd]. rewrite (process_pdf_purchase_order env2 pdf filename2 st D), P2.
        cbn zeta. rewrite <- Q, I, K. reflexivity. }
      assert (second : forall sv,
        snd (process_pdf env2 pdf filename2
               (mkProcessor (with_purchase_orders (data st)
                               (purchase_orders (data st) ++ [doc])) sv))
        = mkProcessor (with_purchase_orders (data st)
                         (purchase_orders (data st) ++ [doc])) sv).
      { intros sv. rewrite (process_pdf_purchase_order env2 pdf filename2 _ D), P2.
        cbn zeta. cbn [data]. rewrite <- Q.
        rewrite po_keys_append.
        unfold invoiced_pos at 1. cbn [with_purchase_orders fatture_generate].
        fold (invoiced_pos (data st)). rewrite I.
        assert (A : py_in (po_number doc) (po_keys (data st) ++ [po_number doc]) = true).
        { apply py_in_In. rewrite in_app_iff. right. left. reflexivity. }
        rewrite A. reflexivity. }
      destruct (save_ok env); cbn [snd]; apply second.
    + cbn [snd]. rewrite (process_pdf_purchase_order env2 pdf filename2 st D), P2.
      reflexivity.
  - rewrite (process_pdf_unknown env pdf filename st D). cbn [snd].
    rewrite (process_pdf_unknown env2 pdf filename2 st D). reflexivity.
Qed.

End GateClaims.


Section IngestClaims.
Context {R : PyRuntime}.

(** C3. [process_pdf] keeps the active estimates free of two records with
    the same case id and the active purchase orders free of two records with
    the same PO number, and never touches the invoices. A document whose key
    is among the invoices is reported as already invoiced and the state is
    left as it is; the number of active records with an invoiced key never
    changes. A document whose key is active (and not invoiced) is reported
    with the plain status, the state is left as it is, and exactly one
    active record carries that key. Ingesting the same file again changes
    nothing. *)
Theorem C3_ingest_gate (env : Env) (pdf : Pdf) (filename : str) (st : Processor) :
  let text := pdf_text pdf in
  let r := process_pdf env pdf filename st in
  let st' := snd r in
  (NoDup (prev_keys (data st)) -> NoDup (prev_keys (data st')))
  /\ (NoDup (po_keys (data st)) -> NoDup (po_keys (data st')))
  /\ fatture_generate (data st') = fatture_generate (data st)
  /\ (forall k, In k (invoiced_cases (data st)) ->
                count_prev k (data st') = count_prev k (data st))
  /\ (forall k, In k (invoiced_pos (data st)) ->
                count_po k (data st') = count_po k (data st))
  /\ (detect_type text = Some TPreventivo ->
      let doc := parse_preventivo env text filename (pdf_tables pdf) in
      (In (prev_pratica_hertz doc) (invoiced_cases (data st)) ->
       r = (Return (Some (DocPreventivo (mark_prev doc), St_preventivo_fatturato)),
            st))
      /\ (~ In (prev_pratica_hertz doc) (invoiced_cases (data st)) ->
          In (prev_pratica_hertz doc) (prev_keys (data st)) ->
          r = (Return (Some (DocPreventivo doc, St_preventivo)), st)
          /\ (NoDup (prev_keys (data st)) ->
              count_prev (prev_pratica_hertz doc) (data st') = 1%nat)))
  /\ (detect_type text = Some TPurchaseOrder ->
      forall doc, parse_purchase_order env text filename = Ok doc ->
      (In (po_number doc) (invoiced_pos (data st)) ->
       r = (Return (Some (DocPurchaseOrder (mark_po doc),
                          St_purchase_order_fatturato)), st))
      /\ (~ In (po_number doc) (invoiced_pos (data st)) ->
          In (po_number doc) (po_keys (data st)) ->
          r = (Return (Some (DocPurchaseOrder doc, St_purchase_order)), st)
          /\ (NoDup (po_keys (data st)) ->
              count_po (po_number doc) (data st') = 1%nat)))
  /\ (forall env2 filename2, snd (process_pdf env2 pdf filename2 st') = st').
Proof.
  intros text r st'. subst text.
  destruct (gate_step_keeps (process_pdf_step env pdf filename st))
    as (N1 & N2 & F & _ & C1 & C2 & _ & _).
  fold r in N1, N2, F, C1, C2. fold st' in N1, N2, F, C1, C2.
  split; [exact N1|]. split; [exact N2|]. split; [exact F|].
  split; [exact C1|]. split; [exact C2|].
  split; [|split].
  - intros D doc. unfold st', r.
    rewrite (process_pdf_preventivo env pdf filename st D). cbn zeta. fold doc.
    split.
    + intros H. apply py_in_In in H. rewrite H. reflexivity.
    + intros H1 H2. apply py_in_not_In in H1. pose proof H2 as H2'.
      apply py_in_In in H2. rewrite H1, H2.
      split; [reflexivity|]. intros N. cbn [snd].
      apply count_key_NoDup; assumption.
  - intros D doc P. unfold st', r.
    rewrite (process_pdf_purchase_order env pdf filename st D). rewrite P.
    cbn zeta. split.
    + intros H. apply py_in_In in H. rewrite H. reflexivity.
    + intros H1 H2. apply py_in_not_In in H1. pose proof H2 as H2'.
      apply py_in_In in H2. rewrite H1, H2.
      split; [reflexivity|]. intros N. cbn [snd].
      apply count_key_NoDup; assumption.
  - intros env2 filename2. apply process_pdf_twice.
Qed.

Lemma generate_xml_counts (env : Env) (m : Match) (st : Processor) (k : option str) :
  (count_prev k (data (snd (generate_xml env m st))) <= count_prev k (data st))%nat
  /\ (count_po k (data (snd (generate_xml env m st))) <= count_po k (data st))%nat.
Proof.
  rewrite generate_xml_cases.
  destruct (xml_ok env), (write_ok env), (save_ok env); cbn [snd data];
    unfold count_prev, count_po, data_invoiced, data_numbered, with_config;
    cbn [preventivi purchase_orders];
    split; try apply count_key_filter_le; lia.
Qed.

(** C10. An unset key is a key like the others. When the text of an estimate
    yields no case id and an active estimate has none either, [process_pdf]
    leaves the state as it is; so it does for a purchase order without PO
    number when an active purchase order has none; and when an invoice
    record has an unset key, such a document is reported as already
    invoiced. No call of [process_pdf] and no call of [generate_xml] takes
    the number of active estimates without case id, or of active purchase
    orders without number, above one. *)
Theorem C10_unset_key (env : Env) (pdf : Pdf) (filename : str) (st : Processor) :
  let text := pdf_text pdf in
  let r := process_pdf env pdf filename st in
  (detect_type text = Some TPreventivo ->
   Re.re_search re_pratica_hertz text = None ->
   (In None (prev_keys (data st)) -> snd r = st)
   /\ (In None (invoiced_cases (data st)) ->
       exists doc, prev_pratica_hertz doc = None
         /\ r = (Return (Some (DocPreventivo doc, St_preventivo_fatturato)), st)))
  /\ (detect_type text = Some TPurchaseOrder ->
      Re.re_search re_po_number text = None ->
      (In None (po_keys (data st)) -> snd r = st)
      /\ (In None (invoiced_pos (data st)) ->
          forall doc, parse_purchase_order env text filename = Ok doc ->
          r = (Return (Some (DocPurchaseOrder (mark_po doc),
                             St_purchase_order_fatturato)), st)))
  /\ ((count_prev None (data st) <= 1)%nat ->
      (count_prev None (data (snd r)) <= 1)%nat)
  /\ ((count_po None (data st) <= 1)%nat ->
      (count_po None (data (snd r)) <= 1)%nat)
  /\ (forall env' m,
        ((count_prev None (data st) <= 1)%nat ->
         (count_prev None (data (snd (generate_xml env' m st))) <= 1)%nat)
        /\ ((count_po None (data st) <= 1)%nat ->
            (count_po None (data (snd (generate_xml env' m st))) <= 1)%nat)).
Proof.
  intros text r. subst text.
  split; [|split; [|split; [|split]]].
  - intros D K. unfold r.
    rewrite (process_pdf_preventivo env pdf filename st D). cbn zeta.
    rewrite !parse_preventivo_key. rewrite K. split.
    + intros H. apply py_in_In in H. rewrite H.
      destruct (py_in None (invoiced_cases (data st))); reflexivity.
    + intros H. apply py_in_In in H. rewrite H.
      eexists. split; [|reflexivity]. cbn [mark_prev prev_pratica_hertz].
      rewrite parse_preventivo_key. exact K.
  - intros D K. unfold r.
    rewrite (process_pdf_purchase_order env pdf filename st D).
    destruct (parse_purchase_order env (pdf_text pdf) filename) as [doc|e] eqn:P.
    + pose proof (parse_purchase_order_key _ _ _ P) as Kd. rewrite K in Kd.
      cbn zeta. rewrite Kd. split.
      * intros H. apply py_in_In in H. rewrite H.
        destruct (py_in None (invoiced_pos (data st))); reflexivity.
      * intros H doc' E. inversion E; subst doc'.
        apply py_in_In in H. rewrite H. reflexivity.
    + split; [reflexivity|]. intros _ doc' E. discriminate E.
  - intros H.
    destruct (gate_step_keeps (process_pdf_step env pdf filename st))
      as (_ & _ & _ & _ & _ & _ & C & _).
    specialize (C None). fold r in C. lia.
  - intros H.
    destruct (gate_step_keeps (process_pdf_step env pdf filename st))
      as (_ & _ & _ & _ & _ & _ & _ & C).
    specialize (C None). fold r in C. lia.
  - intros env' m. destruct (generate_xml_counts env' m st None) as [A B].
    split; intros H; lia.
Qed.

End IngestClaims.

(* ================================================================== *)
(** * Properties of the matcher *)
(* ================================================================== *)

Section MatcherClaims.
Context {R : PyRuntime}.

Lemma match_for_find (d : Data) (prev : Preventivo) (pos : list PurchaseOrder) :
  match_for d prev pos =
  match find (fun po => opt_eqb (prev_pratica_hertz prev) (po_pratica_hertz po)) pos with
  | Some po => if is_po_invoiced d (po_number po) then [] else [mkMatch prev po]
  | None => []
  end.
Proof.
  induction pos as [|po pos IH]; simpl; [reflexivity|].
  destruct (opt_eqb (prev_pratica_hertz prev) (po_pratica_hertz po)); [|exact IH].
  destruct (is_po_invoiced d (po_number po)); reflexivity.
Qed.

Lemma find_not_invoiced (d : Data) (prev : Preventivo) (pos : list PurchaseOrder) :
  (forall po, In po pos -> is_po_invoiced d (po_number po) = false) ->
  find (fun po => opt_eqb (prev_pratica_hertz prev) (po_pratica_hertz po)
                  && negb (is_po_invoiced d (po_number po))) pos
  = find (fun po => opt_eqb (prev_pratica_hertz prev) (po_pratica_hertz po)) pos.
Proof.
  induction pos as [|po pos IH]; simpl; [reflexivity|]. intros H.
  rewrite (H po) by auto. cbn [negb]. rewrite andb_true_r.
  destruct (opt_eqb _ _); [reflexivity|]. apply IH. auto.
Qed.

(** C4, amended. [get_stats] returns and leaves the state as it is. Each
    active estimate is paired with the first active purchase order that has
    its case id, and the pair is reported only if the number of that
    purchase order is not invoiced: when it is invoiced the estimate gets no
    pair, purchase orders further down the list are not tried. When no
    active purchase order is invoiced, this is the pairing of the
    specification. *)
Theorem C4_matches (st : Processor) :
  exists s,
    get_stats st = (Return s, st)
    /\ matches s =
       flat_map
         (fun prev =>
            match find (fun po => opt_eqb (prev_pratica_hertz prev)
                                          (po_pratica_hertz po))
                       (purchase_orders (data st)) with
            | Some po =>
                if is_po_invoiced (data st) (po_number po) then []
                else [mkMatch prev po]
            | None => []
            end)
         (preventivi (data st))
    /\ lavori_pronti s = List.length (matches s)
    /\ ((forall po, In po (purchase_orders (data st)) ->
                    is_po_invoiced (data st) (po_number po) = false) ->
        matches s = claimed_matches (data st)).
Proof.
  eexists. split; [reflexivity|]. cbn [matches lavori_pronti].
  split.
  { unfold compute_matches. apply flat_map_ext. intros prev. apply match_for_find. }
  split; [reflexivity|].
  intros H. unfold compute_matches, claimed_matches.
  apply flat_map_ext. intros prev. unfold claimed_match_for.
  rewrite match_for_find, (find_not_invoiced (data st) prev _ H).
  destruct (find _ _) as [po|] eqn:E; [|reflexivity].
  apply find_some in E. rewrite (H po) by tauto. reflexivity.
Qed.

End MatcherClaims.

(** C4 as stated fails: the first purchase order of case 1001 is invoiced,
    a second one of the same case is not, and the estimate of case 1001 is
    matched with neither. *)
Lemma C4_counterexample :
  exists s,
    get_stats Run.st_two_pos = (Return s, Run.st_two_pos)
    /\ is_po_invoiced Run.d_two_pos (po_number Run.po_old) = true
    /\ is_po_invoiced Run.d_two_pos (po_number Run.po_new) = false
    /\ claimed_matches Run.d_two_pos = [mkMatch Run.est_1001 Run.po_new]
    /\ matches s = [].
Proof.
  eexists. split; [reflexivity|]. repeat split.
Qed.


(* ------------------------------------------------------------------ *)
(** ** Runs of the parsers, the gate and the matcher *)
(* ------------------------------------------------------------------ *)


(** A run of C3: the estimate of case 1001 is active; ingesting a file of
    that case again leaves one active record of case 1001. *)
Lemma C3_ingest_gate_witness :
  detect_type (R := Exact.runtime) (pdf_text Run.pdf_1001) = Some TPreventivo
  /\ count_prev (Some (lit "1001"))
       (data (snd (process_pdf Run.env_ok Run.pdf_1001 (lit "again.pdf") Run.st0)))
     = 1%nat.
Proof.
  assert (D : detect_type (R := Exact.runtime) (pdf_text Run.pdf_1001)
              = Some TPreventivo) by (vm_compute; reflexivity).
  split; [exact D|].
  destruct (@C3_ingest_gate Exact.runtime Run.env_ok Run.pdf_1001 (lit "again.pdf")
              Run.st0) as (_ & _ & _ & _ & _ & P & _).
  destruct (P D) as [_ A].
  refine (proj2 (A _ _) _).
  - simpl. intros [].
  - left. vm_compute. reflexivity.
  - repeat constructor. simpl. intros [].
Defined.

(** A run of C10: an estimate without case id is active; a second estimate
    whose text has no case id leaves the state as it is. *)
Lemma C10_unset_key_witness :
  detect_type (R := Exact.runtime) (pdf_text Run.pdf_no_case) = Some TPreventivo
  /\ Re.re_search re_pratica_hertz (pdf_text Run.pdf_no_case) = None
  /\ In None (prev_keys Run.d_unset)
  /\ snd (process_pdf Run.env_ok Run.pdf_no_case (lit "c.pdf") Run.st_unset)
     = Run.st_unset.
Proof.
  assert (D : detect_type (R := Exact.runtime) (pdf_text Run.pdf_no_case)
              = Some TPreventivo) by (vm_compute; reflexivity).
  assert (K : Re.re_search re_pratica_hertz (pdf_text Run.pdf_no_case) = None)
    by (vm_compute; reflexivity).
  assert (I : In None (prev_keys Run.d_unset)) by (left; reflexivity).
  split; [exact D|]. split; [exact K|]. split; [exact I|].
  exact (proj1 (proj1 (@C10_unset_key Exact.runtime Run.env_ok Run.pdf_no_case
                         (lit "c.pdf") Run.st_unset) D K) I).
Defined.

(** A run of C4 (amended): no active purchase order is invoiced, and the
    pairing is the one of the specification. *)
Lemma C4_matches_witness :
  claimed_matches Run.d0 = [Run.the_match]
  /\ exists s, get_stats Run.st0 = (Return s, Run.st0)
              /\ matches s = claimed_matches Run.d0.
Proof.
  split; [reflexivity|].
  destruct (@C4_matches Exact.runtime Run.st0) as (s & G & _ & _ & H).
  exists s. split; [exact G|].
  apply H. intros po [<-|[]]. reflexivity.
Defined.

(* ================================================================== *)
(** * More on the parsers *)
(* ================================================================== *)



(** [rstrip('T')] removes every trailing ['T'], not one only. *)
Lemma rstrip_T_spec (s : str) :
  exists n, s = rstrip_T s ++ repeat 84%N n /\ ends_with_T (rstrip_T s) = false.
Proof.
  induction s as [|c s IH] using rev_ind.
  - exists 0%nat. split; reflexivity.
  - destruct IH as (n & E & F). unfold rstrip_T in *. rewrite rstrip_by_snoc.
    destruct (chr_eqb 84%N c) eqn:C.
    + exists (S n). split; [|exact F].
      apply N.eqb_eq in C. subst c.
      rewrite E at 1. rewrite <- app_assoc. f_equal.
      change [84%N] with (repeat 84%N 1). rewrite <- repeat_app.
      f_equal. lia.
    + exists 0%nat. split; [simpl; rewrite app_nil_r; reflexivity|].
      rewrite ends_with_T_snoc. exact C.
Qed.


Section ParserExtras.
Context {R : PyRuntime}.


(** X2. The plate stored for an estimate is the captured token without all
    of its trailing ['T']s, however many: the token is the stored plate
    followed by ['T']s only, and the stored plate does not end in ['T']. *)
Theorem stored_plate_has_no_trailing_T (env : Env) (text filename : str)
  (tables : list table) (g : str) :
  Re.re_search re_targa text = Some g ->
  exists p n,
    prev_targa (parse_preventivo env text filename tables) = Some p
    /\ g = p ++ repeat 84%N n
    /\ ends_with_T p = false.
Proof.
  intros H. destruct (rstrip_T_spec g) as (n & E & F).
  exists (rstrip_T g), n. split; [|split; assumption].
  unfold parse_preventivo, group_of. cbn [prev_targa]. rewrite H. reflexivity.
Qed.


End ParserExtras.

(** A run of X2: the token ["AB12TT"] is stored as ["AB12"]. *)
Lemma stored_plate_has_no_trailing_T_witness :
  Re.re_search re_targa (lit "Targa: AB12TT") = Some (lit "AB12TT")
  /\ exists p n,
       prev_targa (parse_preventivo (R := Exact.runtime) Run.env_ok
                     (lit "Targa: AB12TT") (lit "a.pdf") []) = Some p
       /\ lit "AB12TT" = p ++ repeat 84%N n
       /\ ends_with_T p = false.
Proof.
  assert (H : Re.re_search re_targa (lit "Targa: AB12TT") = Some (lit "AB12TT"))
    by (vm_compute; reflexivity).
  split; [exact H|].
  exact (@stored_plate_has_no_trailing_T Exact.runtime Run.env_ok
           (lit "Targa: AB12TT") (lit "a.pdf") [] (lit "AB12TT") H).
Defined.

Lemma run_parse_po :
  parse_purchase_order (R := Exact.runtime) Run.env_ok Run2.po_text (lit "po.pdf")
  = Ok Run2.po_parsed.
Proof. reflexivity. Qed.



Section SyntheticItems.
Context {R : PyRuntime}.

Lemma count_starts_app (p : str) (a b : list Item) :
  count_starts p (a ++ b) = (count_starts p a + count_starts p b)%nat.
Proof. unfold count_starts. rewrite filter_app, length_app. reflexivity. Qed.

Lemma starts_with_contains (p s : str) :
  starts_with p s = true -> contains p s = true.
Proof. intros H. destruct s; simpl; rewrite H; reflexivity. Qed.

Lemma no_description_no_start (p : str) (its : list Item) :
  has_description p its = false -> count_starts p its = 0%nat.
Proof.
  unfold has_description, count_starts.
  induction its as [|i its IH]; simpl; [reflexivity|].
  rewrite orb_false_iff. intros [A B].
  destruct (starts_with p (description i)) eqn:S.
  - apply starts_with_contains in S. congruence.
  - apply IH. exact B.
Qed.

Lemma careful_append (p : str) (its : list Item) (i : Item) :
  count_starts p its = 0%nat \/ starts_with p (description i) = false ->
  careful_step p its (its ++ [i]).
Proof.
  intros H. unfold careful_step. rewrite count_starts_app.
  assert (S : count_starts p [i]
              = if starts_with p (description i) then 1%nat else 0%nat).
  { unfold count_starts. simpl. destruct (starts_with p (description i)); reflexivity. }
  rewrite S. destruct H as [H|H]; rewrite H;
    [destruct (starts_with p (description i))|]; lia.
Qed.

Lemma careful_same (p : str) (its : list Item) : careful_step p its its.
Proof. unfold careful_step. lia. Qed.

Lemma careful_fold {B} (p : str) (Q : B -> Prop)
  (f : list Item -> B -> list Item) (l : list B) :
  (forall acc x, Q x -> careful_step p acc (f acc x)) ->
  Forall Q l ->
  forall acc, careful_step p acc (fold_left f l acc).
Proof.
  intros Hf Hl. induction Hl as [|x l Hx Hl IH]; intros acc; simpl.
  - apply careful_same.
  - specialize (Hf acc x Hx). specialize (IH (f acc x)).
    unfold careful_step in *. lia.
Qed.

Lemma add_smaltimento_careful (p : str) (text : str) (its : list Item) :
  In p synthetic_labels -> careful_step p its (add_smaltimento text its).
Proof.
  intros Hp. unfold add_smaltimento.
  destruct (Re.re_search re_smaltimento text) as [g|]; [|apply careful_same].
  destruct (py_float _) as [val|]; [|apply careful_same].
  destruct (num_gtb val num_zero); cbn [andb]; [|apply careful_same].
  destruct (has_description (lit "Smaltimento") its) eqn:G; cbn [negb];
    [apply careful_same|].
  apply careful_append. cbn [description].
  destruct Hp as [<-|[<-|[<-|[<-|[]]]]];
    first [right; reflexivity | left; apply no_description_no_start; exact G].
Qed.

Lemma add_manodopera_careful (p : str) (row_text : str) (its : list Item)
  (kind : str) :
  In p synthetic_labels -> In kind labor_kinds ->
  careful_step p its (add_manodopera row_text its kind).
Proof.
  intros Hp Hk. unfold add_manodopera.
  destruct (contains _ row_text); [|apply careful_same].
  destruct (Re.re_search re_ore row_text) as [[g1 g2]|]; [|apply careful_same].
  destruct (py_float (replace_chr comma [dot] g1)) as [ore|]; [|apply careful_same].
  destruct (py_float (replace_chr comma [dot] g2)) as [tariffa|]; [|apply careful_same].
  destruct (num_gtb (num_mul ore tariffa) num_zero); cbn [andb]; [|apply careful_same].
  destruct (has_description (lit "Manodopera " ++ kind) its) eqn:G; cbn [negb];
    [apply careful_same|].
  apply careful_append. cbn [description].
  destruct Hk as [<-|[<-|[<-|[]]]];
    destruct Hp as [<-|[<-|[<-|[<-|[]]]]];
    first [right; reflexivity | left; apply no_description_no_start; exact G].
Qed.

Lemma add_manodopera_all_careful (p : str) (tables : list table)
  (its : list Item) :
  In p synthetic_labels -> careful_step p its (add_manodopera_all tables its).
Proof.
  intros Hp. unfold add_manodopera_all.
  apply careful_fold with (Q := fun _ => True); [|apply Forall_True].
  intros acc t _.
  apply careful_fold with (Q := fun _ => True); [|apply Forall_True].
  intros acc' raw _. unfold manodopera_row. destruct raw; [apply careful_same|].
  apply careful_fold with (Q := fun k => In k labor_kinds).
  - intros a k Hk. apply add_manodopera_careful; assumption.
  - apply Forall_forall. auto.
Qed.

(** X4. A parsed estimate never gets a second disposal-fee item nor a second
    labor item of one category: among the items appended after those of the
    tables, at most one has a description starting with ["Smaltimento"], and
    for each of the three labor categories at most one has a description
    starting with ["Manodopera <category>"]. *)
Theorem synthetic_items_not_doubled (env : Env) (text filename : str)
  (tables : list table) (label : str) :
  In label synthetic_labels ->
  exists synthetic,
    items (parse_preventivo env text filename tables)
    = _extract_items_from_table tables ++ synthetic
    /\ (count_starts label synthetic <= 1)%nat.
Proof.
  intros Hl.
  destruct (add_smaltimento_extends text (_extract_items_from_table tables))
    as (s1 & E1 & _).
  destruct (add_manodopera_all_extends tables
              (add_smaltimento text (_extract_items_from_table tables)))
    as (s2 & E2 & _).
  exists (s1 ++ s2). split.
  { unfold parse_preventivo. cbn [items]. rewrite E2, E1, app_assoc. reflexivity. }
  pose proof (add_smaltimento_careful text (_extract_items_from_table tables) Hl) as C1.
  pose proof (add_manodopera_all_careful tables
                (add_smaltimento text (_extract_items_from_table tables)) Hl) as C2.
  unfold careful_step in C1, C2. rewrite E2, E1 in C2. rewrite E1 in C1.
  rewrite !count_starts_app in *. lia.
Qed.

End SyntheticItems.

(* ================================================================== *)
(** * More on the matcher *)
(* ================================================================== *)

Section MatcherExtras.
Context {R : PyRuntime}.

Lemma match_for_sound (d : Data) (prev : Preventivo) (pos : list PurchaseOrder)
  (m : Match) :
  In m (match_for d prev pos) ->
  m_preventivo m = prev /\ In (m_po m) pos
  /\ prev_pratica_hertz prev = po_pratica_hertz (m_po m)
  /\ is_po_invoiced d (po_number (m_po m)) = false.
Proof.
  induction pos as [|po pos IH]; simpl; [intros []|].
  destruct (opt_eqb (prev_pratica_hertz prev) (po_pratica_hertz po)) eqn:E.
  - destruct (is_po_invoiced d (po_number po)) eqn:I; simpl; [intros []|].
    intros [<-|[]]. simpl. apply opt_eqb_eq in E. auto.
  - intros H. destruct (IH H) as (A & B & C & D). auto.
Qed.

Lemma match_for_length (d : Data) (prev : Preventivo) (pos : list PurchaseOrder) :
  (List.length (match_for d prev pos) <= 1)%nat.
Proof.
  induction pos as [|po pos IH]; simpl; [lia|].
  destruct (opt_eqb _ _); [|exact IH].
  destruct (is_po_invoiced d (po_number po)); simpl; lia.
Qed.

(** The pairing of an estimate depends on its case id only. *)
Lemma match_for_key (d : Data) (p q : Preventivo) (pos : list PurchaseOrder) :
  prev_pratica_hertz p = prev_pratica_hertz q ->
  match_for d p pos = map (fun m => mkMatch p (m_po m)) (match_for d q pos).
Proof.
  intros K. induction pos as [|po pos IH]; simpl; [reflexivity|].
  rewrite K. destruct (opt_eqb _ _); [|exact IH].
  destruct (is_po_invoiced d (po_number po)); reflexivity.
Qed.

Lemma flat_map_length_le {A B} (f : A -> list B) (l : list A) :
  (forall a, (List.length (f a) <= 1)%nat) ->
  (List.length (flat_map f l) <= List.length l)%nat.
Proof.
  intros H. induction l as [|a l IH]; simpl; [lia|].
  rewrite length_app. specialize (H a). lia.
Qed.

(** X5. Every pair [get_stats] reports joins an active estimate and an
    active purchase order that have the same case id, the purchase order not
    being invoiced; there are never more pairs than active estimates. *)
Theorem matches_are_sound (st : Processor) :
  exists s,
    get_stats st = (Return s, st)
    /\ (forall m, In m (matches s) ->
          In (m_preventivo m) (preventivi (data st))
          /\ In (m_po m) (purchase_orders (data st))
          /\ prev_pratica_hertz (m_preventivo m) = po_pratica_hertz (m_po m)
          /\ is_po_invoiced (data st) (po_number (m_po m)) = false)
    /\ (lavori_pronti s <= n_preventivi s)%nat.
Proof.
  eexists. split; [reflexivity|]. cbn [matches lavori_pronti n_preventivi]. split.
  - intros m Hm. unfold compute_matches in Hm. apply in_flat_map in Hm.
    destruct Hm as (prev & Hp & Hm). apply match_for_sound in Hm.
    destruct Hm as (-> & B & C & D). auto.
  - unfold compute_matches. apply flat_map_length_le. intros a. apply match_for_length.
Qed.

(** X6. [get_stats] splits the active estimates in two: an estimate is
    listed as waiting exactly when no reported pair holds it. A purchase
    order listed as waiting is not invoiced and is in no reported pair. The
    two counters of waiting documents are the sizes of the two lists
    together. *)
Theorem waiting_lists_are_exact (st : Processor) :
  exists s,
    get_stats st = (Return s, st)
    /\ (forall p, In p (preventivi (data st)) ->
          (In p (prev_in_attesa s) <->
           ~ exists m, In m (matches s) /\ m_preventivo m = p))
    /\ (forall po, In po (po_in_attesa s) ->
          In po (purchase_orders (data st))
          /\ is_po_invoiced (data st) (po_number po) = false
          /\ ~ exists m, In m (matches s) /\ m_po m = po)
    /\ pdf_in_attesa s
       = (List.length (prev_in_attesa s) + List.length (po_in_attesa s))%nat
    /\ in_attesa_associazione s = pdf_in_attesa s.
Proof.
  eexists. split; [reflexivity|].
  cbn [matches prev_in_attesa po_in_attesa pdf_in_attesa in_attesa_associazione].
  split; [|split; [|split; reflexivity]].
  - intros p Hp. rewrite filter_In, negb_true_iff, py_in_not_In, in_map_iff. split.
    + intros [_ N] (m & Hm & E). apply N. exists m. subst p. auto.
    + intros N. split; [exact Hp|]. intros (m' & K & Hm'). apply N.
      unfold compute_matches in Hm'. apply in_flat_map in Hm'.
      destruct Hm' as (q & Hq & Hm').
      pose proof (match_for_sound _ _ _ _ Hm') as (Eq & _).
      exists (mkMatch p (m_po m')). split; [|reflexivity].
      unfold compute_matches. apply in_flat_map. exists p. split; [exact Hp|].
      rewrite (@match_for_key (data st) p q _) by congruence.
      apply in_map_iff. exists m'. auto.
  - intros po Hpo. apply filter_In in Hpo. destruct Hpo as (A & B).
    apply andb_true_iff in B. destruct B as (B & C).
    rewrite negb_true_iff in B, C. split; [exact A|]. split; [exact C|].
    intros (m & Hm & E). apply py_in_not_In in B. apply B.
    apply in_map_iff. exists m. subst po. auto.
Qed.

End MatcherExtras.

(* ================================================================== *)
(** * What every request keeps *)
(* ================================================================== *)

Lemma NoDup_map_filter {A B} (key : A -> B) (f : A -> bool) (l : list A) :
  NoDup (map key l) -> NoDup (map key (filter f l)).
Proof.
  induction l as [|x l IH]; simpl; [auto|].
  intros N. inversion N as [|? ? Hn N']; subst.
  destruct (f x); simpl; [|auto].
  constructor; [|auto]. intros H. apply Hn.
  apply in_map_iff in H. destruct H as (y & E & Hy). apply filter_In in Hy.
  apply in_map_iff. exists y. tauto.
Qed.

Lemma in_map_filter {A B} (key : A -> B) (f : A -> bool) (l : list A) (k : B) :
  In k (map key (filter f l)) -> In k (map key l).
Proof.
  rewrite !in_map_iff. intros (y & E & Hy). apply filter_In in Hy.
  exists y. tauto.
Qed.

Lemma in_map_filter_key {A} (key : A -> option str) (k0 k : option str)
  (l : list A) :
  In k (map key (filter (fun p => negb (opt_eqb (key p) k0)) l)) -> k <> k0.
Proof.
  rewrite in_map_iff. intros (y & E & Hy). apply filter_In in Hy.
  destruct Hy as [_ Hy]. rewrite negb_true_iff, opt_eqb_neq in Hy. congruence.
Qed.

Section Keeping.
Context {R : PyRuntime}.

Lemma numbering_nonneg (env : Env) (m : Match) (d : Data) :
  0 <= last_number_hg (config d) -> 0 <= last_number_hm (config d) ->
  0 <= last_number_hg (config_after env m d)
  /\ 0 <= last_number_hm (config_after env m d)
  /\ 1 <= number_issued env m d.
Proof.
  unfold config_after, number_issued, numbering, next_number, rollover.
  intros A B.
  destruct (negb (cfg_year (config d) =? now_year env)), (has_tyres (m_po m));
    cbn; lia.
Qed.

Lemma well_formed_numbered (env : Env) (m : Match) (d : Data) :
  well_formed d -> well_formed (data_numbered env m d).
Proof.
  intros (A & B & C & D & E & F & G).
  destruct (numbering_nonneg env m d E F) as (E' & F' & _).
  unfold well_formed, data_numbered, with_config, prev_keys, po_keys,
    invoiced_cases, invoiced_pos in *. cbn [preventivi purchase_orders
    fatture_generate config]. auto 10.
Qed.

Lemma well_formed_invoiced (env : Env) (m : Match) (d : Data) :
  well_formed d -> well_formed (data_invoiced env m d).
Proof.
  intros (A & B & C & D & E & F & G).
  destruct (numbering_nonneg env m d E F) as (E' & F' & N).
  unfold well_formed, data_invoiced, prev_keys, po_keys, invoiced_cases,
    invoiced_pos in *.
  cbn [preventivi purchase_orders fatture_generate config].
  split; [apply NoDup_map_filter; exact A|].
  split; [apply NoDup_map_filter; exact B|].
  split.
  { intros k Hk. rewrite map_app, in_app_iff. cbn [map fattura_of f_pratica_hertz].
    intros [H|[H|[]]].
    - apply (C k); [eapply in_map_filter; exact Hk | exact H].
    - apply in_map_filter_key in Hk. congruence. }
  split.
  { intros k Hk. rewrite map_app, in_app_iff. cbn [map fattura_of f_po_number].
    intros [H|[H|[]]].
    - apply (D k); [eapply in_map_filter; exact Hk | exact H].
    - apply in_map_filter_key in Hk. congruence. }
  split; [exact E'|]. split; [exact F'|].
  intros f. rewrite in_app_iff. intros [H|[<-|[]]]; [auto|]. exact N.
Qed.

Lemma generate_xml_data (env : Env) (m : Match) (st : Processor) :
  data (snd (generate_xml env m st)) = data_invoiced env m (data st)
  \/ data (snd (generate_xml env m st)) = data_numbered env m (data st).
Proof.
  rewrite generate_xml_cases.
  destruct (xml_ok env), (write_ok env), (save_ok env); cbn [snd data]; auto.
Qed.

Lemma bind_try {A B} (m : M A) (k : result A -> M B) (st : Processor) :
  mbind (try_ m) k st =
  match m st with
  | (Return a, s) => k (Ok a) s
  | (Raise e, s) => k (Failed e) s
  end.
Proof. unfold mbind, try_. destruct (m st) as [[a|e] s]; reflexivity. Qed.

Lemma bind_ret_state {A B} (m : M A) (f : A -> B) (st : Processor) :
  snd (mbind m (fun a => mret (f a)) st) = snd (m st).
Proof. unfold mbind, mret. destruct (m st) as [[a|e] s]; reflexivity. Qed.

Lemma generate_xml_keeps (P : Data -> Prop) (env : Env) (m : Match)
  (st : Processor) :
  (forall env m d, P d -> P (data_invoiced env m d) /\ P (data_numbered env m d)) ->
  P (data st) -> P (data (snd (generate_xml env m st))).
Proof.
  intros H Hd. destruct (generate_xml_data env m st) as [->| ->]; apply H; exact Hd.
Qed.

(** A property of the data that [generate_xml] keeps is kept by the two
    views that call it. *)
Lemma genera_loop_keeps (P : Data -> Prop) (env : Env) (k : str)
  (ms : list Match) (st : Processor) :
  (forall env m d, P d -> P (data_invoiced env m d) /\ P (data_numbered env m d)) ->
  P (data st) -> P (data (snd (genera_loop env k ms st))).
Proof.
  intros H. induction ms as [|m ms IH]; simpl; [auto|]. intros Hd.
  destruct (opt_eqb _ _); [|auto].
  rewrite bind_try. pose proof (generate_xml_keeps P env m st H Hd) as G.
  destruct (generate_xml env m st) as [[a|e] s]; exact G.
Qed.

Lemma generate_each_keeps (P : Data -> Prop) (env_at : nat -> Env)
  (ms : list Match) :
  (forall env m d, P d -> P (data_invoiced env m d) /\ P (data_numbered env m d)) ->
  forall i st, P (data st) -> P (data (snd (generate_each env_at i ms st))).
Proof.
  intros H. induction ms as [|m ms IH]; intros i st Hd; simpl; [auto|].
  rewrite bind_try. pose proof (generate_xml_keeps P (env_at i) m st H Hd) as G.
  destruct (generate_xml (env_at i) m st) as [[a|e] s]; cbn [snd] in G;
    rewrite bind_ret_state; apply IH; exact G.
Qed.

Lemma genera_fattura_unfold (env : Env) (k : str) (st : Processor) :
  genera_fattura env k st = genera_loop env k (compute_matches (data st)) st.
Proof. reflexivity. Qed.

Lemma genera_tutti_unfold (env_at : nat -> Env) (st : Processor) :
  genera_tutti env_at st
  = generate_each env_at 0 (sorted_by date_key (compute_matches (data st))) st.
Proof. reflexivity. Qed.

Lemma genera_fattura_keeps (P : Data -> Prop) (env : Env) (k : str)
  (st : Processor) :
  (forall env m d, P d -> P (data_invoiced env m d) /\ P (data_numbered env m d)) ->
  P (data st) -> P (data (snd (genera_fattura env k st))).
Proof.
  intros H Hd. rewrite genera_fattura_unfold. apply genera_loop_keeps; assumption.
Qed.

Lemma genera_tutti_keeps (P : Data -> Prop) (env_at : nat -> Env)
  (st : Processor) :
  (forall env m d, P d -> P (data_invoiced env m d) /\ P (data_numbered env m d)) ->
  P (data st) -> P (data (snd (genera_tutti env_at st))).
Proof.
  intros H Hd. rewrite genera_tutti_unfold. apply generate_each_keeps; assumption.
Qed.

End Keeping.

Section KeepingMore.
Context {R : PyRuntime}.

Lemma delete_document_data (env : Env) (doc_type doc_id : str) (st : Processor) :
  data (snd (delete_document env doc_type doc_id st)) =
  if str_eqb doc_type (lit "preventivo")
  then with_preventivi (data st)
         (filter (fun p => negb (str_eqb (prev_id p) doc_id)) (preventivi (data st)))
  else if str_eqb doc_type (lit "purchase_order")
  then with_purchase_orders (data st)
         (filter (fun p => negb (str_eqb (po_id p) doc_id)) (purchase_orders (data st)))
  else data st.
Proof.
  unfold delete_document, mbind, get_data, set_data, save_data, mret.
  destruct (str_eqb doc_type (lit "preventivo"));
    [|destruct (str_eqb doc_type (lit "purchase_order"))];
    destruct (save_ok env); reflexivity.
Qed.

Lemma clear_all_data (env : Env) (st : Processor) :
  data (snd (clear_all env st))
  = mkData [] [] (fatture_generate (data st)) (config (data st)).
Proof.
  unfold clear_all, mbind, get_data, set_data, save_data, mret.
  destruct (save_ok env); reflexivity.
Qed.

Lemma delete_fattura_data (remove_ok : bool) (env : Env) (filename : str)
  (st : Processor) :
  data (snd (delete_fattura remove_ok env filename st))
  = with_fatture (data st)
      (filter (fun f => negb (str_eqb (f_filename f) filename))
              (fatture_generate (data st))).
Proof.
  unfold delete_fattura. rewrite bind_try.
  unfold mbind, get_data, set_data, attempt, save_data, mret, raise.
  destruct remove_ok, (save_ok env); reflexivity.
Qed.

Lemma delete_all_fatture_data (env : Env) (st : Processor) :
  data (snd (delete_all_fatture env st)) = with_fatture (data st) [].
Proof.
  unfold delete_all_fatture. unfold mbind at 1. cbn [get_data]. rewrite bind_try.
  unfold mbind, get_data, set_data, save_data, mret.
  destruct (save_ok env); reflexivity.
Qed.

Lemma update_numerazione_data {json : Type} (py_int : json -> int_outcome)
  (env : Env) (req : numerazione_request json) (st : Processor) :
  data (snd (update_numerazione py_int env req st)) = data st
  \/ exists new_hg new_hm,
       0 <= new_hg /\ 0 <= new_hm
       /\ int_of_field py_int (req_last_number_hg req) = IntValue new_hg
       /\ int_of_field py_int (req_last_number_hm req) = IntValue new_hm
       /\ data (snd (update_numerazione py_int env req st))
          = with_config (data st)
              (mkConfig new_hg new_hm (cfg_year (config (data st)))).
Proof.
  unfold update_numerazione.
  destruct (int_of_field py_int (req_last_number_hm req)) as [hm| |]; auto.
  destruct (int_of_field py_int (req_last_number_hg req)) as [hg| |]; auto.
  destruct ((hm <? 0) || (hg <? 0)) eqn:N; auto.
  apply orb_false_iff in N. destruct N as [N1 N2].
  apply Z.ltb_ge in N1, N2.
  right. exists hg, hm. repeat split; try assumption.
  unfold mbind, get_data, set_data, save_data, mret.
  destruct (save_ok env); reflexivity.
Qed.

Lemma well_formed_gate_step (env : Env) (pdf : Pdf) (filename : str)
  (st st' : Processor) :
  gate_step env pdf filename st st' ->
  well_formed (data st) -> well_formed (data st').
Proof.
  intros S (A & B & C & D & E & F & G).
  destruct (gate_step_keeps S) as (N1 & N2 & Fa & Co & _).
  unfold well_formed. rewrite Co.
  split; [auto|]. split; [auto|].
  unfold invoiced_cases, invoiced_pos. rewrite Fa.
  fold (invoiced_cases (data st)). fold (invoiced_pos (data st)).
  destruct S as [->|Dt doc Hd I K Eq|Dt doc Hd I K Eq].
  - auto 10.
  - rewrite Eq. rewrite prev_keys_append.
    unfold po_keys. cbn [with_preventivi purchase_orders]. fold (po_keys (data st)).
    repeat split; auto.
    intros k Hk. apply in_app_iff in Hk. destruct Hk as [Hk|[<-|[]]]; auto.
  - rewrite Eq. rewrite po_keys_append.
    unfold prev_keys. cbn [with_purchase_orders preventivi]. fold (prev_keys (data st)).
    repeat split; auto.
    intros k Hk. apply in_app_iff in Hk. destruct Hk as [Hk|[<-|[]]]; auto.
Qed.

Lemma well_formed_less_preventivi (d : Data) (f : Preventivo -> bool) :
  well_formed d -> well_formed (with_preventivi d (filter f (preventivi d))).
Proof.
  intros (A & B & C & D & E & F & G).
  unfold well_formed, with_preventivi, prev_keys, po_keys, invoiced_cases,
    invoiced_pos in *. cbn [preventivi purchase_orders fatture_generate config].
  split; [apply NoDup_map_filter; exact A|].
  repeat split; auto.
  intros k Hk. apply C. eapply in_map_filter; exact Hk.
Qed.

Lemma well_formed_less_purchase_orders (d : Data) (f : PurchaseOrder -> bool) :
  well_formed d ->
  well_formed (with_purchase_orders d (filter f (purchase_orders d))).
Proof.
  intros (A & B & C & D & E & F & G).
  unfold well_formed, with_purchase_orders, prev_keys, po_keys, invoiced_cases,
    invoiced_pos in *. cbn [preventivi purchase_orders fatture_generate config].
  split; [exact A|]. split; [apply NoDup_map_filter; exact B|].
  repeat split; auto.
  intros k Hk. apply D. eapply in_map_filter; exact Hk.
Qed.

Lemma well_formed_less_fatture (d : Data) (f : Fattura -> bool) :
  well_formed d -> well_formed (with_fatture d (filter f (fatture_generate d))).
Proof.
  intros (A & B & C & D & E & F & G).
  unfold well_formed, with_fatture, prev_keys, po_keys, invoiced_cases,
    invoiced_pos in *. cbn [preventivi purchase_orders fatture_generate config].
  repeat split; auto.
  - intros k Hk H. apply (C k Hk). eapply in_map_filter; exact H.
  - intros k Hk H. apply (D k Hk). eapply in_map_filter; exact H.
  - intros x Hx. apply G. apply filter_In in Hx. tauto.
Qed.

Lemma filter_none {A} (l : list A) : filter (fun _ => false) l = [].
Proof. induction l; simpl; auto. Qed.

Lemma well_formed_initial (y : Z) : well_formed (initial_data y).
Proof.
  unfold well_formed, initial_data, prev_keys, po_keys, invoiced_cases, invoiced_pos.
  cbn. repeat split; try constructor; try lia; intros ? [].
Qed.

(** X7. Starting from the state that [load_data] builds when no data file
    exists, whatever requests follow (uploads, single and batch generation,
    deletions, renumbering) and whatever fails in them, the state is well
    formed: active estimates have distinct case ids, active purchase orders
    distinct numbers, no active key is among the invoices, the counters are
    not negative and every invoice number is at least 1. *)
Theorem reachable_states_are_well_formed {json : Type}
  (py_int : json -> int_outcome) (ops : list (operation json)) (y : Z) :
  well_formed
    (data (run py_int ops (mkProcessor (initial_data y) (initial_data y)))).
Proof.
  unfold run.
  assert (G : forall st, well_formed (data st) ->
                well_formed (data (fold_left (fun s op => exec py_int op s) ops st))).
  { induction ops as [|op ops IH]; intros st W; simpl; [exact W|].
    apply IH. destruct op; cbn [exec].
    - eapply well_formed_gate_step; [apply process_pdf_step | exact W].
    - apply genera_fattura_keeps; [|exact W]. intros e m d Hd.
      split; [apply well_formed_invoiced | apply well_formed_numbered]; exact Hd.
    - apply genera_tutti_keeps; [|exact W]. intros e m d Hd.
      split; [apply well_formed_invoiced | apply well_formed_numbered]; exact Hd.
    - rewrite delete_document_data.
      destruct (str_eqb doc_type (lit "preventivo"));
        [apply well_formed_less_preventivi; exact W|].
      destruct (str_eqb doc_type (lit "purchase_order"));
        [apply well_formed_less_purchase_orders; exact W | exact W].
    - rewrite clear_all_data.
      pose proof (well_formed_less_purchase_orders (fun _ => false)
                    (well_formed_less_preventivi (fun _ => false) W)) as H.
      unfold with_purchase_orders, with_preventivi in H.
      cbn [preventivi purchase_orders fatture_generate config] in H.
      rewrite !filter_none in H. exact H.
    - rewrite delete_fattura_data. apply well_formed_less_fatture. exact W.
    - rewrite delete_all_fatture_data.
      pose proof (well_formed_less_fatture (fun _ => false) W) as H.
      rewrite filter_none in H. exact H.
    - destruct (update_numerazione_data py_int env req st)
        as [->|(hg & hm & Hg & Hm & _ & _ & ->)]; [exact W|].
      destruct W as (A & B & C & D & E & F & G0).
      unfold well_formed, with_config, prev_keys, po_keys, invoiced_cases,
        invoiced_pos in *. cbn [preventivi purchase_orders fatture_generate config
        last_number_hg last_number_hm]. auto 10. }
  apply G. apply well_formed_initial.
Qed.

(** X8. In a well-formed state, so in every state reached from a fresh
    start, no active purchase order is invoiced, and the pairs that
    [get_stats] reports are exactly those of the specification: each estimate
    with the first purchase order of its case id that is not invoiced. *)
Theorem well_formed_matches (st : Processor) :
  well_formed (data st) ->
  (forall po, In po (purchase_orders (data st)) ->
              is_po_invoiced (data st) (po_number po) = false)
  /\ exists s, get_stats st = (Return s, st)
               /\ matches s = claimed_matches (data st).
Proof.
  intros (_ & _ & _ & D & _).
  assert (N : forall po, In po (purchase_orders (data st)) ->
                         is_po_invoiced (data st) (po_number po) = false).
  { intros po Hpo. unfold is_po_invoiced. apply py_in_not_In.
    apply D. unfold po_keys. apply in_map. exact Hpo. }
  split; [exact N|].
  eexists. split; [reflexivity|]. cbn [matches].
  unfold compute_matches, claimed_matches.
  apply flat_map_ext. intros prev. unfold claimed_match_for.
  rewrite match_for_find, (find_not_invoiced (data st) prev _ N).
  destruct (find _ _) as [po|] eqn:E; [|reflexivity].
  apply find_some in E. rewrite (N po) by tauto. reflexivity.
Qed.

End KeepingMore.

(* ================================================================== *)
(** * Numbering and deletions *)
(* ================================================================== *)

Section NumberingExtras.
Context {R : PyRuntime}.

Lemma same_year_config (env : Env) (m : Match) (d : Data) :
  cfg_year (config d) = now_year env ->
  cfg_year (config_after env m d) = cfg_year (config d)
  /\ number_issued env m d = counter_of (tipo_issued env m d) (config d) + 1
  /\ counter_of (tipo_issued env m d) (config_after env m d) = number_issued env m d
  /\ (forall t, counter_of t (config d) <= counter_of t (config_after env m d)).
Proof.
  intros Y. unfold config_after, number_issued, tipo_issued, numbering,
    next_number, rollover.
  rewrite Y, Z.eqb_refl. cbn [negb].
  destruct (has_tyres (m_po m)); cbn; repeat split; try lia;
    intros []; cbn; lia.
Qed.

(** X9. Within a year, numbers of one category do not collide: if no
    invoice has a number above the counter of its category and the stored
    year is the current one, then after [generate_xml], however it ends, the
    same holds, and the number of a new invoice is greater than the number of
    every earlier invoice of its category. *)
Theorem numbers_do_not_collide (env : Env) (m : Match) (st : Processor) :
  numbers_bounded (data st) ->
  cfg_year (config (data st)) = now_year env ->
  numbers_bounded (data (snd (generate_xml env m st)))
  /\ (forall fn tot st',
        generate_xml env m st = (Return (fn, tot), st') ->
        exists new,
          fatture_generate (data st') = fatture_generate (data st) ++ [new]
          /\ forall f, In f (fatture_generate (data st)) ->
                       tipo f = tipo new ->
                       numero_fattura f < numero_fattura new).
Proof.
  intros B Y.
  destruct (same_year_config env m (data st) Y) as (_ & N & C & Mono).
  split.
  - destruct (generate_xml_data env m st) as [->| ->]; unfold numbers_bounded in *;
      cbn [data_invoiced data_numbered with_config fatture_generate config].
    + intros f. rewrite in_app_iff. intros [H|[<-|[]]].
      * specialize (B f H). specialize (Mono (tipo f)). lia.
      * cbn [fattura_of numero_fattura tipo]. lia.
    + intros f H. specialize (B f H). specialize (Mono (tipo f)). lia.
  - intros fn tot st' H. apply generate_xml_return in H.
    destruct H as (_ & _ & _ & _ & _ & ->).
    exists (fattura_of env m (data st)). split; [reflexivity|].
    intros f Hf T. cbn [fattura_of numero_fattura tipo] in *.
    specialize (B f Hf). rewrite T in B. lia.
Qed.

(** The number after the one issued by a successful call, in the same year
    and category, from any state that kept the counters. *)
Lemma next_number_follows (env1 env3 : Env) (m1 m3 : Match) (d d2 : Data) :
  config d2 = config_after env1 m1 d ->
  now_year env3 = now_year env1 ->
  has_tyres (m_po m3) = has_tyres (m_po m1) ->
  number_issued env3 m3 d2 = number_issued env1 m1 d + 1.
Proof.
  intros C Y B.
  destruct (numbering_spec env1 m1 d) as (Y1 & T1 & F1).
  destruct (numbering_spec env3 m3 d2) as (_ & T3 & F3).
  cbn zeta in T1, F1, T3, F3.
  rewrite C in T3, F3. rewrite Y1, <- Y, Z.eqb_refl in T3, F3.
  destruct (has_tyres (m_po m1)) eqn:B1.
  - destruct (T1 eq_refl) as (N1 & _ & G1 & _).
    destruct (T3 B) as (N3 & _). rewrite N3, G1, N1. reflexivity.
  - destruct (F1 eq_refl) as (N1 & _ & G1 & _).
    destruct (F3 B) as (N3 & _). rewrite N3, G1, N1. reflexivity.
Qed.

(** X10. Deleting an invoice does not give its number back: after a
    successful [generate_xml], a [delete_fattura] of the file it wrote
    (however the deletion ends) leaves no invoice record with that file
    name, and the next invoice of the same category in the same year still
    gets the following number. *)
Theorem deleted_number_is_not_reused (env1 env2 env3 : Env) (remove_ok : bool)
  (m1 m3 : Match) (st st1 st3 : Processor) (fn1 fn3 : str) (tot1 tot3 : num) :
  generate_xml env1 m1 st = (Return (fn1, tot1), st1) ->
  generate_xml env3 m3 (snd (delete_fattura remove_ok env2 fn1 st1))
  = (Return (fn3, tot3), st3) ->
  now_year env3 = now_year env1 ->
  has_tyres (m_po m3) = has_tyres (m_po m1) ->
  (forall f, In f (fatture_generate
                     (data (snd (delete_fattura remove_ok env2 fn1 st1)))) ->
             f_filename f <> fn1)
  /\ exists f1 f3,
       fatture_generate (data st1) = fatture_generate (data st) ++ [f1]
       /\ In f3 (fatture_generate (data st3))
       /\ f_filename f1 = fn1 /\ f_filename f3 = fn3
       /\ numero_fattura f3 = numero_fattura f1 + 1.
Proof.
  intros H1 H3 Y B.
  apply generate_xml_return in H1. destruct H1 as (_ & _ & _ & F1 & _ & E1).
  apply generate_xml_return in H3. destruct H3 as (_ & _ & _ & F3 & _ & E3).
  split.
  { intros f. rewrite delete_fattura_data. cbn [with_fatture fatture_generate].
    rewrite filter_In, negb_true_iff. intros [_ N] Q.
    rewrite Q, str_eqb_refl in N. discriminate N. }
  exists (fattura_of env1 m1 (data st)),
         (fattura_of env3 m3 (data (snd (delete_fattura remove_ok env2 fn1 st1)))).
  split; [rewrite E1; reflexivity|].
  split; [rewrite E3; cbn [data data_invoiced fatture_generate];
          apply in_app_iff; right; left; reflexivity|].
  split; [symmetry; exact F1|]. split; [symmetry; exact F3|].
  cbn [fattura_of numero_fattura].
  apply next_number_follows; try assumption.
  rewrite delete_fattura_data. cbn [with_fatture config]. rewrite E1. reflexivity.
Qed.

(** X11. Deleting an invoice reopens its purchase order: once
    [delete_fattura] has removed every invoice record that carries the PO
    number of a document, [process_pdf] no longer reports the document as
    already invoiced, and the purchase order is active afterwards. *)
Theorem deleted_invoice_reopens_order (remove_ok : bool) (env2 env : Env)
  (pdf : Pdf) (filename fn : str) (st : Processor) (doc : PurchaseOrder) :
  detect_type (pdf_text pdf) = Some TPurchaseOrder ->
  parse_purchase_order env (pdf_text pdf) fn = Ok doc ->
  (forall f, In f (fatture_generate (data st)) ->
             f_po_number f = po_number doc -> f_filename f = filename) ->
  let st1 := snd (delete_fattura remove_ok env2 filename st) in
  (forall d0, fst (process_pdf env pdf fn st1)
              <> Return (Some (d0, St_purchase_order_fatturato)))
  /\ In (po_number doc) (po_keys (data (snd (process_pdf env pdf fn st1)))).
Proof.
  intros D P H st1.
  assert (I : py_in (po_number doc) (invoiced_pos (data st1)) = false).
  { apply py_in_not_In. unfold st1, invoiced_pos. rewrite delete_fattura_data.
    cbn [with_fatture fatture_generate]. rewrite in_map_iff.
    intros (f & E & Hf). apply filter_In in Hf. destruct Hf as [Hf N].
    rewrite (H f Hf E), str_eqb_refl in N. discriminate N. }
  rewrite (process_pdf_purchase_order env pdf fn st1 D), P. cbn zeta. rewrite I.
  destruct (py_in (po_number doc) (po_keys (data st1))) eqn:K.
  - cbn [fst snd]. split; [intros d0 Q; discriminate Q|].
    apply py_in_In. exact K.
  - destruct (save_ok env); cbn [fst snd data]; (split; [intros d0 Q; discriminate Q|]);
      rewrite po_keys_append, in_app_iff; right; left; reflexivity.
Qed.

(** X12. An upload undone: when [process_pdf] has added an estimate and no
    other active estimate has its [id], [delete_document] on that [id] gives
    back the data as they were before the upload. *)
Theorem upload_then_delete_restores (env env2 : Env) (pdf : Pdf)
  (filename : str) (st : Processor) :
  detect_type (pdf_text pdf) = Some TPreventivo ->
  let doc := parse_preventivo env (pdf_text pdf) filename (pdf_tables pdf) in
  ~ In (prev_pratica_hertz doc) (invoiced_cases (data st)) ->
  ~ In (prev_pratica_hertz doc) (prev_keys (data st)) ->
  (forall p, In p (preventivi (data st)) -> prev_id p <> now_id env) ->
  In doc (preventivi (data (snd (process_pdf env pdf filename st))))
  /\ data (snd (delete_document env2 (lit "preventivo") (now_id env)
                  (snd (process_pdf env pdf filename st))))
     = data st.
Proof.
  intros D doc I K Hid.
  apply py_in_not_In in I, K.
  rewrite (process_pdf_preventivo env pdf filename st D). cbn zeta. fold doc.
  rewrite I, K.
  assert (F : filter (fun p => negb (str_eqb (prev_id p) (now_id env)))
                     (preventivi (data st) ++ [doc]) = preventivi (data st)).
  { rewrite filter_app. cbn [filter]. 
    change (prev_id doc) with (now_id env). rewrite str_eqb_refl. cbn [negb].
    rewrite app_nil_r. apply forallb_filter_id.
    apply forallb_forall. intros p Hp.
    destruct (str_eqb (prev_id p) (now_id env)) eqn:Q; [|reflexivity].
    apply str_eqb_eq in Q. exfalso. exact (Hid p Hp Q). }
  destruct (save_ok env); cbn [snd]; rewrite delete_document_data;
    cbn [data with_preventivi preventivi purchase_orders fatture_generate config];
    (split; [apply in_app_iff; right; left; reflexivity|]);
    change (str_eqb (lit "preventivo") (lit "preventivo")) with true; cbn iota;
    unfold with_preventivi; cbn [preventivi purchase_orders fatture_generate config];
    rewrite F; destruct (data st); reflexivity.
Qed.

End NumberingExtras.

(* ================================================================== *)
(** * The two generation views *)
(* ================================================================== *)

Lemma str_leb_refl (a : str) : str_leb a a = true.
Proof.
  induction a as [|x a IH]; simpl; [reflexivity|].
  rewrite N.ltb_irrefl. exact IH.
Qed.

Lemma str_leb_total (a b : str) : str_leb a b = false -> str_leb b a = true.
Proof.
  revert b; induction a as [|x a IH]; intros [|y b]; simpl; try discriminate;
    try reflexivity.
  destruct (N.ltb_spec x y); [discriminate|].
  destruct (N.ltb_spec y x); [reflexivity|]. apply IH.
Qed.

Lemma str_leb_trans (a b c : str) :
  str_leb a b = true -> str_leb b c = true -> str_leb a c = true.
Proof.
  revert b c; induction a as [|x a IH]; intros [|y b] [|z c]; simpl;
    try discriminate; try reflexivity.
  destruct (N.ltb_spec x y), (N.ltb_spec y x), (N.ltb_spec y z),
    (N.ltb_spec z y), (N.ltb_spec x z), (N.ltb_spec z x);
    try discriminate; try reflexivity; try lia.
  apply IH.
Qed.

Section Sorting.
Variables (A : Type) (key : A -> str).

Lemma insert_by_perm (x : A) (l : list A) : Permutation (x :: l) (insert_by key x l).
Proof.
  induction l as [|y l IH]; simpl; [apply Permutation_refl|].
  destruct (str_leb (key x) (key y)); [apply Permutation_refl|].
  eapply perm_trans; [apply perm_swap|]. apply perm_skip. exact IH.
Qed.

Lemma insert_by_Forall (P : A -> Prop) (x : A) (l : list A) :
  P x -> Forall P l -> Forall P (insert_by key x l).
Proof.
  intros Hx Hl. induction Hl as [|y l Hy Hl IH]; simpl; [auto|].
  destruct (str_leb (key x) (key y)); auto.
Qed.

Lemma insert_by_sorted (x : A) (l : list A) :
  StronglySorted (by_key key) l -> StronglySorted (by_key key) (insert_by key x l).
Proof.
  induction l as [|y l IH]; simpl; intros S.
  - constructor; [constructor | constructor].
  - inversion S as [|? ? S' F]; subst.
    destruct (str_leb (key x) (key y)) eqn:E.
    + constructor; [exact S|]. constructor; [exact E|].
      eapply Forall_impl; [|exact F]. intros z Hz. unfold by_key in *.
      eapply str_leb_trans; eassumption.
    + constructor; [apply IH; exact S'|].
      apply insert_by_Forall; [|exact F].
      unfold by_key. apply str_leb_total. exact E.
Qed.

Lemma sorted_by_perm (l : list A) : Permutation l (sorted_by key l).
Proof.
  induction l as [|x l IH]; simpl; [constructor|].
  eapply perm_trans; [apply perm_skip; exact IH | apply insert_by_perm].
Qed.

Lemma sorted_by_sorted (l : list A) : StronglySorted (by_key key) (sorted_by key l).
Proof.
  induction l as [|x l IH]; simpl; [constructor|]. apply insert_by_sorted. exact IH.
Qed.

Lemma insert_by_stable (k : str) (x : A) (l : list A) :
  filter (fun a => str_eqb (key a) k) (insert_by key x l)
  = filter (fun a => str_eqb (key a) k) (x :: l).
Proof.
  induction l as [|y l IH]; [reflexivity|]. cbn [insert_by].
  destruct (str_leb (key x) (key y)) eqn:E; [reflexivity|].
  cbn [filter] in *. rewrite IH.
  destruct (str_eqb (key x) k) eqn:X; [|reflexivity].
  destruct (str_eqb (key y) k) eqn:Y; [|reflexivity].
  apply str_eqb_eq in X, Y. rewrite X, Y, str_leb_refl in E. discriminate E.
Qed.

Lemma sorted_by_stable (k : str) (l : list A) :
  filter (fun a => str_eqb (key a) k) (sorted_by key l)
  = filter (fun a => str_eqb (key a) k) l.
Proof.
  induction l as [|x l IH]; [reflexivity|]. cbn [sorted_by].
  rewrite insert_by_stable. cbn [filter]. rewrite IH. reflexivity.
Qed.

(** [sorted_by] is the stable sort: a permutation, ordered by key, elements
    of equal key in their first order. *)
Lemma sorted_by_spec (l : list A) :
  Permutation l (sorted_by key l)
  /\ StronglySorted (by_key key) (sorted_by key l)
  /\ forall k, filter (fun a => str_eqb (key a) k) (sorted_by key l)
               = filter (fun a => str_eqb (key a) k) l.
Proof.
  split; [apply sorted_by_perm|]. split; [apply sorted_by_sorted|].
  intros k. apply sorted_by_stable.
Qed.

End Sorting.

Section ViewExtras.
Context {R : PyRuntime}.

Lemma genera_loop_find (env : Env) (k : str) (ms : list Match) (st : Processor) :
  genera_loop env k ms st =
  match find (fun m => opt_eqb (prev_pratica_hertz (m_preventivo m)) (Some k)) ms with
  | None => (Return GeneraNotFound, st)
  | Some m =>
      match generate_xml env m st with
      | (Return (fn, tot), s) => (Return (GeneraSuccess fn tot), s)
      | (Raise e, s) => (Return (GeneraError e), s)
      end
  end.
Proof.
  induction ms as [|m ms IH]; simpl; [reflexivity|].
  destruct (opt_eqb _ _); [|exact IH].
  rewrite bind_try. destruct (generate_xml env m st) as [[[fn tot]|e] s]; reflexivity.
Qed.

(** X13. The view [genera_fattura] never lets an exception out. It answers
    "not found" and leaves the processor as it is when no reported pair has
    an estimate whose case id is the text of the URL; in particular a pair
    whose estimate has no case id is never generated by it. When it answers
    with a file name, or with an error, that is the outcome of [generate_xml]
    on a reported pair with that case id, and the processor is as that call
    left it. *)
Theorem genera_fattura_selects (env : Env) (k : str) (st : Processor) :
  (exists r st', genera_fattura env k st = (Return r, st'))
  /\ ((forall m, In m (compute_matches (data st)) ->
                 prev_pratica_hertz (m_preventivo m) <> Some k) ->
      genera_fattura env k st = (Return GeneraNotFound, st))
  /\ (forall fn tot st',
        genera_fattura env k st = (Return (GeneraSuccess fn tot), st') ->
        exists m, In m (compute_matches (data st))
                  /\ prev_pratica_hertz (m_preventivo m) = Some k
                  /\ generate_xml env m st = (Return (fn, tot), st'))
  /\ (forall e st',
        genera_fattura env k st = (Return (GeneraError e), st') ->
        exists m, In m (compute_matches (data st))
                  /\ prev_pratica_hertz (m_preventivo m) = Some k
                  /\ generate_xml env m st = (Raise e, st')).
Proof.
  rewrite genera_fattura_unfold, genera_loop_find.
  destruct (find _ (compute_matches (data st))) as [m|] eqn:F.
  - pose proof (find_some _ _ F) as [Hin Hk]. apply opt_eqb_eq in Hk.
    destruct (generate_xml env m st) as [[[fn tot]|e] s] eqn:G.
    + split; [eauto|]. split.
      { intros N. exfalso. exact (N m Hin Hk). }
      split.
      { intros fn' tot' st' Q. inversion Q; subst. exists m. auto. }
      { intros e st' Q. discriminate Q. }
    + split; [eauto|]. split.
      { intros N. exfalso. exact (N m Hin Hk). }
      split.
      { intros fn' tot' st' Q. discriminate Q. }
      { intros e' st' Q. inversion Q; subst. exists m. auto. }
  - split; [eauto|]. split; [reflexivity|].
    split; intros; discriminate.
Qed.

Lemma fattura_key_of (env : Env) (m : Match) (d : Data) :
  fattura_key (fattura_of env m d) = date_key m.
Proof. reflexivity. Qed.

(** What the loop of [genera_tutti] does on matches in date order. *)
Lemma generate_each_spec (env_at : nat -> Env) (ms : list Match) :
  StronglySorted (by_key date_key) ms ->
  forall i st,
  exists generated st' new,
    generate_each env_at i ms st = (Return generated, st')
    /\ fatture_generate (data st') = fatture_generate (data st) ++ new
    /\ StronglySorted (by_key fattura_key) new
    /\ Forall (fun f => exists m, In m ms /\ fattura_key f = date_key m) new
    /\ (List.length generated <= List.length new <= List.length ms)%nat
    /\ ((forall j, save_ok (env_at j) = true) ->
        map (fun f => (f_filename f, f_totale f)) new = generated).
Proof.
  induction ms as [|m ms IH]; intros Srt i st.
  - exists [], st, []. cbn. rewrite app_nil_r.
    repeat split; auto; constructor.
  - inversion Srt as [|? ? S' F]; subst.
    cbn [generate_each]. rewrite bind_try, generate_xml_cases.
    assert (K : forall st1 (f : Fattura) (ft : list (str * num)) b,
      fattura_key f = date_key m ->
      fatture_generate (data st1) = fatture_generate (data st) ++ [f] ->
      (b = true -> ft = [(f_filename f, f_totale f)]) ->
      (b = false -> ft = [] /\ save_ok (env_at i) = false) ->
      exists generated st' new,
        mbind (generate_each env_at (S i) ms)
              (fun g => mret (ft ++ g)) st1 = (Return generated, st')
        /\ fatture_generate (data st') = fatture_generate (data st) ++ new
        /\ StronglySorted (by_key fattura_key) new
        /\ Forall (fun f => exists m0, In m0 (m :: ms) /\ fattura_key f = date_key m0) new
        /\ (List.length generated <= List.length new <= List.length (m :: ms))%nat
        /\ ((forall j, save_ok (env_at j) = true) ->
            map (fun f => (f_filename f, f_totale f)) new = generated)).
    { intros st1 f ft b Kf Ef Ht Hf.
      destruct (IH S' (S i) st1) as (g & st' & new & E & Fa & So & Al & Le & Sv).
      exists (ft ++ g), st', (f :: new).
      split; [unfold mbind, mret; rewrite E; reflexivity|].
      split; [rewrite Fa, Ef, <- app_assoc; reflexivity|].
      split.
      { constructor; [exact So|]. rewrite Forall_forall in Al |- *.
        intros x Hx. destruct (Al x Hx) as (m0 & Hm0 & Kx).
        unfold by_key. rewrite Kf, Kx.
        rewrite Forall_forall in F. exact (F m0 Hm0). }
      split.
      { constructor; [exists m; split; [left; reflexivity | exact Kf]|].
        eapply Forall_impl; [|exact Al]. intros x (m0 & Hm0 & Kx).
        exists m0. split; [right; exact Hm0 | exact Kx]. }
      split.
      { rewrite length_app. cbn [List.length].
        destruct b; [rewrite (Ht eq_refl) | rewrite (proj1 (Hf eq_refl))];
          cbn [List.length]; lia. }
      intros Hs. cbn [map]. rewrite (Sv Hs).
      destruct b; [rewrite (Ht eq_refl); reflexivity|].
      destruct (Hf eq_refl) as [_ Q]. rewrite Hs in Q. discriminate Q. }
    assert (K0 : forall st1,
      fatture_generate (data st1) = fatture_generate (data st) ->
      exists generated st' new,
        mbind (generate_each env_at (S i) ms)
              (fun g => mret g) st1 = (Return generated, st')
        /\ fatture_generate (data st') = fatture_generate (data st) ++ new
        /\ StronglySorted (by_key fattura_key) new
        /\ Forall (fun f => exists m0, In m0 (m :: ms) /\ fattura_key f = date_key m0) new
        /\ (List.length generated <= List.length new <= List.length (m :: ms))%nat
        /\ ((forall j, save_ok (env_at j) = true) ->
            map (fun f => (f_filename f, f_totale f)) new = generated)).
    { intros st1 Ef.
      destruct (IH S' (S i) st1) as (g & st' & new & E & Fa & So & Al & Le & Sv).
      exists g, st', new.
      split; [unfold mbind, mret; rewrite E; reflexivity|].
      split; [rewrite Fa, Ef; reflexivity|].
      split; [exact So|].
      split.
      { eapply Forall_impl; [|exact Al]. intros x (m0 & Hm0 & Kx).
        exists m0. split; [right; exact Hm0 | exact Kx]. }
      split; [cbn [List.length]; lia | exact Sv]. }
    destruct (xml_ok (env_at i)); [|cbn beta iota; apply K0; reflexivity].
    destruct (write_ok (env_at i)); [|cbn beta iota; apply K0; reflexivity].
    destruct (save_ok (env_at i)) eqn:Sv; cbn beta iota.
    + apply (K _ (fattura_of (env_at i) m (data st))
               [(f_filename (fattura_of (env_at i) m (data st)),
                 invoice_total (m_preventivo m))] true);
        [reflexivity | reflexivity | reflexivity | discriminate].
    + apply (K _ (fattura_of (env_at i) m (data st)) [] false);
        [reflexivity | reflexivity | discriminate | auto].
Qed.

(** X14. The view [genera_tutti] never lets an exception out. The invoice
    records it adds come in the order of the dates of their purchase orders,
    those without date last, as the key of its [sorted] orders them. It
    reports at most as many files as it added records, and adds at most one
    record per reported pair; when no [save_data] fails, the files and totals
    it reports are exactly those of the records added. *)
Theorem genera_tutti_in_date_order (env_at : nat -> Env) (st : Processor) :
  exists generated st' new,
    genera_tutti env_at st = (Return generated, st')
    /\ fatture_generate (data st') = fatture_generate (data st) ++ new
    /\ StronglySorted (by_key fattura_key) new
    /\ (List.length generated <= List.length new)%nat
    /\ (List.length new <= List.length (compute_matches (data st)))%nat
    /\ ((forall j, save_ok (env_at j) = true) ->
        map (fun f => (f_filename f, f_totale f)) new = generated).
Proof.
  rewrite genera_tutti_unfold.
  destruct (generate_each_spec env_at
              (sorted_by_sorted date_key (compute_matches (data st))) 0 st)
    as (g & st' & new & E & Fa & So & _ & Le & Sv).
  exists g, st', new.
  rewrite <- (Permutation_length (sorted_by_perm date_key (compute_matches (data st)))) in Le.
  repeat split; try assumption; lia.
Qed.

End ViewExtras.

Lemma pad2_months :
  forallb (fun m => match pad_num 2 (Z.of_nat m) with
                    | [a; b] => (a <? 57)%N && is_digit a && is_digit b
                    | _ => false
                    end) (seq 1 (Z.to_nat 12)) = true.
Proof. vm_compute. reflexivity. Qed.

Lemma try_formats_some (fmts : list str) (s r : str) :
  try_formats fmts s = Some r ->
  exists d, valid_date d = true /\ r = strftime_ymd d.
Proof.
  induction fmts as [|f fmts IH]; simpl; [discriminate|].
  destruct (strptime s f) as [d|] eqn:E; [|exact IH].
  intros H; inversion H; subst. exists d. split; [|reflexivity].
  eapply strptime_valid; eassumption.
Qed.

Lemma extract_date_some (text d : str) :
  extract_date text = Some d ->
  exists dd, valid_date dd = true /\ d = strftime_ymd dd.
Proof.
  unfold extract_date.
  generalize (Re.re_search re_date_token text) as o2.
  generalize (Re.re_search re_date_labeled text) as o1.
  assert (N : forall s r, normalize_date s = Some r ->
                exists dd, valid_date dd = true /\ r = strftime_ymd dd).
  { intros s r. rewrite normalize_date_unfold. apply try_formats_some. }
  intros [s1|] o2.
  - destruct (normalize_date s1) as [r1|] eqn:E1.
    + rewrite (@canonical_truthy r1 (@normalize_canonical s1 r1 E1)).
      intros H; inversion H; subst. eapply N; eassumption.
    + cbn [truthy]. destruct o2 as [s2|]; [|discriminate].
      destruct (normalize_date s2) as [r2|] eqn:E2; [|discriminate].
      intros H; inversion H; subst. eapply N; eassumption.
  - cbn [truthy]. destruct o2 as [s2|]; [|discriminate].
    destruct (normalize_date s2) as [r2|] eqn:E2; [|discriminate].
    intros H; inversion H; subst. eapply N; eassumption.
Qed.

(** A real date sorts strictly before the key of the orders without date. *)
Lemma date_before_sentinel (d : date) :
  valid_date d = true ->
  str_leb (strftime_ymd d) (lit "9999-99-99") = true
  /\ str_leb (lit "9999-99-99") (strftime_ymd d) = false.
Proof.
  intros V. pose proof V as V0.
  unfold valid_date in V. rewrite !andb_true_iff, !Z.leb_le in V.
  destruct V as [[[[[Hy1 Hy2] Hm1] Hm2] Hd1] Hd2].
  assert (Y : digits_exactly 4 (pad_num 4 (year d)) = true) by (apply pad4_ok; lia).
  assert (Mo : match pad_num 2 (month d) with
               | [a; b] => (a <? 57)%N && is_digit a && is_digit b
               | _ => false
               end = true).
  { pose proof pad2_months as A. rewrite forallb_forall in A.
    specialize (A (Z.to_nat (month d))). rewrite Z2Nat.id in A by lia.
    apply A. apply in_seq. lia. }
  unfold strftime_ymd.
  destruct (pad_num 4 (year d)) as [|y1 [|y2 [|y3 [|y4 [|? ?]]]]]; try discriminate Y.
  destruct (pad_num 2 (month d)) as [|m1 [|m2 [|? ?]]]; try discriminate Mo.
  unfold digits_exactly in Y. cbn [List.length Nat.eqb forallb andb] in Y.
  rewrite !andb_true_iff in Y, Mo. unfold is_digit in Y.
  rewrite !andb_true_iff, !N.leb_le in Y. rewrite N.ltb_lt in Mo.
  destruct Y as ((_ & Y1) & (_ & Y2) & (_ & Y3) & (_ & Y4) & _).
  destruct Mo as ((Mo & _) & _).
  change (lit "9999-99-99")
    with [57%N; 57%N; 57%N; 57%N; 45%N; 57%N; 57%N; 45%N; 57%N; 57%N].
  change (lit "-") with [45%N]. cbn [app str_leb].
  assert (L : forall x, (x <= 57)%N ->
                ((x <? 57)%N = true) \/ ((x <? 57)%N = false /\ (57 <? x)%N = false)).
  { intros x Hx. destruct (N.ltb_spec x 57); [auto|]. right. split; [reflexivity|].
    apply N.ltb_ge. exact Hx. }
  assert (G : forall x, (x <? 57)%N = true -> (57 <? x)%N = false).
  { intros x Hx. apply N.ltb_lt in Hx. apply N.ltb_ge. lia. }
  assert (M1 : (m1 <? 57)%N = true) by (apply N.ltb_lt; exact Mo).
  destruct (L y1 Y1) as [A1|[A1 B1]]; rewrite A1; [rewrite (G y1 A1); auto|rewrite B1].
  destruct (L y2 Y2) as [A2|[A2 B2]]; rewrite A2; [rewrite (G y2 A2); auto|rewrite B2].
  destruct (L y3 Y3) as [A3|[A3 B3]]; rewrite A3; [rewrite (G y3 A3); auto|rewrite B3].
  destruct (L y4 Y4) as [A4|[A4 B4]]; rewrite A4; [rewrite (G y4 A4); auto|rewrite B4].
  cbn [N.ltb N.compare Pos.compare Pos.compare_cont].
  rewrite M1, (G m1 M1). auto.
Qed.

Section ViewExtras2.
Context {R : PyRuntime}.

(** X15. In [genera_tutti] a purchase order that was parsed with a date
    always comes strictly before one without date: its sort key is below the
    key ['9999-99-99'] of the undated ones, and not the other way round. *)
Theorem dated_orders_come_first (env : Env) (text filename : str)
  (po po' : PurchaseOrder) (p p' : Preventivo) (d : str) :
  parse_purchase_order env text filename = Ok po ->
  po_date po = Some d ->
  po_date po' = None ->
  str_leb (date_key (mkMatch p po)) (date_key (mkMatch p' po')) = true
  /\ str_leb (date_key (mkMatch p' po')) (date_key (mkMatch p po)) = false.
Proof.
  intros H D N.
  assert (E : po_date po = extract_date text).
  { unfold parse_purchase_order in H.
    destruct (Re.re_search re_total text) as [g|].
    - destruct (py_float g); [|discriminate]. inversion H; reflexivity.
    - inversion H; reflexivity. }
  rewrite D in E. symmetry in E.
  destruct (extract_date_some _ E) as (dd & V & ->).
  pose proof (strftime_canonical dd V) as C. apply canonical_truthy in C.
  unfold date_key, or_default. cbn [m_po]. rewrite D, N, C. cbn [truthy cell_text].
  apply date_before_sentinel. exact V.
Qed.


End ViewExtras2.

Lemma filter_length_perm {A} (f : A -> bool) (l l' : list A) :
  Permutation l l' -> List.length (filter f l) = List.length (filter f l').
Proof.
  intros P. induction P; simpl; try congruence.
  - destruct (f x); simpl; congruence.
  - destruct (f x), (f y); reflexivity.
Qed.

Section BatchWithoutFailures.
Context {R : PyRuntime}.

Lemma generate_each_all_ok (env_at : nat -> Env) (y : Z) (ms : list Match) :
  (forall j, xml_ok (env_at j) = true /\ write_ok (env_at j) = true
             /\ save_ok (env_at j) = true /\ now_year (env_at j) = y) ->
  forall i st,
  cfg_year (config (data st)) = y ->
  exists generated st' new,
    generate_each env_at i ms st = (Return generated, st')
    /\ fatture_generate (data st') = fatture_generate (data st) ++ new
    /\ Forall2 invoice_for new ms
    /\ generated = map (fun f => (f_filename f, f_totale f)) new
    /\ last_number_hg (config (data st'))
       = last_number_hg (config (data st)) + count_tyres ms
    /\ last_number_hm (config (data st'))
       = last_number_hm (config (data st)) + count_other ms
    /\ cfg_year (config (data st')) = y.
Proof.
  intros H. induction ms as [|m ms IH]; intros i st Y.
  - exists [], st, []. cbn. rewrite app_nil_r. unfold count_tyres, count_other.
    cbn. repeat split; auto; try constructor; lia.
  - destruct (H i) as (X & W & Sv & Yi).
    cbn [generate_each]. rewrite bind_try, generate_xml_cases, X, W, Sv.
    cbn beta iota.
    set (st1 := mkProcessor (data_invoiced (env_at i) m (data st))
                            (data_invoiced (env_at i) m (data st))).
    destruct (numbering_spec (env_at i) m (data st)) as (Y1 & T & F).
    cbn zeta in T, F. rewrite Yi, Y, Z.eqb_refl in T, F.
    assert (Y1' : cfg_year (config (data st1)) = y) by (cbn; rewrite Y1; exact Yi).
    destruct (IH (S i) st1 Y1') as (g & st' & new & E & Fa & F2 & G & Hg & Hm & Yf).
    exists ((f_filename (fattura_of (env_at i) m (data st)),
             invoice_total (m_preventivo m)) :: g), st',
           (fattura_of (env_at i) m (data st) :: new).
    split; [unfold mbind, mret; rewrite E; reflexivity|].
    split; [rewrite Fa; cbn [st1 data data_invoiced fatture_generate];
            rewrite <- app_assoc; reflexivity|].
    split; [constructor; [repeat split | exact F2]|].
    split; [cbn [map]; rewrite G; reflexivity|].
    cbn [st1 data data_invoiced config] in Hg, Hm.
    unfold count_tyres, count_other in *. cbn [filter].
    destruct (has_tyres (m_po m)) eqn:B; cbn [negb List.length].
    + destruct (T eq_refl) as (_ & _ & A1 & A2).
      rewrite Hg, Hm, A1, A2. repeat split; try exact Yf; lia.
    + destruct (F eq_refl) as (_ & _ & A1 & A2).
      rewrite Hg, Hm, A1, A2. repeat split; try exact Yf; lia.
Qed.

(** X17. When nothing fails and the year does not change, [genera_tutti]
    issues one invoice for every reported pair: the records added are those
    of the pairs taken in date order (a stable rearrangement of the pairs),
    the files it reports are theirs, and the two counters grow by the number
    of pairs with tyres and without. *)
Theorem genera_tutti_without_failures (env_at : nat -> Env) (y : Z)
  (st : Processor) :
  (forall j, xml_ok (env_at j) = true /\ write_ok (env_at j) = true
             /\ save_ok (env_at j) = true /\ now_year (env_at j) = y) ->
  cfg_year (config (data st)) = y ->
  let ms := compute_matches (data st) in
  exists generated st' new,
    genera_tutti env_at st = (Return generated, st')
    /\ fatture_generate (data st') = fatture_generate (data st) ++ new
    /\ Forall2 invoice_for new (sorted_by date_key ms)
    /\ Permutation ms (sorted_by date_key ms)
    /\ StronglySorted (by_key date_key) (sorted_by date_key ms)
    /\ (forall k, filter (fun m => str_eqb (date_key m) k) (sorted_by date_key ms)
                  = filter (fun m => str_eqb (date_key m) k) ms)
    /\ generated = map (fun f => (f_filename f, f_totale f)) new
    /\ List.length generated = List.length ms
    /\ last_number_hg (config (data st'))
       = last_number_hg (config (data st)) + count_tyres ms
    /\ last_number_hm (config (data st'))
       = last_number_hm (config (data st)) + count_other ms.
Proof.
  intros H Y ms. rewrite genera_tutti_unfold. fold ms.
  destruct (generate_each_all_ok env_at (sorted_by date_key ms) H 0 st Y)
    as (g & st' & new & E & Fa & F2 & G & Hg & Hm & _).
  destruct (sorted_by_spec date_key ms) as (P & S & St).
  exists g, st', new.
  split; [exact E|]. split; [exact Fa|]. split; [exact F2|].
  split; [exact P|]. split; [exact S|]. split; [exact St|].
  split; [exact G|].
  split.
  { rewrite G, length_map, (Forall2_length F2). symmetry.
    apply Permutation_length. exact P. }
  unfold count_tyres, count_other in *.
  rewrite (filter_length_perm _ P), (filter_length_perm (fun m => negb (has_tyres (m_po m))) P).
  split; assumption.
Qed.

End BatchWithoutFailures.

(* ------------------------------------------------------------------ *)
(** ** Items taken from tables *)
(* ------------------------------------------------------------------ *)

Lemma flat_map_nil {A B} (f : A -> list B) (l : list A) :
  (forall x, In x l -> f x = []) -> flat_map f l = [].
Proof.
  induction l as [|a l IH]; intros H; simpl; [reflexivity|].
  rewrite (H a) by (left; reflexivity). apply IH.
  intros x Hx. apply H. right. exact Hx.
Qed.

Lemma filter_all_false {A} (f : A -> bool) (l : list A) :
  (forall x, In x l -> f x = false) -> filter f l = [].
Proof.
  induction l as [|a l IH]; intros H; simpl; [reflexivity|].
  rewrite (H a) by (left; reflexivity). apply IH.
  intros x Hx. apply H. right. exact Hx.
Qed.

Lemma starts_with_prefix (a b s : str) :
  starts_with (a ++ b) s = true -> starts_with a s = true.
Proof.
  revert s. induction a as [|x a IH]; intros s H; [reflexivity|].
  destruct s as [|y s]; simpl in *; [discriminate|].
  apply andb_true_iff in H. destruct H as [E H].
  rewrite E. simpl. apply IH. exact H.
Qed.

(** When [p] starts [d ++ t] it starts [d], or [d] is a proper beginning of
    [p] and the rest of [p] starts [t]. *)
Lemma starts_with_split (p d t : str) :
  starts_with p (d ++ t) = true ->
  starts_with p d = true
  \/ exists k, (k < List.length p)%nat /\ d = firstn k p
               /\ starts_with (skipn k p) t = true.
Proof.
  revert d. induction p as [|x p IH]; intros d H; [left; reflexivity|].
  destruct d as [|y d].
  - right. exists 0%nat. simpl. split; [lia|]. split; [reflexivity | exact H].
  - simpl in H. apply andb_true_iff in H. destruct H as [E H].
    unfold chr_eqb in E. apply N.eqb_eq in E. subst y.
    destruct (IH d H) as [L | (k & Hk & D & Hs)].
    + left. simpl. unfold chr_eqb. rewrite N.eqb_refl. exact L.
    + right. exists (S k). simpl. split; [lia|]. split; [congruence | exact Hs].
Qed.

Section TableItems.
Context {R : PyRuntime}.

Lemma extract_item_short (raw : row) :
  num_gtb num_zero num_zero = false ->
  (List.length raw < 25)%nat ->
  extract_item raw = None.
Proof.
  intros Z L. unfold extract_item. cbv zeta.
  rewrite (@nth_overflow _ (map cell_text raw) 24 [])
    by (rewrite length_map; lia).
  cbn [parse_num]. rewrite Z.
  repeat match goal with
         | |- context [if ?b then _ else _] => destruct b
         end; reflexivity.
Qed.

(** X18. A table row gives an item only if it has at least 25 cells: the
    total is read from the 25th, and a row without it has total 0. So the
    rows of 20 to 24 cells, which the length test lets through, never give
    an item (given that [0 > 0] is false). *)
Theorem short_rows_give_no_item (tables : list table) :
  num_gtb num_zero num_zero = false ->
  (forall t raw, In t tables -> In raw t -> (List.length raw < 25)%nat) ->
  _extract_items_from_table tables = [].
Proof.
  intros Z H. unfold _extract_items_from_table.
  apply flat_map_nil. intros t Ht.
  apply flat_map_nil. intros raw Hraw.
  rewrite (extract_item_short raw Z (H t raw Ht Hraw)). reflexivity.
Qed.

(** A description taken from a table does not start as a synthetic item
    does: its text has none of the skipped keywords, and what follows it is
    [" - C.R: "]. *)
Lemma table_description_not_synthetic (label d c : str) :
  In label synthetic_labels ->
  existsb (fun kw => contains kw d) skipped_keywords = false ->
  starts_with label d = false
  /\ starts_with label (d ++ lit " - C.R: " ++ c) = false.
Proof.
  intros Hl Hk.
  assert (Sm : contains (lit "Smaltimento") d = false
               /\ contains (lit "Manodopera") d = false).
  { unfold skipped_keywords in Hk. cbn [existsb] in Hk.
    repeat (apply orb_false_iff in Hk; destruct Hk as [? Hk]).
    split; assumption. }
  destruct Sm as [Sm Ma].
  assert (D : starts_with label d = false).
  { destruct (starts_with label d) eqn:E; [|reflexivity].
    unfold synthetic_labels, labor_kinds in Hl. cbn [In map] in Hl.
    destruct Hl as [<-|[<-|[<-|[<-|[]]]]].
    - apply starts_with_contains in E. congruence.
    - change (lit "Manodopera " ++ lit "meccanica")
        with (lit "Manodopera" ++ lit " meccanica") in E.
      apply starts_with_prefix, starts_with_contains in E. congruence.
    - change (lit "Manodopera " ++ lit "carrozzeria")
        with (lit "Manodopera" ++ lit " carrozzeria") in E.
      apply starts_with_prefix, starts_with_contains in E. congruence.
    - change (lit "Manodopera " ++ lit "verniciatura")
        with (lit "Manodopera" ++ lit " verniciatura") in E.
      apply starts_with_prefix, starts_with_contains in E. congruence. }
  split; [exact D|].
  destruct (starts_with label (d ++ lit " - C.R: " ++ c)) eqn:E; [|reflexivity].
  apply starts_with_split in E. destruct E as [E | (k & Hk' & Hd & Hs)];
    [congruence|].
  subst d.
  unfold synthetic_labels, labor_kinds in Hl. cbn [In map] in Hl.
  destruct Hl as [<-|[<-|[<-|[<-|[]]]]];
    (do 23 (destruct k as [|k];
            [first [ cbv in Hs; discriminate Hs
                   | vm_compute in Sm; discriminate Sm
                   | vm_compute in Ma; discriminate Ma ]|]));
    vm_compute in Hk'; lia.
Qed.

Lemma extract_item_not_synthetic (label : str) (raw : row) (i : Item) :
  In label synthetic_labels ->
  extract_item raw = Some i ->
  starts_with label (description i) = false.
Proof.
  intros Hl. unfold extract_item. cbv zeta.
  destruct (List.length raw <? 20)%nat; [discriminate|].
  destruct (is_header_row (map cell_text raw)); [discriminate|].
  destruct (negb (truthy (strip_or_none (nth 1 (map cell_text raw) []))));
    [discriminate|].
  destruct (existsb _ skipped_keywords) eqn:K; [discriminate|].
  destruct (@table_description_not_synthetic label _
              (cell_text (strip_or_none (nth 0 (map cell_text raw) []))) Hl K)
    as [A B].
  intros H.
  repeat match type of H with
         | context [if ?b then _ else _] => destruct b eqn:?; try discriminate H
         | context [match ?o with Some _ => _ | None => _ end] =>
             destruct o eqn:?; try discriminate H
         end;
    inversion H; subst; cbn [description]; assumption.
Qed.

Lemma table_items_not_synthetic (label : str) (tables : list table) :
  In label synthetic_labels ->
  count_starts label (_extract_items_from_table tables) = 0%nat.
Proof.
  intros Hl. unfold count_starts.
  rewrite filter_all_false; [reflexivity|].
  intros i. unfold _extract_items_from_table.
  rewrite in_flat_map. intros (t & _ & Hi).
  apply in_flat_map in Hi. destruct Hi as (raw & _ & Hi).
  destruct (extract_item raw) as [j|] eqn:E; simpl in Hi; [|contradiction].
  destruct Hi as [<-|[]]. eapply extract_item_not_synthetic; eassumption.
Qed.

(** X19. No parsed estimate has two disposal-fee items or two labor items of
    one category: no item taken from a table has a description that starts
    with ["Smaltimento"] or ["Manodopera <category>"], so in the whole item
    list at most one item starts with each of them. *)
Theorem one_item_per_synthetic_label (env : Env) (text filename : str)
  (tables : list table) (label : str) :
  In label synthetic_labels ->
  count_starts label (_extract_items_from_table tables) = 0%nat
  /\ (count_starts label (items (parse_preventivo env text filename tables))
      <= 1)%nat.
Proof.
  intros Hl.
  pose proof (@table_items_not_synthetic label tables Hl) as T0.
  split; [exact T0|].
  pose proof (add_smaltimento_careful text (_extract_items_from_table tables) Hl)
    as C1.
  pose proof (add_manodopera_all_careful tables
                (add_smaltimento text (_extract_items_from_table tables)) Hl)
    as C2.
  unfold careful_step in C1, C2. unfold parse_preventivo. cbn [items]. lia.
Qed.

End TableItems.

Section DeleteAll.
Context {R : PyRuntime}.

(** X20. [delete_all_fatture] never lets an exception out and always empties
    the invoice list in memory, so that no PO number counts as invoiced any
    more; it leaves estimates, purchase orders and counters alone, so the
    next invoice continues the numbering instead of starting again. It
    reports the number of records there were exactly when the save goes
    through; when the save fails it answers with the error and the saved
    copy is the one from before. *)
Theorem delete_all_keeps_numbering (env env' : Env) (m : Match)
  (st : Processor) :
  let r := delete_all_fatture env st in
  fatture_generate (data (snd r)) = []
  /\ (forall k, is_po_invoiced (data (snd r)) k = false)
  /\ preventivi (data (snd r)) = preventivi (data st)
  /\ purchase_orders (data (snd r)) = purchase_orders (data st)
  /\ config (data (snd r)) = config (data st)
  /\ number_issued env' m (data (snd r)) = number_issued env' m (data st)
  /\ (if save_ok env
      then fst r = Return (DeleteAllSuccess
                             (List.length (fatture_generate (data st))))
           /\ saved (snd r) = data (snd r)
      else fst r = Return (DeleteAllError OSError)
           /\ saved (snd r) = saved st).
Proof.
  intros r. subst r.
  pose proof (delete_all_fatture_data env st) as D.
  rewrite D. cbn [with_fatture fatture_generate preventivi purchase_orders config].
  do 5 (split; [reflexivity|]).
  split; [reflexivity|].
  unfold delete_all_fatture. unfold mbind at 1. cbn [get_data]. rewrite bind_try.
  unfold mbind, get_data, set_data, save_data, mret.
  destruct (save_ok env); split; reflexivity.
Qed.

End DeleteAll.

(* ================================================================== *)
(** * Runs of the properties on concrete data *)
(* ================================================================== *)



(** A run of X4 on an estimate with a disposal fee in its text. *)
Lemma synthetic_items_not_doubled_witness :
  In (lit "Smaltimento") synthetic_labels
  /\ exists synthetic,
       items (parse_preventivo (R := Exact.runtime) Run.env_ok Run.text_fee_500
                (lit "a.pdf") [])
       = _extract_items_from_table [] ++ synthetic
       /\ (count_starts (lit "Smaltimento") synthetic <= 1)%nat.
Proof.
  assert (H : In (lit "Smaltimento") synthetic_labels) by (left; reflexivity).
  split; [exact H|].
  exact (@synthetic_items_not_doubled Exact.runtime Run.env_ok Run.text_fee_500
           (lit "a.pdf") [] (lit "Smaltimento") H).
Defined.

(** A run of X8 on two estimates and their purchase orders. *)
Lemma well_formed_matches_witness :
  well_formed (data Run3.st_pair)
  /\ exists s, get_stats Run3.st_pair = (Return s, Run3.st_pair)
               /\ matches s = claimed_matches (data Run3.st_pair).
Proof.
  assert (W : well_formed (data Run3.st_pair)).
  { unfold well_formed.
    split; [constructor; [simpl; intros [E|[]]; vm_compute in E; discriminate E
                         | constructor; [intros [] | constructor]]|].
    split; [constructor; [simpl; intros [E|[]]; vm_compute in E; discriminate E
                         | constructor; [intros [] | constructor]]|].
    split; [intros k _ []|]. split; [intros k _ []|].
    split; [simpl; lia|]. split; [simpl; lia|]. intros f []. }
  split; [exact W|].
  exact (proj2 (@well_formed_matches Exact.runtime Run3.st_pair W)).
Defined.

(** A run of X9: a second invoice of the category of [Run.fattura_old]. *)
Lemma numbers_do_not_collide_witness :
  numbers_bounded (data Run.st_two_pos)
  /\ exists fn tot st' new,
       generate_xml Run.env_ok (mkMatch Run.est_1001 Run.po_new) Run.st_two_pos
       = (Return (fn, tot), st')
       /\ fatture_generate (data st') = [Run.fattura_old] ++ [new]
       /\ numero_fattura Run.fattura_old < numero_fattura new.
Proof.
  assert (B : numbers_bounded (data Run.st_two_pos))
    by (intros f [<-|[]]; cbn; lia).
  split; [exact B|].
  destruct (@numbers_do_not_collide Exact.runtime Run.env_ok
              (mkMatch Run.est_1001 Run.po_new) Run.st_two_pos B eq_refl)
    as [_ K].
  pose proof (generate_xml_cases Run.env_ok (mkMatch Run.est_1001 Run.po_new)
                Run.st_two_pos) as G.
  cbn [xml_ok write_ok save_ok Run.env_ok Run.clock] in G.
  destruct (K _ _ _ G) as (new & E & L).
  eexists _, _, _, new. split; [exact G|]. split; [exact E|].
  apply L; [left; reflexivity|].
  cbn in E. injection E as <-. reflexivity.
Defined.

(** A run of X10: the invoice of [Run.the_match] is deleted, the next one
    gets number 2. *)
Lemma deleted_number_is_not_reused_witness :
  exists fn1 tot1 st1 fn3 tot3 st3 f1 f3,
    generate_xml Run.env_ok Run.the_match Run.st0 = (Return (fn1, tot1), st1)
    /\ generate_xml Run.env_ok Run.the_match
         (snd (delete_fattura true Run.env_ok fn1 st1))
       = (Return (fn3, tot3), st3)
    /\ fatture_generate (data (snd (delete_fattura true Run.env_ok fn1 st1))) = []
    /\ fatture_generate (data st1) = [] ++ [f1]
    /\ In f3 (fatture_generate (data st3))
    /\ numero_fattura f3 = numero_fattura f1 + 1.
Proof.
  pose proof (generate_xml_cases Run.env_ok Run.the_match Run.st0) as G1.
  cbn [xml_ok write_ok save_ok Run.env_ok Run.clock] in G1.
  match type of G1 with _ = (Return (?fn, ?tot), ?st) =>
    set (fn1 := fn) in *; set (tot1 := tot) in *; set (st1 := st) in * end.
  pose proof (generate_xml_cases Run.env_ok Run.the_match
                (snd (delete_fattura true Run.env_ok fn1 st1))) as G3.
  cbn [xml_ok write_ok save_ok Run.env_ok Run.clock] in G3.
  destruct (@deleted_number_is_not_reused Exact.runtime Run.env_ok Run.env_ok
              Run.env_ok true Run.the_match Run.the_match Run.st0 st1 _
              fn1 _ tot1 _ G1 G3 eq_refl eq_refl)
    as (_ & f1 & f3 & E1 & I3 & _ & _ & N).
  eexists fn1, tot1, st1, _, _, _, f1, f3.
  split; [exact G1|]. split; [exact G3|]. split; [reflexivity|].
  split; [exact E1|]. split; [exact I3 | exact N].
Defined.

(** A run of X11: the purchase order of the deleted invoice is uploaded
    again. *)
Lemma deleted_invoice_reopens_order_witness :
  detect_type (R := Exact.runtime) (pdf_text Run3.pdf_po) = Some TPurchaseOrder
  /\ is_po_invoiced (data Run3.st_invoiced) (po_number Run2.po_parsed) = true
  /\ In (po_number Run2.po_parsed)
        (po_keys (data (snd (process_pdf Run.env_ok Run3.pdf_po (lit "po.pdf")
                               (snd (delete_fattura true Run.env_ok
                                       Run3.file_1001 Run3.st_invoiced)))))).
Proof.
  assert (D : detect_type (R := Exact.runtime) (pdf_text Run3.pdf_po)
              = Some TPurchaseOrder) by (vm_compute; reflexivity).
  assert (P : parse_purchase_order (R := Exact.runtime) Run.env_ok
                (pdf_text Run3.pdf_po) (lit "po.pdf") = Ok Run2.po_parsed)
    by reflexivity.
  assert (F : forall f, In f (fatture_generate (data Run3.st_invoiced)) ->
                        f_po_number f = po_number Run2.po_parsed ->
                        f_filename f = Run3.file_1001).
  { intros f [<-|[]] _. vm_compute. reflexivity. }
  split; [exact D|]. split; [vm_compute; reflexivity|].
  exact (proj2 (@deleted_invoice_reopens_order Exact.runtime true Run.env_ok
                  Run.env_ok Run3.pdf_po Run3.file_1001 (lit "po.pdf")
                  Run3.st_invoiced Run2.po_parsed D P F)).
Defined.

(** A run of X12: an estimate of case 1001 is uploaded beside the case 1002
    and deleted again. *)
Lemma upload_then_delete_restores_witness :
  detect_type (R := Exact.runtime) (pdf_text Run.pdf_1001) = Some TPreventivo
  /\ data (snd (delete_document Run.env_ok (lit "preventivo") (now_id Run.env_ok)
                  (snd (process_pdf Run.env_ok Run.pdf_1001 (lit "a.pdf")
                          Run3.st_1002))))
     = data Run3.st_1002.
Proof.
  assert (D : detect_type (R := Exact.runtime) (pdf_text Run.pdf_1001)
              = Some TPreventivo) by (vm_compute; reflexivity).
  split; [exact D|].
  refine (proj2 (@upload_then_delete_restores Exact.runtime Run.env_ok Run.env_ok
                   Run.pdf_1001 (lit "a.pdf") Run3.st_1002 D _ _ _)).
  - simpl. intros [].
  - simpl. intros [E|[]]. vm_compute in E. discriminate E.
  - intros p [<-|[]] E. vm_compute in E. discriminate E.
Defined.

(** A run of X15: the dated order of [Run2.po_text] against an undated
    one. *)
Lemma dated_orders_come_first_witness :
  parse_purchase_order (R := Exact.runtime) Run.env_ok Run2.po_text (lit "po.pdf")
  = Ok Run2.po_parsed
  /\ str_leb (date_key (mkMatch Run.est_1001 Run2.po_parsed))
             (date_key (mkMatch Run.est_1001 Run.po_new)) = true
  /\ str_leb (date_key (mkMatch Run.est_1001 Run.po_new))
             (date_key (mkMatch Run.est_1001 Run2.po_parsed)) = false.
Proof.
  assert (H : parse_purchase_order (R := Exact.runtime) Run.env_ok Run2.po_text
                (lit "po.pdf") = Ok Run2.po_parsed) by reflexivity.
  split; [exact H|].
  exact (@dated_orders_come_first Exact.runtime Run.env_ok Run2.po_text
           (lit "po.pdf") Run2.po_parsed Run.po_new Run.est_1001 Run.est_1001
           (lit "2024-12-25") H eq_refl eq_refl).
Defined.

(** A run of X17 on two cases: the order of 30/11/2024, for tyres, is
    invoiced before the one of 25/12/2024. *)
Lemma genera_tutti_without_failures_witness :
  exists generated st' f1 f2,
    genera_tutti (fun _ => Run.env_ok) Run3.st_pair = (Return generated, st')
    /\ fatture_generate (data st') = [f1; f2]
    /\ f_pratica_hertz f1 = Some (lit "1002")
    /\ f_pratica_hertz f2 = Some (lit "1001")
    /\ List.length generated = 2%nat
    /\ last_number_hg (config (data st')) = 1
    /\ last_number_hm (config (data st')) = 1.
Proof.
  destruct (@genera_tutti_without_failures Exact.runtime (fun _ => Run.env_ok)
              2025 Run3.st_pair
              (fun _ => conj eq_refl (conj eq_refl (conj eq_refl eq_refl)))
              eq_refl)
    as (g & st' & new & E & Fa & F2 & _ & _ & _ & _ & L & Hg & Hm).
  assert (S : sorted_by date_key (compute_matches (data Run3.st_pair))
              = [mkMatch Run3.est_1002 Run3.po_1002; Run.the_match])
    by reflexivity.
  rewrite S in F2.
  inversion F2 as [|f1 m1 l1 l1' R1 F2' E1 E2]; subst.
  inversion F2' as [|f2 m2 l2 l2' R2 F2'' E3 E4]; subst.
  inversion F2''; subst.
  exists g, st', f1, f2.
  split; [exact E|]. split; [exact Fa|].
  split; [exact (proj1 (proj2 R1))|]. split; [exact (proj1 (proj2 R2))|].
  split; [exact L|]. split; [exact Hg | exact Hm].
Defined.

(** A run of X13: the case 1001 is found and invoiced, the case 9999 is
    not found. *)
Lemma genera_fattura_selects_witness :
  (exists fn tot st',
     genera_fattura Run.env_ok (lit "1001") Run.st0
     = (Return (GeneraSuccess fn tot), st')
     /\ generate_xml Run.env_ok Run.the_match Run.st0 = (Return (fn, tot), st'))
  /\ genera_fattura Run.env_ok (lit "9999") Run.st0
     = (Return GeneraNotFound, Run.st0).
Proof.
  assert (C : compute_matches (data Run.st0) = [Run.the_match]) by reflexivity.
  split.
  - destruct (@genera_fattura_selects Exact.runtime Run.env_ok (lit "1001") Run.st0)
      as (_ & _ & K & _).
    assert (G : genera_fattura Run.env_ok (lit "1001") Run.st0
                = (Return (GeneraSuccess
                             (f_filename (fattura_of Run.env_ok Run.the_match
                                            (data Run.st0)))
                             (invoice_total (m_preventivo Run.the_match))),
                   mkProcessor (data_invoiced Run.env_ok Run.the_match (data Run.st0))
                               (data_invoiced Run.env_ok Run.the_match (data Run.st0))))
      by reflexivity.
    destruct (K _ _ _ G) as (m & I & _ & X).
    rewrite C in I. destruct I as [<-|[]].
    eexists _, _, _. split; [exact G | exact X].
  - apply (proj1 (proj2 (@genera_fattura_selects Exact.runtime Run.env_ok
                           (lit "9999") Run.st0))).
    intros m I E. rewrite C in I. destruct I as [<-|[]].
    vm_compute in E. discriminate E.
Defined.

(** A run of X14 on two cases. *)
Lemma genera_tutti_in_date_order_witness :
  exists generated st' new,
    genera_tutti (fun _ => Run.env_ok) Run3.st_pair = (Return generated, st')
    /\ fatture_generate (data st') = [] ++ new
    /\ StronglySorted (by_key fattura_key) new
    /\ map (fun f => (f_filename f, f_totale f)) new = generated.
Proof.
  destruct (@genera_tutti_in_date_order Exact.runtime (fun _ => Run.env_ok)
              Run3.st_pair)
    as (g & st' & new & E & Fa & S & _ & _ & K).
  exists g, st', new.
  split; [exact E|]. split; [exact Fa|]. split; [exact S|].
  apply K. intros _. reflexivity.
Defined.


(** A run of X18: a row of 24 cells gives nothing, with one more cell it
    gives an item. *)
Lemma short_rows_give_no_item_witness :
  num_gtb (PyRuntime := Exact.runtime) num_zero num_zero = false
  /\ _extract_items_from_table (R := Exact.runtime) [[Run4.row_24]] = []
  /\ List.length (_extract_items_from_table (R := Exact.runtime) [[Run4.row_25]])
     = 1%nat.
Proof.
  assert (Z : num_gtb (PyRuntime := Exact.runtime) num_zero num_zero = false)
    by reflexivity.
  split; [exact Z|]. split; [|vm_compute; reflexivity].
  apply (@short_rows_give_no_item Exact.runtime [[Run4.row_24]] Z).
  intros t raw [<-|[]] [<-|[]]. simpl. lia.
Defined.

(** A run of X19 on a table that states the labor of one category twice. *)
Lemma one_item_per_synthetic_label_witness :
  In (lit "Manodopera " ++ lit "meccanica") synthetic_labels
  /\ (count_starts (lit "Manodopera " ++ lit "meccanica")
        (items (parse_preventivo (R := Exact.runtime) Run.env_ok
                  Run.text_fee_500 (lit "a.pdf") Run4.labor_twice))
      <= 1)%nat.
Proof.
  assert (H : In (lit "Manodopera " ++ lit "meccanica") synthetic_labels)
    by (right; left; reflexivity).
  split; [exact H|].
  exact (proj2 (@one_item_per_synthetic_label Exact.runtime Run.env_ok
                  Run.text_fee_500 (lit "a.pdf") Run4.labor_twice _ H)).
Defined.
